(** * Content-moderation decision engine: scoring, escalation, merge and
      the per-record state machine of [profanity_check.py].

    The Python source works on dynamically typed dictionaries and catches
    exceptions at almost every boundary.  The embedding keeps both: values
    are a small universe of Python objects, dictionaries are association
    lists in insertion order, and every function whose body sits in a
    [try] block is written in an exception monad and closed by the handler
    the source gives it.

    Numbers: Python [int] and [float] are both embedded as exact rationals
    ([Q]); every finite float is a rational and comparisons against the
    literals of the source are exact, rounding of sums and products is not
    modelled. *)

From Stdlib Require Import ZArith QArith Qabs Qminmax List String Ascii Bool Lia Lqa.
Import ListNotations.

Set Warnings "-register-all".

Local Open Scope string_scope.
Local Open Scope list_scope.

(* ================================================================== *)
(** ** Python objects *)
(* ================================================================== *)

Module Py.

(** Exceptions: the class name and the text [str(e)] yields. *)
Record exn : Type := Exn { exn_class : string; exn_msg : string }.

Inductive result (A : Type) : Type :=
| Ok (a : A)
| Raise (e : exn).
Arguments Ok {A} a.
Arguments Raise {A} e.

Definition bind {A B} (c : result A) (k : A -> result B) : result B :=
  match c with
  | Ok a => k a
  | Raise e => Raise e
  end.

Definition str_exn (e : exn) : string := exn_msg e.

(** The message texts are abbreviated; no decision depends on them. *)
Definition TypeError (m : string) : exn := Exn "TypeError" m.
Definition AttributeError (m : string) : exn := Exn "AttributeError" m.
Definition KeyError (k : string) : exn := Exn "KeyError" k.
Definition ZeroDivisionError : exn := Exn "ZeroDivisionError" "division by zero".

(** The objects the moderation code handles.  [VNum] covers [int] and
    [float]; a [datetime] is represented by its [isoformat()] text;
    dictionary keys are always strings in the source. *)
Inductive value : Type :=
| VNone
| VBool (b : bool)
| VNum (q : Q)
| VStr (s : string)
| VDatetime (iso : string)
| VList (l : list value)
| VDict (d : list (string * value)).

Definition dict : Type := list (string * value).

Fixpoint lookup (d : dict) (k : string) : option value :=
  match d with
  | [] => None
  | (k', v) :: d' => if String.eqb k k' then Some v else lookup d' k
  end.

(** [d[k] = v]: replaces in place, or appends a new key. *)
Fixpoint store (d : dict) (k : string) (v : value) : dict :=
  match d with
  | [] => [(k, v)]
  | (k', v') :: d' =>
      if String.eqb k k' then (k', v) :: d' else (k', v') :: store d' k v
  end.

(** [d.update(u)] *)
Definition update (d u : dict) : dict :=
  fold_left (fun acc kv => store acc (fst kv) (snd kv)) u d.

(** [d.get(k, dflt)] on a dictionary. *)
Definition get (d : dict) (k : string) (dflt : value) : value :=
  match lookup d k with
  | Some v => v
  | None => dflt
  end.

(** [v.get(k, dflt)] on any object: only dictionaries have [get]. *)
Definition py_get (v : value) (k : string) (dflt : value) : result value :=
  match v with
  | VDict d => Ok (get d k dflt)
  | _ => Raise (AttributeError "object has no attribute 'get'")
  end.

(** [d[k]] *)
Definition subscript (d : dict) (k : string) : result value :=
  match lookup d k with
  | Some v => Ok v
  | None => Raise (KeyError k)
  end.

(** [k in d] *)
Definition has_key (d : dict) (k : string) : bool :=
  match lookup d k with
  | Some _ => true
  | None => false
  end.

Definition Qnat (n : nat) : Q := inject_Z (Z.of_nat n).

Definition Qeqb0 (q : Q) : bool := Qeq_bool q 0.

Definition Qltb (a b : Q) : bool := negb (Qle_bool b a).

(** Truth value of an object in a condition. *)
Definition truthy (v : value) : bool :=
  match v with
  | VNone => false
  | VBool b => b
  | VNum q => negb (Qeqb0 q)
  | VStr s => negb (String.eqb s "")
  | VDatetime _ => true
  | VList l => match l with [] => false | _ => true end
  | VDict d => match d with [] => false | _ => true end
  end.

(** Numeric reading of an object ([bool] is a subclass of [int]). *)
Definition num_of (v : value) : option Q :=
  match v with
  | VBool b => Some (if b then 1 else 0)%Q
  | VNum q => Some q
  | _ => None
  end.

Definition as_num (v : value) : result Q :=
  match num_of v with
  | Some q => Ok q
  | None => Raise (TypeError "unsupported operand type(s)")
  end.

(** [v > c], [v >= c], [c <= v <= c'] against numeric literals. *)
Definition py_gt (v : value) (c : Q) : result bool :=
  bind (as_num v) (fun q => Ok (Qltb c q)).

Definition py_ge (v : value) (c : Q) : result bool :=
  bind (as_num v) (fun q => Ok (Qle_bool c q)).

Definition py_between (lo : Q) (v : value) (hi : Q) : result bool :=
  bind (as_num v) (fun q => Ok (Qle_bool lo q && Qle_bool q hi)).

(** [v == 'literal'] *)
Definition py_eq_str (v : value) (s : string) : bool :=
  match v with
  | VStr s' => String.eqb s' s
  | _ => false
  end.

(** [len(v)] *)
Definition py_len (v : value) : result nat :=
  match v with
  | VStr s => Ok (String.length s)
  | VList l => Ok (List.length l)
  | VDict d => Ok (List.length d)
  | _ => Raise (TypeError "object has no len()")
  end.

Definition is_substring (needle hay : string) : bool :=
  match String.index 0 needle hay with
  | Some _ => true
  | None => false
  end.

(** ['literal' in v] *)
Definition py_in_str (needle : string) (v : value) : result bool :=
  match v with
  | VList l => Ok (existsb (fun x => py_eq_str x needle) l)
  | VDict d => Ok (existsb (fun kv => String.eqb (fst kv) needle) d)
  | VStr s => Ok (is_substring needle s)
  | _ => Raise (TypeError "argument is not iterable")
  end.

(** [min(a, b)] and [max(a, b)] on numbers: the first argument wins ties. *)
Definition py_min (a b : Q) : Q := if Qltb b a then b else a.
Definition py_max (a b : Q) : Q := if Qltb a b then b else a.

(** [v * n] for an integer literal [n]: numbers multiply, sequences
    repeat. *)
Fixpoint repeat_string (s : string) (n : nat) : string :=
  match n with
  | O => ""
  | S n' => s ++ repeat_string s n'
  end.

Definition py_mul_int (v : value) (n : nat) : result value :=
  match v with
  | VStr s => Ok (VStr (repeat_string s n))
  | VList l => Ok (VList (List.concat (List.repeat l n)))
  | _ => bind (as_num v) (fun q => Ok (VNum (q * Qnat n)))
  end.

(** [v * c] for a float literal [c]: numbers only. *)
Definition py_mul_float (v : value) (c : Q) : result Q :=
  bind (as_num v) (fun q => Ok (q * c)%Q).

(** [t += v] where [t] holds a number. *)
Definition py_add_num (t : Q) (v : value) : result Q :=
  bind (as_num v) (fun q => Ok (t + q)%Q).

(** [v[:n]] *)
Definition py_slice_to (v : value) (n : nat) : result value :=
  match v with
  | VList l => Ok (VList (firstn n l))
  | VStr s => Ok (VStr (String.substring 0 n s))
  | _ => Raise (TypeError "object is not subscriptable")
  end.

(** [max(a, b)] on objects.  Every call in the source has a number as
    its first argument; a number compares with numbers only.  Orderings
    among non-numbers are not modelled. *)
Definition py_max_value (a b : value) : result value :=
  bind (as_num a) (fun qa =>
  bind (as_num b) (fun qb =>
  Ok (if Qltb qa qb then b else a))).

(** [l.append(x)]: lists only. *)
Definition py_append (l x : value) : result value :=
  match l with
  | VList xs => Ok (VList (xs ++ [x]))
  | _ => Raise (AttributeError "object has no attribute 'append'")
  end.

(** [a / b] *)
Definition py_truediv (a b : Q) : result Q :=
  if Qeqb0 b then Raise ZeroDivisionError else Ok (a / b)%Q.

(** [isinstance(v, collections.abc.Hashable)]: usable as a dictionary key. *)
Definition hashable (v : value) : bool :=
  match v with
  | VList _ | VDict _ => false
  | _ => true
  end.

End Py.
Import Py.

Notation "x <- c ;; k" := (Py.bind c (fun x => k))
  (at level 61, c at next level, right associativity).

(* ================================================================== *)
(** ** Strings: the [str] methods the source calls *)
(* ================================================================== *)

Module Str.

(** Characters are code points below 256; the two classifications follow
    [str.isspace] and [str.isupper] on that range. *)
Definition isspace (c : ascii) : bool :=
  let n := nat_of_ascii c in
  ((9 <=? n) && (n <=? 13) || (28 <=? n) && (n <=? 32)
   || (n =? 133) || (n =? 160))%nat.

Definition isupper (c : ascii) : bool :=
  let n := nat_of_ascii c in
  ((65 <=? n) && (n <=? 90) || (192 <=? n) && (n <=? 214)
   || (216 <=? n) && (n <=? 222))%nat.

Definition is_empty (s : string) : bool :=
  match s with EmptyString => true | _ => false end.

Fixpoint lstrip (p : ascii -> bool) (s : string) : string :=
  match s with
  | EmptyString => EmptyString
  | String c s' => if p c then lstrip p s' else s
  end.

Fixpoint rstrip (p : ascii -> bool) (s : string) : string :=
  match s with
  | EmptyString => EmptyString
  | String c s' =>
      let r := rstrip p s' in
      if p c && is_empty r then EmptyString else String c r
  end.

(** [s.strip()] and [s.strip(chars)] *)
Definition strip_by (p : ascii -> bool) (s : string) : string :=
  rstrip p (lstrip p s).
Definition strip (s : string) : string := strip_by isspace s.

(** [s.split()]: maximal runs of non-space characters. *)
Fixpoint split_from (s cur : string) : list string :=
  match s with
  | EmptyString => if is_empty cur then [] else [cur]
  | String c s' =>
      if isspace c
      then (if is_empty cur then split_from s' "" else cur :: split_from s' "")
      else split_from s' (cur ++ String c "")
  end.
Definition split (s : string) : list string := split_from s "".

(** [re.split(r'[.!?]+', s)]: the pieces between maximal runs of
    separator characters, empty pieces at the ends included. *)
Definition is_sentence_end (c : ascii) : bool :=
  (Ascii.eqb c "." || Ascii.eqb c "!" || Ascii.eqb c "?")%char.

Fixpoint re_split_from (s cur : string) (in_run : bool) : list string :=
  match s with
  | EmptyString => [cur]
  | String c s' =>
      if is_sentence_end c
      then (if in_run then re_split_from s' "" true
            else cur :: re_split_from s' "" true)
      else re_split_from s' (cur ++ String c "") false
  end.
Definition re_split_sentences (s : string) : list string :=
  re_split_from s "" false.

(** [s.count(c)] for a one-character pattern, and the generator sums. *)
Fixpoint count_if (p : ascii -> bool) (s : string) : nat :=
  match s with
  | EmptyString => 0
  | String c s' => (if p c then 1 else 0) + count_if p s'
  end.

Definition sum_lengths (ws : list string) : nat :=
  fold_right (fun w n => String.length w + n)%nat 0%nat ws.

End Str.

(* ================================================================== *)
(** ** Signal extractors: text statistics *)
(* ================================================================== *)

(** The body of the [try] block of [_analyze_text_stats]. *)
Definition _analyze_text_stats_try (text : string) : result value :=
  let words := Str.split text in
  let sentences := Str.re_split_sentences text in
  avg_word_length <-
    (if truthy (VList (map VStr words))
     then py_truediv (Qnat (Str.sum_lengths words)) (Qnat (List.length words))
     else Ok 0%Q) ;;
  uppercase_ratio <-
    (if truthy (VStr text)
     then py_truediv (Qnat (Str.count_if Str.isupper text))
                     (Qnat (String.length text))
     else Ok 0%Q) ;;
  Ok (VDict
        [ ("char_count", VNum (Qnat (String.length text)));
          ("word_count", VNum (Qnat (List.length words)));
          ("sentence_count",
            VNum (Qnat (List.length
                          (filter (fun s => truthy (VStr (Str.strip s)))
                                  sentences))));
          ("avg_word_length", VNum avg_word_length);
          ("uppercase_ratio", VNum uppercase_ratio);
          ("exclamation_count",
            VNum (Qnat (Str.count_if (fun c => Ascii.eqb c "!"%char) text)));
          ("question_count",
            VNum (Qnat (Str.count_if (fun c => Ascii.eqb c "?"%char) text))) ]).

Definition _analyze_text_stats (text : string) : value :=
  match _analyze_text_stats_try text with
  | Ok d => d
  | Raise _ => VDict []
  end.

(* ================================================================== *)
(** ** The service object *)
(* ================================================================== *)

(** [self]: the configuration read in [__init__] and the behaviour of the
    libraries and services the methods call.  A library call either
    returns or raises. *)
Record Service : Type := {
  severity_threshold : Z;
  bedrock_model_id : string;
  (** [format(x, '.2f')] and [str(v)] as used inside f-strings *)
  format_2f : Q -> string;
  str_value : value -> string;
  (** [datetime.utcnow().isoformat()] *)
  utcnow_isoformat : string;
  (** [alt_profanity_check]: [predict_prob([text])[0]], [predict([text])[0]] *)
  predict_prob : string -> result Q;
  predict : string -> result Z;
  (** [better_profanity] *)
  contains_profanity : string -> result bool;
  censor : string -> result string;
  (** VADER [polarity_scores]: compound, pos, neg, neu *)
  polarity_scores : string -> result (Q * Q * Q * Q);
  (** [ET.fromstring]: a parsed document is represented by the text
      [root.find(path).text] yields for each path ([None] when there is
      no such element or it has no text). *)
  ET_fromstring : string -> result (string -> option string);
  (** The Bedrock round trip of [analyze_with_bedrock] up to and
      including [json.loads]: [Ok (Some d)] when a JSON object was found
      in the reply, [Ok None] when none was, [Raise] when the call or the
      parse raised. *)
  bedrock_reply : string -> value -> result (option dict);
  (** [get_user_context]: a query with its own fallback, never raises. *)
  get_user_context : value -> dict;
  (** [fetch_complaints_from_db]: the rows the [SELECT] returns. *)
  fetch_complaints_from_db : value -> value -> list dict;
  (** Whether the n-th call of [update_moderation_status] in this run
      connects, executes and commits. *)
  db_commit_ok : nat -> bool;
  (** Whether [s3.put_object] and [sns.publish] succeed for a complaint. *)
  s3_put_ok : value -> bool;
  sns_publish_ok : value -> bool
}.

(* ================================================================== *)
(** ** Signal aggregator *)
(* ================================================================== *)

(** The three locals the scoring part of [_calculate_overall_assessment]
    updates. *)
Record tally : Type := Tally {
  total_score : Q;
  concerns : list string;
  flagged_methods : list string
}.

Definition tally0 : tally := Tally 0 [] [].

Definition fmt_2f (self : Service) (v : value) : result string :=
  q <- as_num v ;; Ok (format_2f self q).

(** Analyze ML profanity results *)
Definition score_ml (self : Service) (analysis_results : value) (t : tally)
  : result tally :=
  ml_result <- py_get analysis_results "ml_profanity_check" (VDict []) ;;
  is_profane <- py_get ml_result "is_profane" (VBool false) ;;
  if truthy is_profane then
    let flagged := flagged_methods t ++ ["ML_PROFANITY"] in
    p <- py_get ml_result "profanity_probability" (VNum 0) ;;
    ml_score <- py_mul_int p 4 ;;
    total <- py_add_num (total_score t) ml_score ;;
    p' <- py_get ml_result "profanity_probability" (VNum 0) ;;
    shown <- fmt_2f self p' ;;
    Ok (Tally total
              (concerns t ++ [("ML detected profanity (confidence: " ++ shown ++ ")")%string])
              flagged)
  else Ok t.

(** Analyze dictionary profanity results *)
Definition score_dictionary (self : Service) (analysis_results : value) (t : tally)
  : result tally :=
  dict_result <- py_get analysis_results "dictionary_profanity" (VDict []) ;;
  has_profanity <- py_get dict_result "has_profanity" (VBool false) ;;
  if truthy has_profanity then
    let flagged := flagged_methods t ++ ["DICTIONARY_PROFANITY"] in
    wc <- py_get dict_result "word_count" (VNum 0) ;;
    scaled <- py_mul_float wc 1.5 ;;
    let word_penalty := py_min scaled 3 in
    let total := (total_score t + word_penalty)%Q in
    flagged_words <- py_get dict_result "flagged_words" (VList []) ;;
    n <- py_len flagged_words ;;
    first3 <- py_slice_to flagged_words 3 ;;
    Ok (Tally total
              (concerns t ++
                 [("Dictionary flagged " ++ str_value self (VNum (Qnat n))
                   ++ " word(s): " ++ str_value self first3)%string])
              flagged)
  else Ok t.

(** Analyze sentiment *)
Definition score_sentiment (self : Service) (analysis_results : value) (t : tally)
  : result tally :=
  sentiment_result <- py_get analysis_results "sentiment_analysis" (VDict []) ;;
  sentiment <- py_get sentiment_result "sentiment" VNone ;;
  if py_eq_str sentiment "NEGATIVE" then
    intensity <- py_get sentiment_result "intensity" (VNum 0) ;;
    strong <- py_gt intensity 0.6 ;;
    if strong then
      let flagged := flagged_methods t ++ ["STRONG_NEGATIVE_SENTIMENT"] in
      doubled <- py_mul_int intensity 2 ;;
      total <- py_add_num (total_score t) doubled ;;
      shown <- fmt_2f self intensity ;;
      Ok (Tally total
                (concerns t ++ [("Strong negative sentiment (intensity: " ++ shown ++ ")")%string])
                flagged)
    else
      moderate <- py_gt intensity 0.3 ;;
      if moderate then
        let flagged := flagged_methods t ++ ["MODERATE_NEGATIVE_SENTIMENT"] in
        total <- py_add_num (total_score t) intensity ;;
        shown <- fmt_2f self intensity ;;
        Ok (Tally total
                  (concerns t ++ [("Moderate negative sentiment (intensity: " ++ shown ++ ")")%string])
                  flagged)
      else Ok t
  else Ok t.

(** Text pattern analysis *)
Definition score_text_stats (analysis_results : value) (t : tally) : result tally :=
  text_stats <- py_get analysis_results "text_stats" (VDict []) ;;
  ratio <- py_get text_stats "uppercase_ratio" (VNum 0) ;;
  caps <- py_gt ratio 0.3 ;;
  let t1 :=
    if caps
    then Tally (total_score t + 0.5)
               (concerns t ++ ["Excessive capital letters detected"])
               (flagged_methods t ++ ["EXCESSIVE_CAPS"])
    else t in
  excl <- py_get text_stats "exclamation_count" (VNum 0) ;;
  many <- py_gt excl 3 ;;
  Ok (if many
      then Tally (total_score t1 + 0.3)
                 (concerns t1 ++ ["Multiple exclamation marks"])
                 (flagged_methods t1)
      else t1).

(** Lines 425-468: the weighted score with its concerns and method tags. *)
Definition score_signals (self : Service) (analysis_results : value) : result tally :=
  t1 <- score_ml self analysis_results tally0 ;;
  t2 <- score_dictionary self analysis_results t1 ;;
  t3 <- score_sentiment self analysis_results t2 ;;
  score_text_stats analysis_results t3.

(** The body of the [try] block of [_should_use_ai_analysis]. *)
Definition _should_use_ai_analysis_try (assessment : dict) (analysis_results : value)
  : result bool :=
  high <- py_gt (get assessment "confidence_score" (VNum 0)) 0.7 ;;
  n <- py_len (get assessment "flagged_by_methods" (VList [])) ;;
  borderline <- py_between 0.3 (get assessment "confidence_score" (VNum 0)) 0.7 ;;
  has_strong <- py_in_str "STRONG_NEGATIVE_SENTIMENT"
                          (get assessment "flagged_by_methods" (VList [])) ;;
  sole_strong <-
    (if has_strong
     then n1 <- py_len (get assessment "flagged_by_methods" (VList [])) ;;
          Ok (Nat.eqb n1 1)
     else Ok false) ;;
  let ai_beneficial_conditions := [high; (2 <=? n)%nat; borderline; sole_strong] in
  Ok (existsb (fun c => c) ai_beneficial_conditions).

Definition _should_use_ai_analysis (assessment : dict) (analysis_results : value)
  : bool :=
  match _should_use_ai_analysis_try assessment analysis_results with
  | Ok b => b
  | Raise _ => false
  end.

Definition initial_assessment : dict :=
  [ ("should_flag", VBool false);
    ("confidence_score", VNum 0);
    ("severity_level", VStr "LOW");
    ("primary_concerns", VList []);
    ("flagged_by_methods", VList []);
    ("recommendation", VStr "APPROVE");
    ("requires_ai_analysis", VBool false) ].

(** Lines 470-487: "Final assessment" and "Determine if flagging is needed". *)
Definition grade (self : Service) (t : tally) : dict :=
  let a := store initial_assessment "flagged_by_methods"
                 (VList (map VStr (flagged_methods t))) in
  let a := store a "primary_concerns" (VList (map VStr (concerns t))) in
  let a := store a "confidence_score" (VNum (py_min (total_score t / 6) 1)) in
  if Qle_bool (inject_Z (severity_threshold self)) (total_score t) then
    let a := store a "should_flag" (VBool true) in
    if Qle_bool 5 (total_score t) then
      store (store a "severity_level" (VStr "CRITICAL")) "recommendation" (VStr "ESCALATE")
    else if Qle_bool 3.5 (total_score t) then
      store (store a "severity_level" (VStr "HIGH")) "recommendation" (VStr "FLAG")
    else
      store (store a "severity_level" (VStr "MEDIUM")) "recommendation" (VStr "REVIEW")
  else a.

(** The body of the [try] block of [_calculate_overall_assessment]. *)
Definition _calculate_overall_assessment_try (self : Service) (analysis_results : value)
  : result dict :=
  t <- score_signals self analysis_results ;;
  let assessment := grade self t in
  Ok (store assessment "requires_ai_analysis"
            (VBool (_should_use_ai_analysis assessment analysis_results))).

Definition failsafe_assessment (e : exn) : dict :=
  [ ("should_flag", VBool true);
    ("severity_level", VStr "HIGH");
    ("recommendation", VStr "REVIEW");
    ("error", VStr (str_exn e)) ].

Definition _calculate_overall_assessment (self : Service) (analysis_results : value)
  : dict :=
  match _calculate_overall_assessment_try self analysis_results with
  | Ok assessment => assessment
  | Raise e => failsafe_assessment e
  end.

(* ================================================================== *)
(** ** Signal extractors: classifier, lexicon, sentiment *)
(* ================================================================== *)

Definition _ml_profanity_analysis (self : Service) (text : string) : value :=
  let body :=
    profanity_prob <- predict_prob self text ;;
    label <- predict self text ;;
    let is_profane := Z.eqb label 1 in
    Ok (VDict
          [ ("is_profane", VBool is_profane);
            ("profanity_probability", VNum profanity_prob);
            ("confidence",
              VNum (if is_profane then profanity_prob else 1 - profanity_prob));
            ("method", VStr "ml_based");
            ("model", VStr "alt-profanity-check") ]) in
  match body with
  | Ok d => d
  | Raise e => VDict [("error", VStr (str_exn e)); ("method", VStr "ml_based")]
  end.

(** [list(set(xs))]: the iteration order of a set is unspecified; the
    embedding keeps first occurrences. *)
Fixpoint dedup (xs : list string) : list string :=
  match xs with
  | [] => []
  | x :: xs' => x :: filter (fun y => negb (String.eqb x y)) (dedup xs')
  end.

Definition is_trailing_punct (c : ascii) : bool :=
  existsb (Ascii.eqb c) ["."; ","; "!"; "?"; ";"; ":"]%char.

Definition _extract_flagged_words (original censored : string) : list string :=
  let original_words := Str.split original in
  let censored_words := Str.split censored in
  let flagged :=
    flat_map
      (fun oc : string * string =>
         let (orig, cens) := oc in
         if negb (String.eqb orig cens) && is_substring "*" cens
         then [Str.strip_by is_trailing_punct orig]
         else [])
      (combine original_words censored_words) in
  dedup flagged.

Definition _dictionary_profanity_analysis (self : Service) (text : string) : value :=
  let body :=
    has_profanity <- contains_profanity self text ;;
    censored_text <- censor self text ;;
    let flagged_words := _extract_flagged_words text censored_text in
    Ok (VDict
          [ ("has_profanity", VBool has_profanity);
            ("flagged_words", VList (map VStr flagged_words));
            ("word_count", VNum (Qnat (List.length flagged_words)));
            ("censored_preview",
              VStr (if (100 <? String.length censored_text)%nat
                    then (String.substring 0 100 censored_text ++ "...")%string
                    else censored_text));
            ("method", VStr "dictionary_based");
            ("library", VStr "better-profanity") ]) in
  match body with
  | Ok d => d
  | Raise e => VDict [("error", VStr (str_exn e)); ("method", VStr "dictionary_based")]
  end.

Definition _sentiment_analysis (self : Service) (text : string) : value :=
  let body :=
    scores <- polarity_scores self text ;;
    let '(compound, pos, neg, neu) := scores in
    let sentiment :=
      if Qle_bool 0.05 compound then "POSITIVE"
      else if Qle_bool compound (-0.05) then "NEGATIVE"
      else "NEUTRAL" in
    Ok (VDict
          [ ("sentiment", VStr sentiment);
            ("compound_score", VNum compound);
            ("positive_score", VNum pos);
            ("negative_score", VNum neg);
            ("neutral_score", VNum neu);
            ("intensity", VNum (Qabs compound));
            ("method", VStr "nltk_vader") ]) in
  match body with
  | Ok d => d
  | Raise e => VDict [("error", VStr (str_exn e)); ("method", VStr "nltk_vader")]
  end.

(** Lines 280-299 of [comprehensive_profanity_analysis]: the four signal
    reports.  Each extractor has its own handler and returns a
    dictionary, so the outer [try] never sees an exception. *)
Definition signal_reports (self : Service) (text : string) : dict :=
  let results :=
    [ ("ml_profanity_check", VDict []);
      ("dictionary_profanity", VDict []);
      ("sentiment_analysis", VDict []);
      ("text_stats", VDict []);
      ("overall_assessment", VDict []) ] in
  let results := store results "text_stats" (_analyze_text_stats text) in
  let results := store results "ml_profanity_check" (_ml_profanity_analysis self text) in
  let results :=
    store results "dictionary_profanity" (_dictionary_profanity_analysis self text) in
  store results "sentiment_analysis" (_sentiment_analysis self text).

Definition comprehensive_profanity_analysis (self : Service) (text : string) : dict :=
  let results := signal_reports self text in
  store results "overall_assessment"
        (VDict (_calculate_overall_assessment self (VDict results))).

(* ================================================================== *)
(** ** Secondary analyzer adapter and decision merger *)
(* ================================================================== *)

Definition analyze_with_bedrock (self : Service) (text : string) (user_context : value)
  : dict :=
  match bedrock_reply self text user_context with
  | Ok (Some ai_analysis) =>
      [ ("ai_analysis", VDict ai_analysis);
        ("model_used", VStr (bedrock_model_id self));
        ("success", VBool true) ]
  | Ok None => [("success", VBool false); ("error", VStr "Invalid JSON response")]
  | Raise e => [("success", VBool false); ("error", VStr (str_exn e))]
  end.

Definition severity_names : list string := ["LOW"; "MEDIUM"; "HIGH"; "CRITICAL"].

(** [mapping.get(urgency, 'LOW')]: an unhashable key raises. *)
Definition _map_ai_urgency_to_severity (urgency : value) : result string :=
  if hashable urgency then
    Ok (match urgency with
        | VStr u => if existsb (String.eqb u) severity_names then u else "LOW"
        | _ => "LOW"
        end)
  else Raise (TypeError "unhashable type").

(** [ranks.get(severity, 1)] *)
Definition rank_of_name (s : string) : Z :=
  if String.eqb s "LOW" then 1
  else if String.eqb s "MEDIUM" then 2
  else if String.eqb s "HIGH" then 3
  else if String.eqb s "CRITICAL" then 4
  else 1.

Definition _severity_rank (severity : value) : result Z :=
  if hashable severity then
    Ok (match severity with
        | VStr s => rank_of_name s
        | _ => 1%Z
        end)
  else Raise (TypeError "unhashable type").

Definition base_decision (method : string) (library_assessment : dict) : dict :=
  [ ("should_flag", get library_assessment "should_flag" (VBool false));
    ("severity_level", get library_assessment "severity_level" (VStr "LOW"));
    ("confidence", get library_assessment "confidence_score" (VNum 0.5));
    ("recommendation", get library_assessment "recommendation" (VStr "APPROVE"));
    ("primary_method", VStr method);
    ("reasoning", get library_assessment "primary_concerns" (VList []));
    ("detection_methods", get library_assessment "flagged_by_methods" (VList [])) ].

(** The body of the [try] block of [_combine_library_and_ai_results].
    [final_decision['reasoning']] is the very list object stored under
    [library_assessment['primary_concerns']], so the [append] is seen
    through both; the second component is the library assessment after
    the call. *)
Definition _combine_library_and_ai_results_try
    (library_assessment ai_results : dict) : result (dict * dict) :=
  let final_decision := base_decision "combined_analysis" library_assessment in
  if truthy (get ai_results "success" VNone) && has_key ai_results "ai_analysis" then
    ai_data <- subscript ai_results "ai_analysis" ;;
    urgency <- py_get ai_data "urgency" (VStr "LOW") ;;
    ai_severity <- _map_ai_urgency_to_severity urgency ;;
    rank_ai <- _severity_rank (VStr ai_severity) ;;
    current <- subscript final_decision "severity_level" ;;
    rank_lib <- _severity_rank current ;;
    if (rank_lib <? rank_ai)%Z then
      current_rec <- subscript final_decision "recommendation" ;;
      recommendation <- py_get ai_data "recommended_action" current_rec ;;
      current_conf <- subscript final_decision "confidence" ;;
      ai_conf <- py_get ai_data "confidence" (VNum 0) ;;
      confidence <- py_max_value current_conf ai_conf ;;
      toxicity_score <- py_get ai_data "toxicity_score" (VNum 0) ;;
      threat_level <- py_get ai_data "threat_level" (VStr "NONE") ;;
      content_issues <- py_get ai_data "content_issues" (VList []) ;;
      summary <- py_get ai_data "summary" (VStr "") ;;
      requires_human_review <- py_get ai_data "requires_human_review" (VBool false) ;;
      let final_decision :=
        update final_decision
          [ ("severity_level", VStr ai_severity);
            ("recommendation", recommendation);
            ("confidence", confidence);
            ("ai_insights",
              VDict [ ("toxicity_score", toxicity_score);
                      ("threat_level", threat_level);
                      ("content_issues", content_issues);
                      ("summary", summary);
                      ("requires_human_review", requires_human_review) ]) ] in
      reasoning <- subscript final_decision "reasoning" ;;
      reasoning' <- py_append reasoning (VStr "AI analysis enhanced severity assessment") ;;
      Ok (store final_decision "reasoning" reasoning',
          if has_key library_assessment "primary_concerns"
          then store library_assessment "primary_concerns" reasoning'
          else library_assessment)
    else Ok (final_decision, library_assessment)
  else Ok (final_decision, library_assessment).

Definition _combine_library_and_ai_results_shared
    (library_assessment ai_results : dict) : dict * dict :=
  match _combine_library_and_ai_results_try library_assessment ai_results with
  | Ok r => r
  | Raise _ => (library_assessment, library_assessment)
  end.

(** The returned decision. *)
Definition _combine_library_and_ai_results (library_assessment ai_results : dict) : dict :=
  fst (_combine_library_and_ai_results_shared library_assessment ai_results).

(** The body of the [try] block of [enhanced_analysis]. *)
Definition enhanced_analysis_try (self : Service) (text : string) (user_context : value)
    (results : dict) : result dict :=
  let library_results := comprehensive_profanity_analysis self text in
  let results := store results "library_analysis" (VDict library_results) in
  let overall_assessment := get library_results "overall_assessment" (VDict []) in
  requires <- py_get overall_assessment "requires_ai_analysis" (VBool false) ;;
  if truthy requires then
    let ai_results := analyze_with_bedrock self text user_context in
    let results := store results "ai_analysis" (VDict ai_results) in
    match overall_assessment with
    | VDict assessment =>
        let (final_decision, assessment') :=
          _combine_library_and_ai_results_shared assessment ai_results in
        let results :=
          store results "library_analysis"
                (VDict (store library_results "overall_assessment" (VDict assessment'))) in
        Ok (store results "final_decision" (VDict final_decision))
    | _ => Raise (AttributeError "object has no attribute 'get'")
    end
  else
    should_flag <- py_get overall_assessment "should_flag" (VBool false) ;;
    severity_level <- py_get overall_assessment "severity_level" (VStr "LOW") ;;
    confidence <- py_get overall_assessment "confidence_score" (VNum 0.5) ;;
    recommendation <- py_get overall_assessment "recommendation" (VStr "APPROVE") ;;
    reasoning <- py_get overall_assessment "primary_concerns" (VList []) ;;
    detection_methods <- py_get overall_assessment "flagged_by_methods" (VList []) ;;
    let final_decision :=
      [ ("should_flag", should_flag);
        ("severity_level", severity_level);
        ("confidence", confidence);
        ("recommendation", recommendation);
        ("primary_method", VStr "libraries_only");
        ("reasoning", reasoning);
        ("detection_methods", detection_methods) ] in
    Ok (store results "final_decision" (VDict final_decision)).

Definition enhanced_analysis (self : Service) (text : string) (user_context : value)
  : dict :=
  let results :=
    [ ("text", VStr text);
      ("library_analysis", VDict []);
      ("ai_analysis", VDict []);
      ("final_decision", VDict []);
      ("processing_timestamp", VStr (utcnow_isoformat self)) ] in
  match enhanced_analysis_try self text user_context results with
  | Ok results' => results'
  | Raise e =>
      store (store results "error" (VStr (str_exn e)))
            "final_decision"
            (VDict [ ("should_flag", VBool true);
                     ("severity_level", VStr "HIGH");
                     ("recommendation", VStr "REVIEW");
                     ("primary_method", VStr "error_fallback");
                     ("error", VStr (str_exn e)) ])
  end.

(** Lines 1078-1099.  The function is written with a [self] parameter but
    its [def] sits at the indentation of the body of [lambda_handler],
    after both of its [return] statements. *)
Definition _ai_to_final_decision (ai_results : dict) : result dict :=
  if negb (truthy (get ai_results "success" VNone)) then
    Ok [ ("should_flag", VBool true);
         ("severity_level", VStr "HIGH");
         ("recommendation", VStr "REVIEW");
         ("primary_method", VStr "ai_error_fallback");
         ("error", get ai_results "error" (VStr "AI analysis failed")) ]
  else
    let ai_data := get ai_results "ai_analysis" (VDict []) in
    action <- py_get ai_data "recommended_action" (VStr "APPROVE") ;;
    urgency <- py_get ai_data "urgency" (VStr "LOW") ;;
    severity <- _map_ai_urgency_to_severity urgency ;;
    confidence <- py_get ai_data "confidence" (VNum 0.8) ;;
    action' <- py_get ai_data "recommended_action" (VStr "APPROVE") ;;
    summary <- py_get ai_data "summary" (VStr "AI analysis completed") ;;
    Ok [ ("should_flag",
           VBool (existsb (py_eq_str action) ["FLAG"; "ESCALATE"; "REVIEW"]));
         ("severity_level", VStr severity);
         ("confidence", confidence);
         ("recommendation", action');
         ("primary_method", VStr "ai_only");
         ("reasoning", VList [summary]);
         ("ai_insights", ai_data) ].

(* ================================================================== *)
(** ** Text extraction from a database record *)
(* ================================================================== *)

Definition _safe_xml_extract (root : string -> option string) (xpath : string)
  : option string :=
  match root xpath with
  | Some t => if truthy (VStr t) then Some (Str.strip t) else None
  | None => None
  end.

(** [a or b] where [a] is an optional string and [b] a string. *)
Definition py_or (a : option string) (b : string) : string :=
  match a with
  | Some s => if truthy (VStr s) then s else b
  | None => b
  end.

(** [xml_to_json_converter]: every exception of the body is caught and
    turned into [None]; calling [strip] on an object that is not a string
    is one of them. *)
Definition xml_to_json_converter (self : Service) (xml_data : value) : option dict :=
  if negb (truthy xml_data) then None
  else match xml_data with
       | VStr s =>
           if negb (truthy (VStr (Str.strip s))) then None
           else match ET_fromstring self s with
                | Raise _ => None
                | Ok root =>
                    let ex := _safe_xml_extract root in
                    Some
                      [ ("complaint_text",
                          VStr (py_or (ex ".//complaint_text")
                                  (py_or (ex ".//description")
                                     (py_or (ex ".//message") ""))));
                        ("user_details",
                          VDict [ ("name", VStr (py_or (ex ".//user_name") ""));
                                  ("email", VStr (py_or (ex ".//email") "")) ]);
                        ("complaint_details",
                          VDict [ ("subject", VStr (py_or (ex ".//subject") ""));
                                  ("description", VStr (py_or (ex ".//description") ""));
                                  ("priority", VStr (py_or (ex ".//priority") "normal"));
                                  ("category", VStr (py_or (ex ".//category") "general")) ]) ]
                end
       | _ => None
       end.

Definition text_paths : list (list string) :=
  [ ["complaint_text"];
    ["complaint_details"; "description"];
    ["complaint_details"; "subject"];
    ["user_details"; "message"];
    ["description"];
    ["message"];
    ["content"] ].

(** [for key in path: value = value.get(key, {})] *)
Fixpoint follow_path (v : value) (path : list string) : result value :=
  match path with
  | [] => Ok v
  | key :: path' => v' <- py_get v key (VDict []) ;; follow_path v' path'
  end.

Fixpoint first_text (json_data : value) (paths : list (list string)) : string :=
  match paths with
  | [] => ""
  | path :: paths' =>
      match follow_path json_data path with
      | Ok (VStr s) =>
          if truthy (VStr (Str.strip s)) then Str.strip s
          else first_text json_data paths'
      | Ok _ => first_text json_data paths'
      | Raise _ => first_text json_data paths'
      end
  end.

Definition _extract_complaint_text (json_data : dict) : string :=
  first_text (VDict json_data) text_paths.

(** [v.isoformat()] *)
Definition isoformat (v : value) : result value :=
  match v with
  | VDatetime iso => Ok (VStr iso)
  | _ => Raise (AttributeError "object has no attribute 'isoformat'")
  end.

(** The body of the [try] block of [process_complaint_from_db]. *)
Definition process_complaint_from_db_try (self : Service) (db_record : dict)
  : result (option dict) :=
  xml <- subscript db_record "complaint_xml" ;;
  match xml_to_json_converter self xml with
  | None => Ok None
  | Some json_data =>
      if negb (truthy (VDict json_data)) then Ok None
      else
        let complaint_text := _extract_complaint_text json_data in
        if negb (truthy (VStr complaint_text))
           || (String.length (Str.strip complaint_text) <? 5)%nat
        then Ok None
        else
          db_id <- subscript db_record "id" ;;
          user_id <- subscript db_record "user_id" ;;
          created_at <- subscript db_record "created_at" ;;
          timestamp <- (if truthy created_at
                        then created <- subscript db_record "created_at" ;;
                             isoformat created
                        else Ok VNone) ;;
          Ok (Some
                [ ("db_id", db_id);
                  ("user_id", user_id);
                  ("timestamp", timestamp);
                  ("category", get db_record "category" (VStr "general"));
                  ("priority", get db_record "priority" (VStr "normal"));
                  ("complaint_text", VStr complaint_text);
                  ("original_json", VDict json_data);
                  ("db_record", VDict db_record) ])
  end.

Definition process_complaint_from_db (self : Service) (db_record : dict) : option dict :=
  match process_complaint_from_db_try self db_record with
  | Ok r => r
  | Raise _ => None
  end.

(* ================================================================== *)
(** ** Persistence and the batch orchestrator *)
(* ================================================================== *)

Record Metrics : Type := {
  processed_count : nat;
  flagged_count : nat;
  ai_used_count : nat;
  error_count : nat;
  library_only_count : nat
}.

Definition metrics0 : Metrics := Build_Metrics 0 0 0 0 0.

(** Records an iteration is through with: processed or counted as error. *)
Definition handled (m : Metrics) : nat := processed_count m + error_count m.

(** One call of [update_moderation_status] and whether it committed. *)
Record db_call : Type := DbCall {
  call_id : value;
  call_status : string;
  call_result : dict;
  call_committed : bool
}.

(** What a run has done so far: the calls to the result sink in order,
    the archive and notification requests, the metrics accumulator. *)
Record Run : Type := {
  db_calls : list db_call;
  archived : list (value * value);
  notified : list (value * value);
  metrics : Metrics
}.

Definition run0 : Run := Build_Run [] [] [] metrics0.

Definition with_metrics (f : Metrics -> Metrics) (r : Run) : Run :=
  Build_Run (db_calls r) (archived r) (notified r) (f (metrics r)).

Definition inc_processed (m : Metrics) : Metrics :=
  Build_Metrics (S (processed_count m)) (flagged_count m) (ai_used_count m)
                (error_count m) (library_only_count m).
Definition inc_flagged (m : Metrics) : Metrics :=
  Build_Metrics (processed_count m) (S (flagged_count m)) (ai_used_count m)
                (error_count m) (library_only_count m).
Definition inc_ai_used (m : Metrics) : Metrics :=
  Build_Metrics (processed_count m) (flagged_count m) (S (ai_used_count m))
                (error_count m) (library_only_count m).
Definition inc_error (m : Metrics) : Metrics :=
  Build_Metrics (processed_count m) (flagged_count m) (ai_used_count m)
                (S (error_count m)) (library_only_count m).
Definition inc_library_only (m : Metrics) : Metrics :=
  Build_Metrics (processed_count m) (flagged_count m) (ai_used_count m)
                (error_count m) (S (library_only_count m)).

(** Effectful code: a run is threaded through, an exception may escape. *)
Definition Eff (A : Type) : Type := Run -> Run * result A.

Definition ret_e {A} (a : A) : Eff A := fun r => (r, Ok a).

Definition bind_e {A B} (c : Eff A) (k : A -> Eff B) : Eff B :=
  fun r =>
    match c r with
    | (r', Ok a) => k a r'
    | (r', Raise e) => (r', Raise e)
    end.

Definition lift_e {A} (c : result A) : Eff A := fun r => (r, c).

Definition modify (f : Run -> Run) : Eff unit := fun r => (f r, Ok tt).

Notation "x <~ c ;; k" := (bind_e c (fun x => k))
  (at level 61, c at next level, right associativity).

(** [WHERE id = %s] on the integer key of the table. *)
Definition same_id (a b : value) : bool :=
  match a, b with
  | VNum x, VNum y => Qeq_bool x y
  | _, _ => false
  end.

(** The moderation status a record holds after a sequence of calls: that
    of the last committed one, [None] when none committed. *)
Fixpoint status_after (calls : list db_call) (id : value) : option string :=
  match calls with
  | [] => None
  | c :: calls' =>
      match status_after calls' id with
      | Some s => Some s
      | None =>
          if call_committed c && same_id (call_id c) id
          then Some (call_status c) else None
      end
  end.

Definition db_error : exn := Exn "OperationalError" "database error".

(** [update_moderation_status]: connect, read the severity out of the
    result, execute and commit; any failure is re-raised and nothing is
    written. *)
Definition update_moderation_status (self : Service)
    (complaint_id : value) (status : string) (analysis_result : dict) : Eff unit :=
  fun r =>
    let attempt :=
      if db_commit_ok self (List.length (db_calls r)) then
        severity <- py_get (get analysis_result "final_decision" (VDict []))
                           "severity_level" (VStr "LOW") ;;
        Ok tt
      else Raise db_error in
    let committed := match attempt with Ok _ => true | Raise _ => false end in
    (Build_Run (db_calls r ++ [DbCall complaint_id status analysis_result committed])
               (archived r) (notified r) (metrics r),
     attempt).

(** [store_flagged_content] and [send_notification] catch everything. *)
Definition store_flagged_content (self : Service) (complaint_data analysis_result : dict)
  : Eff value :=
  fun r =>
    let db_id := get complaint_data "db_id" VNone in
    let key :=
      if s3_put_ok self db_id
      then VStr ("flagged/" ++ utcnow_isoformat self ++ "/"
                 ++ str_value self (get complaint_data "user_id" (VStr "unknown")) ++ "/"
                 ++ str_value self (get complaint_data "db_id" (VStr "unknown"))
                 ++ ".json")%string
      else VNone in
    (Build_Run (db_calls r) (archived r ++ [(db_id, key)]) (notified r) (metrics r),
     Ok key).

Definition send_notification (self : Service)
    (analysis_result complaint_data : dict) (s3_key : value) : Eff unit :=
  fun r =>
    let db_id := get complaint_data "db_id" VNone in
    (Build_Run (db_calls r) (archived r)
               (if sns_publish_ok self db_id
                then notified r ++ [(db_id, s3_key)] else notified r)
               (metrics r),
     Ok tt).

(** Names bound on a [ProductionModerationService] object: the functions
    of the class body (lines 84-892) and the attributes [__init__] sets. *)
Definition ProductionModerationService_attributes : list string :=
  [ "__init__"; "_setup_profanity_detection"; "fetch_complaints_from_db";
    "xml_to_json_converter"; "_safe_xml_extract"; "process_complaint_from_db";
    "_extract_complaint_text"; "comprehensive_profanity_analysis";
    "_analyze_text_stats"; "_ml_profanity_analysis";
    "_dictionary_profanity_analysis"; "_sentiment_analysis";
    "_extract_flagged_words"; "_calculate_overall_assessment";
    "_should_use_ai_analysis"; "analyze_with_bedrock"; "get_user_context";
    "enhanced_analysis"; "_combine_library_and_ai_results";
    "_map_ai_urgency_to_severity"; "_severity_rank"; "update_moderation_status";
    "store_flagged_content"; "send_notification";
    "bedrock_runtime"; "comprehend"; "sns"; "s3"; "db"; "sns_topic_arn";
    "flagged_bucket"; "bedrock_model_id"; "ai_usage_threshold";
    "severity_threshold"; "nltk_analyzer" ].

(** [moderation_service.<name>]: attribute lookup on the service object. *)
Definition getattr_service (name : string) : result unit :=
  if existsb (String.eqb name) ProductionModerationService_attributes
  then Ok tt
  else Raise (AttributeError
                ("'ProductionModerationService' object has no attribute '"
                 ++ name ++ "'")%string).

Definition as_str (v : value) : result string :=
  match v with
  | VStr s => Ok s
  | _ => Raise (TypeError "expected str")
  end.

(** Lines 938-947: the record is unprocessable. *)
Definition mark_failed_processing (self : Service) (db_record : dict) : Eff unit :=
  id <~ lift_e (subscript db_record "id") ;;
  _ <~ update_moderation_status self id "failed_processing"
         [ ("error", VStr "Failed to convert XML to JSON or extract complaint text");
           ("processed_at", VStr (utcnow_isoformat self)) ] ;;
  modify (with_metrics inc_error).

(** Lines 949-1001: analysis, persistence, archive and notification. *)
Definition moderate (self : Service) (force_ai_analysis : value)
    (db_record complaint_data : dict) : Eff unit :=
  user_id <~ lift_e (subscript complaint_data "user_id") ;;
  let user_context := VDict (get_user_context self user_id) in
  text_v <~ lift_e (subscript complaint_data "complaint_text") ;;
  text <~ lift_e (as_str text_v) ;;
  analysis <~
    (if truthy force_ai_analysis then
       let ai_results := analyze_with_bedrock self text user_context in
       final_decision <~
         lift_e (_ <- getattr_service "_ai_to_final_decision" ;;
                 _ai_to_final_decision ai_results) ;;
       let analysis :=
         [ ("library_analysis", VDict []);
           ("ai_analysis", VDict ai_results);
           ("final_decision", VDict final_decision);
           ("processing_timestamp", VStr (utcnow_isoformat self)) ] in
       _ <~ (if truthy (get ai_results "success" VNone)
             then modify (with_metrics inc_ai_used) else ret_e tt) ;;
       ret_e analysis
     else
       let analysis := enhanced_analysis self text user_context in
       ai_part <~ lift_e (if has_key analysis "ai_analysis"
                          then a <- subscript analysis "ai_analysis" ;;
                               py_get a "success" VNone
                          else Ok (VBool false)) ;;
       _ <~ (if truthy ai_part
             then modify (with_metrics inc_ai_used)
             else modify (with_metrics inc_library_only)) ;;
       ret_e analysis) ;;
  let final_decision := get analysis "final_decision" (VDict []) in
  should_flag <~ lift_e (py_get final_decision "should_flag" (VBool false)) ;;
  let status := if truthy should_flag then "flagged" else "approved" in
  id <~ lift_e (subscript db_record "id") ;;
  _ <~ update_moderation_status self id status analysis ;;
  should_flag' <~ lift_e (py_get final_decision "should_flag" (VBool false)) ;;
  _ <~ (if truthy should_flag' then
          s3_key <~ store_flagged_content self complaint_data analysis ;;
          _ <~ send_notification self analysis complaint_data s3_key ;;
          modify (with_metrics inc_flagged)
        else ret_e tt) ;;
  modify (with_metrics inc_processed).

(** Lines 934-1001: the body of the per-record [try] block. *)
Definition process_record_try (self : Service) (force_ai_analysis : value)
    (db_record : dict) : Eff unit :=
  match process_complaint_from_db self db_record with
  | None => mark_failed_processing self db_record
  | Some complaint_data =>
      if negb (truthy (VDict complaint_data))
      then mark_failed_processing self db_record
      else moderate self force_ai_analysis db_record complaint_data
  end.

(** The payload of the retry write. *)
Definition retry_payload (self : Service) (db_record : dict) (e : exn) : result dict :=
  retry_count <- as_num (get db_record "retry_count" (VNum 0)) ;;
  Ok [ ("error", VStr (str_exn e));
       ("retry_count", VNum (retry_count + 1));
       ("last_error_at", VStr (utcnow_isoformat self)) ].

(** Lines 933-1019: one iteration of the loop with its handler.  The
    inner [try] swallows a failure of the retry write. *)
Definition process_record (self : Service) (force_ai_analysis : value)
    (db_record : dict) : Eff unit :=
  fun r =>
    match process_record_try self force_ai_analysis db_record r with
    | (r1, Ok _) => (r1, Ok tt)
    | (r1, Raise e) =>
        match subscript db_record "id" with
        | Raise e' => (r1, Raise e')
        | Ok _ =>
            let r2 := with_metrics inc_error r1 in
            let retry : Eff unit :=
              id <~ lift_e (subscript db_record "id") ;;
              payload <~ lift_e (retry_payload self db_record e) ;;
              update_moderation_status self id "retry" payload in
            (fst (retry r2), Ok tt)
        end
    end.

(** The [for] loop: an exception that leaves an iteration ends it. *)
Fixpoint process_batch (self : Service) (force_ai_analysis : value)
    (complaints : list dict) : Eff unit :=
  match complaints with
  | [] => ret_e tt
  | db_record :: rest =>
      _ <~ process_record self force_ai_analysis db_record ;;
      process_batch self force_ai_analysis rest
  end.

(** [lambda_handler], for a service object already constructed: the run
    and the status code of the response (its body reports the metrics). *)
Definition lambda_handler (self : Service) (event : dict) : Run * Z :=
  let body : Eff unit :=
    let batch_size := get event "batch_size" (VNum 50) in
    let status_filter := get event "status_filter" (VStr "pending") in
    let force_ai_analysis := get event "force_ai_analysis" (VBool false) in
    too_large <~ lift_e (py_gt batch_size 200) ;;
    let batch_size := if too_large then VNum 200 else batch_size in
    let complaints := fetch_complaints_from_db self batch_size status_filter in
    process_batch self force_ai_analysis complaints in
  match body run0 with
  | (r, Ok _) => (r, 200%Z)
  | (r, Raise _) => (r, 500%Z)
  end.

(* ================================================================== *)
(** ** Sample collaborators and inputs *)
(* ================================================================== *)

Module Sample.

(** A service whose classifier, lexicon and sentiment analyzer answer
    the same for every text, whose XML documents carry their whole text
    under [complaint_text], and whose Bedrock call and database behave
    as given. *)
Definition service (threshold : Z) (prob : Q) (label : Z) (lex_hit : bool)
    (compound : Q) (reply : result (option dict)) (db_ok : nat -> bool)
    (rows : list dict) : Service :=
  {| severity_threshold := threshold;
     bedrock_model_id := "anthropic.claude-3-haiku-20240307-v1:0";
     format_2f := fun _ => "0.00";
     str_value := fun _ => "";
     utcnow_isoformat := "2024-01-01T00:00:00";
     predict_prob := fun _ => Ok prob;
     predict := fun _ => Ok label;
     contains_profanity := fun _ => Ok lex_hit;
     censor := fun text => Ok text;
     polarity_scores := fun _ => Ok (compound, 0, 0, 1)%Q;
     ET_fromstring :=
       fun xml => Ok (fun path => if String.eqb path ".//complaint_text"
                                  then Some xml else None);
     bedrock_reply := fun _ _ => reply;
     get_user_context := fun uid => [("user_id", uid); ("complaint_count", VNum 0)];
     fetch_complaints_from_db := fun _ _ => rows;
     db_commit_ok := db_ok;
     s3_put_ok := fun _ => true;
     sns_publish_ok := fun _ => true |}.

Definition timeout : result (option dict) :=
  Raise (Exn "ReadTimeoutError" "Read timed out").

Definition always (b : bool) : nat -> bool := fun _ => b.

Definition row (id : Z) (xml : string) : dict :=
  [ ("id", VNum (inject_Z id));
    ("user_id", VStr "u1");
    ("complaint_xml", VStr xml);
    ("created_at", VDatetime "2024-01-01T00:00:00");
    ("status", VStr "pending");
    ("category", VStr "general");
    ("priority", VStr "normal") ].

(** Signal reports as the extractors shape them. *)
Definition reports (ml dictionary sentiment stats : dict) : value :=
  VDict [ ("ml_profanity_check", VDict ml);
          ("dictionary_profanity", VDict dictionary);
          ("sentiment_analysis", VDict sentiment);
          ("text_stats", VDict stats);
          ("overall_assessment", VDict []) ].

Definition ml_hit (p : Q) : dict :=
  [ ("is_profane", VBool true); ("profanity_probability", VNum p) ].

Definition lexicon_hit (words : list string) : dict :=
  [ ("has_profanity", VBool true);
    ("flagged_words", VList (map VStr words));
    ("word_count", VNum (Qnat (List.length words))) ].

Definition negative (intensity : value) : dict :=
  [ ("sentiment", VStr "NEGATIVE"); ("intensity", intensity) ].

(** ML probability 1.0 and one lexicon hit: total score 5.5. *)
Definition loud : value := reports (ml_hit 1) (lexicon_hit ["damn"]) [] [].

(** Only a strong negative sentiment of intensity 0.8: total score 1.6. *)
Definition bitter : value := reports [] [] (negative (VNum 0.8)) [].

(** A sentiment report whose intensity is missing its number. *)
Definition broken : value := reports [] [] (negative VNone) [].

Definition default_service : Service :=
  service 3 0 0 false 0 timeout (always true) [].

(** A secondary judgment and the result that carries it. *)
Definition judgment (urgency action : string) (confidence : Q) : dict :=
  [ ("toxicity_score", VNum 8);
    ("threat_level", VStr "HIGH");
    ("content_issues", VList [VStr "threats"]);
    ("urgency", VStr urgency);
    ("recommended_action", VStr action);
    ("summary", VStr "threatening language");
    ("confidence", VNum confidence);
    ("requires_human_review", VBool true) ].

Definition obtained (j : dict) : dict :=
  [ ("ai_analysis", VDict j);
    ("model_used", VStr "anthropic.claude-3-haiku-20240307-v1:0");
    ("success", VBool true) ].

Definition failed (message : string) : dict :=
  [ ("success", VBool false); ("error", VStr message) ].

(** The assessment of [bitter] under the default service: LOW/APPROVE
    with confidence 1.6/6, escalation required. *)
Definition bitter_assessment : dict :=
  _calculate_overall_assessment default_service bitter.

End Sample.

(* ================================================================== *)
(** ** Reading reports, assessments and decisions *)
(* ================================================================== *)

(** The three fields that decide what happens to a complaint. *)
Definition decision_of (a : dict) : value * value * value :=
  (get a "should_flag" VNone, get a "severity_level" VNone,
   get a "recommendation" VNone).

(** The rank of the severity the grading step assigns. *)
Definition grade_rank (self : Service) (total : Q) : Z :=
  if Qle_bool (inject_Z (severity_threshold self)) total then
    if Qle_bool 5 total then 4 else if Qle_bool 3.5 total then 3 else 2
  else 1.

(** The tally of a collection of reports, when scoring goes through. *)
Definition tally_of (self : Service) (analysis_results : value) : tally :=
  match score_signals self analysis_results with
  | Ok t => t
  | Raise _ => tally0
  end.

(** The number a signal report holds under a field, when it holds one. *)
Definition report_number (analysis_results : value) (report field : string)
  : option Q :=
  match analysis_results with
  | VDict d =>
      match get d report (VDict []) with
      | VDict r => num_of (get r field (VNum 0))
      | _ => None
      end
  | _ => None
  end.

(** Signal reports whose classifier probability and matched-term count
    are what the extractors produce: not negative. *)
Definition well_formed_reports (analysis_results : value) : Prop :=
  (forall p, report_number analysis_results "ml_profanity_check"
                           "profanity_probability" = Some p -> (0 <= p)%Q)
  /\ (forall n, report_number analysis_results "dictionary_profanity"
                              "word_count" = Some n -> (0 <= n)%Q).

(** The judgment a secondary-analysis result carries when the call
    succeeded, as the merger tests it. *)
Definition judgment_of (ai_results : dict) : option value :=
  if truthy (get ai_results "success" VNone) && has_key ai_results "ai_analysis"
  then lookup ai_results "ai_analysis"
  else None.

(** A judgment the model returned in the shape the prompt asks for, as
    far as the merger reads it: an object whose urgency can be looked up
    in the severity table and whose confidence, when given, is a number. *)
Definition well_typed_judgment (j : value) (d : dict) (cs : Q) : Prop :=
  j = VDict d
  /\ hashable (get d "urgency" (VStr "LOW")) = true
  /\ num_of (get d "confidence" (VNum 0)) = Some cs.

(** The severity the urgency of a judgment maps to. *)
Definition judged_severity (d : dict) : string :=
  match _map_ai_urgency_to_severity (get d "urgency" (VStr "LOW")) with
  | Ok s => s
  | Raise _ => "LOW"
  end.

(** The merged decision keeps the library's severity, recommendation and
    confidence. *)
Definition keeps_library (library_assessment final_decision : dict) : Prop :=
  get final_decision "severity_level" (VStr "LOW")
  = get library_assessment "severity_level" (VStr "LOW")
  /\ get final_decision "recommendation" (VStr "APPROVE")
     = get library_assessment "recommendation" (VStr "APPROVE")
  /\ get final_decision "confidence" (VNum 0.5)
     = get library_assessment "confidence_score" (VNum 0.5)
  /\ get final_decision "should_flag" (VBool false)
     = get library_assessment "should_flag" (VBool false).

(** The text [str(e)] of the [AttributeError] a lookup of
    [_ai_to_final_decision] on the service object raises. *)
Definition no_such_method : exn :=
  AttributeError
    "'ProductionModerationService' object has no attribute '_ai_to_final_decision'".

(** The write the handler of the loop attempts for a fetched row. *)
Definition retry_call (self : Service) (id : value) (e : exn) (committed : bool)
  : db_call :=
  DbCall id "retry"
         [ ("error", VStr (str_exn e));
           ("retry_count", VNum (0 + 1));
           ("last_error_at", VStr (utcnow_isoformat self)) ]
         committed.

(** A row as [fetch_complaints_from_db] returns it: the columns of its
    [SELECT] (so no [retry_count]), an integer key, and a [created_at]
    that is a [datetime] or NULL. *)
Definition fetched_row (db_record : dict) : Prop :=
  (exists n, lookup db_record "id" = Some (VNum n))
  /\ (exists u, lookup db_record "user_id" = Some u)
  /\ (exists x, lookup db_record "complaint_xml" = Some x)
  /\ (lookup db_record "created_at" = Some VNone
      \/ exists iso, lookup db_record "created_at" = Some (VDatetime iso))
  /\ lookup db_record "retry_count" = None.

(** What the body of one iteration does on a fetched row. *)
Inductive attempt (self : Service) (force : value) (rec : dict) (r : Run) (id : value)
  : Run * result unit -> Prop :=
| Unusable (payload : dict) :
    process_complaint_from_db self rec = None ->
    let ok := db_commit_ok self (List.length (db_calls r)) in
    attempt self force rec r id
      (Build_Run (db_calls r ++ [DbCall id "failed_processing" payload ok])
                 (archived r) (notified r)
                 (if ok then inc_error (metrics r) else metrics r),
       if ok then Ok tt else Raise db_error)
| Forced (cd : dict) :
    process_complaint_from_db self rec = Some cd ->
    truthy force = true ->
    attempt self force rec r id (r, Raise no_such_method)
| Standard (cd analysis : dict) (status : string) (r' : Run) :
    process_complaint_from_db self rec = Some cd ->
    truthy force = false ->
    let ok := db_commit_ok self (List.length (db_calls r)) in
    db_calls r' = db_calls r ++ [DbCall id status analysis ok] ->
    status = "flagged" \/ status = "approved" ->
    handled (metrics r') = (if ok then S (handled (metrics r)) else handled (metrics r)) ->
    attempt self force rec r id (r', if ok then Ok tt else Raise db_error).

(* ================================================================== *)
(** ** What the library pipeline contributes, in terms of the libraries *)
(* ================================================================== *)

(** The terms of the weighted score, written directly over what the
    libraries answer for a text.  They are compared with the score the
    aggregator computes from the extractors' reports. *)

(** Classifier: four times the probability when the label is 1. *)
Definition ml_contribution (self : Service) (text : string) : Q :=
  match predict_prob self text, predict self text with
  | Ok p, Ok label => if Z.eqb label 1 then p * 4 else 0
  | _, _ => 0
  end.

(** Lexicon: 1.5 per distinct flagged word, at most 3. *)
Definition dictionary_contribution (self : Service) (text : string) : Q :=
  match contains_profanity self text, censor self text with
  | Ok true, Ok censored =>
      py_min (Qnat (List.length (_extract_flagged_words text censored)) * 1.5) 3
  | _, _ => 0
  end.

(** Sentiment: for a negative text, twice the intensity above 0.6 and the
    intensity itself above 0.3. *)
Definition sentiment_contribution (self : Service) (text : string) : Q :=
  match polarity_scores self text with
  | Ok (compound, _, _, _) =>
      if Qle_bool 0.05 compound then 0
      else if Qle_bool compound (-0.05) then
        let intensity := Qabs compound in
        if Qltb 0.6 intensity then intensity * 2
        else if Qltb 0.3 intensity then intensity else 0
      else 0
  | Raise _ => 0
  end.

(** The share of upper-case characters, 0 for the empty text. *)
Definition uppercase_ratio_of (text : string) : Q :=
  if Str.is_empty text then 0
  else Qnat (Str.count_if Str.isupper text) / Qnat (String.length text).

(** Text patterns: 0.5 for more than 30% capitals, 0.3 for more than
    three exclamation marks. *)
Definition caps_contribution (text : string) : Q :=
  if Qltb 0.3 (uppercase_ratio_of text) then 0.5 else 0.

Definition exclamation_contribution (text : string) : Q :=
  if (3 <? Str.count_if (fun c => Ascii.eqb c "!"%char) text)%nat then 0.3 else 0.

(** When each method tag is set. *)
Definition ml_fires (self : Service) (text : string) : bool :=
  match predict_prob self text, predict self text with
  | Ok _, Ok label => Z.eqb label 1
  | _, _ => false
  end.

Definition dictionary_fires (self : Service) (text : string) : bool :=
  match contains_profanity self text, censor self text with
  | Ok true, Ok _ => true
  | _, _ => false
  end.

Definition sentiment_tags (self : Service) (text : string) : list string :=
  match polarity_scores self text with
  | Ok (compound, _, _, _) =>
      if Qle_bool 0.05 compound then []
      else if Qle_bool compound (-0.05) then
        if Qltb 0.6 (Qabs compound) then ["STRONG_NEGATIVE_SENTIMENT"]
        else if Qltb 0.3 (Qabs compound) then ["MODERATE_NEGATIVE_SENTIMENT"]
        else []
      else []
  | Raise _ => []
  end.

Definition caps_fires (text : string) : bool := Qltb 0.3 (uppercase_ratio_of text).

(** The method tags of a text, in the order the aggregator appends them. *)
Definition pipeline_tags (self : Service) (text : string) : list string :=
  (if ml_fires self text then ["ML_PROFANITY"] else [])
  ++ (if dictionary_fires self text then ["DICTIONARY_PROFANITY"] else [])
  ++ sentiment_tags self text
  ++ (if caps_fires text then ["EXCESSIVE_CAPS"] else []).

(** The mean length of the words of a text, 0 when it has none. *)
Definition avg_word_length_of (text : string) : Q :=
  match Str.split text with
  | [] => 0
  | ws => Qnat (Str.sum_lengths ws) / Qnat (List.length ws)
  end.

(** Every tag the aggregator can append. *)
Definition known_tags : list string :=
  [ "ML_PROFANITY"; "DICTIONARY_PROFANITY"; "STRONG_NEGATIVE_SENTIMENT";
    "MODERATE_NEGATIVE_SENTIMENT"; "EXCESSIVE_CAPS" ].

(** The assessment [comprehensive_profanity_analysis] stores under
    [overall_assessment]: the aggregator run on the four reports. *)
Definition library_assessment_of (self : Service) (text : string) : dict :=
  _calculate_overall_assessment self (VDict (signal_reports self text)).

(** A service whose three detectors are unavailable: every call of the
    classifier, the lexicon and the sentiment analyzer raises. *)
Definition detectors_down (threshold : Z) : Service :=
  let unavailable := Exn "RuntimeError" "model not loaded" in
  {| severity_threshold := threshold;
     bedrock_model_id := "anthropic.claude-3-haiku-20240307-v1:0";
     format_2f := fun _ => "0.00";
     str_value := fun _ => "";
     utcnow_isoformat := "2024-01-01T00:00:00";
     predict_prob := fun _ => Raise unavailable;
     predict := fun _ => Raise unavailable;
     contains_profanity := fun _ => Raise unavailable;
     censor := fun _ => Raise unavailable;
     polarity_scores := fun _ => Raise unavailable;
     ET_fromstring :=
       fun xml => Ok (fun path => if String.eqb path ".//complaint_text"
                                  then Some xml else None);
     bedrock_reply := fun _ _ => Sample.timeout;
     get_user_context := fun uid => [("user_id", uid); ("complaint_count", VNum 0)];
     fetch_complaints_from_db := fun _ _ => [];
     db_commit_ok := Sample.always true;
     s3_put_ok := fun _ => true;
     sns_publish_ok := fun _ => true |}.

(* ================================================================== *)
(** ** Reading a run: writes and metrics *)
(* ================================================================== *)

(** The calls with a given status, and those of them that committed. *)
Definition calls_with (status : string) (calls : list db_call) : nat :=
  List.length (filter (fun c => String.eqb (call_status c) status) calls).

Definition committed_with (status : string) (calls : list db_call) : nat :=
  List.length
    (filter (fun c => call_committed c && String.eqb (call_status c) status) calls).

(** What a stretch of a run adds to the counters, the archive and the
    notifications, in terms of the calls [new] it made to the result
    sink. *)
Definition adds (r out : Run) (new : list db_call) : Prop :=
  db_calls out = db_calls r ++ new
  /\ processed_count (metrics out)
     = (processed_count (metrics r)
        + committed_with "flagged" new + committed_with "approved" new)%nat
  /\ flagged_count (metrics out)
     = (flagged_count (metrics r) + committed_with "flagged" new)%nat
  /\ List.length (archived out)
     = (List.length (archived r) + committed_with "flagged" new)%nat
  /\ (List.length (notified r) <= List.length (notified out)
      <= List.length (notified r) + committed_with "flagged" new)%nat
  /\ error_count (metrics out)
     = (error_count (metrics r)
        + committed_with "failed_processing" new + calls_with "retry" new)%nat
  /\ (ai_used_count (metrics out) + library_only_count (metrics out)
      = ai_used_count (metrics r) + library_only_count (metrics r)
        + calls_with "flagged" new + calls_with "approved" new)%nat.

(** The keys of the rows of a batch. *)
Definition row_ids (complaints : list dict) : list value :=
  map (fun rec => get rec "id" VNone) complaints.

(** The metrics of a run tally with its writes: what is counted as
    processed or flagged was committed with that status, every flagged
    record was offered to the archive once, every error is a committed
    FAILED_PROCESSING write or a RETRY attempt, and every analysis that
    was run is counted as library-only or as AI-assisted. *)
Definition metrics_agree (r : Run) : Prop :=
  processed_count (metrics r)
  = (committed_with "flagged" (db_calls r) + committed_with "approved" (db_calls r))%nat
  /\ flagged_count (metrics r) = committed_with "flagged" (db_calls r)
  /\ List.length (archived r) = flagged_count (metrics r)
  /\ (List.length (notified r) <= List.length (archived r))%nat
  /\ error_count (metrics r)
     = (committed_with "failed_processing" (db_calls r)
        + calls_with "retry" (db_calls r))%nat
  /\ (ai_used_count (metrics r) + library_only_count (metrics r)
      = calls_with "flagged" (db_calls r) + calls_with "approved" (db_calls r))%nat.

(** [quiet r out]: between [r] and [out] nothing was processed, flagged,
    archived or notified, and the writes added are FAILED_PROCESSING or
    RETRY ones. *)
Definition quiet (r out : Run) : Prop :=
  processed_count (metrics out) = processed_count (metrics r)
  /\ flagged_count (metrics out) = flagged_count (metrics r)
  /\ ai_used_count (metrics out) = ai_used_count (metrics r)
  /\ library_only_count (metrics out) = library_only_count (metrics r)
  /\ archived out = archived r
  /\ notified out = notified r
  /\ exists new,
       db_calls out = db_calls r ++ new
       /\ Forall (fun c => call_status c = "failed_processing"
                           \/ call_status c = "retry") new.

(** Two services for worked runs: a sentiment analyzer that answers -0.8
    for every text while Bedrock times out, and the same with a Bedrock
    that answers HIGH / FLAG; each with the rows its [SELECT] returns. *)
Definition bitter_service : Service :=
  Sample.service 3 0 0 false (-0.8) Sample.timeout (Sample.always true)
                 [Sample.row 7 "I hate this service"].

Definition forced_service : Service :=
  Sample.service 3 0 0 false (-0.8)
                 (Ok (Some (Sample.judgment "HIGH" "FLAG" 0.9))) (Sample.always true)
                 [Sample.row 7 "I hate this service"; Sample.row 8 "hey"].

(* ================================================================== *)
(** ** Proof steps used throughout *)
(* ================================================================== *)

(** Stepping through a monadic body: name the outcome of the first call
    that is still opaque and drop the branch that contradicts the goal. *)
Ltac step_bind :=
  match goal with
  | H : context [Py.bind ?c _] |- _ =>
      let E := fresh "E" in
      destruct c eqn:E; cbn [Py.bind] in H; try discriminate H
  end.

(** Closed comparisons of rationals. *)
Ltac q_decide :=
  unfold Qle, Qlt; vm_compute;
  first [ reflexivity | discriminate | intro; discriminate ].

(** Counting the calls of one write. *)
Ltac count_calls :=
  unfold adds;
  cbv [calls_with committed_with filter call_committed call_status andb
       String.eqb Ascii.eqb Bool.eqb
       db_calls archived notified metrics with_metrics
       inc_processed inc_flagged inc_ai_used inc_library_only inc_error
       processed_count flagged_count ai_used_count error_count library_only_count];
  rewrite ?length_app; cbn [List.length];
  repeat split; lia.

(* ================================================================== *)
(** ** Basic facts about the object model *)
(* ================================================================== *)

Lemma Qltb_lt (a b : Q) : Qltb a b = true <-> (a < b)%Q.
Proof.
  unfold Qltb. rewrite negb_true_iff. split; intro H.
  - apply Qnot_le_lt. intro L. apply Qle_bool_iff in L. congruence.
  - destruct (Qle_bool b a) eqn:E; [|reflexivity].
    apply Qle_bool_iff in E. exfalso. apply (Qlt_not_le _ _ H E).
Qed.

Lemma Qltb_ge (a b : Q) : Qltb a b = false <-> (b <= a)%Q.
Proof.
  unfold Qltb. rewrite negb_false_iff. apply Qle_bool_iff.
Qed.

Lemma Qle_bool_false (a b : Q) : Qle_bool a b = false <-> (b < a)%Q.
Proof.
  rewrite <- Qltb_lt. unfold Qltb. rewrite negb_true_iff. reflexivity.
Qed.

Lemma py_min_Qmin (a b : Q) : (py_min a b == Qmin a b)%Q.
Proof.
  unfold py_min. destruct (Qltb b a) eqn:E.
  - apply Qltb_lt in E. symmetry. apply Q.min_r. apply Qlt_le_weak. exact E.
  - apply Qltb_ge in E. symmetry. apply Q.min_l. exact E.
Qed.

Lemma py_max_Qmax (a b : Q) : (py_max a b == Qmax a b)%Q.
Proof.
  unfold py_max. destruct (Qltb a b) eqn:E.
  - apply Qltb_lt in E. symmetry. apply Q.max_r. apply Qlt_le_weak. exact E.
  - apply Qltb_ge in E. symmetry. apply Q.max_l. exact E.
Qed.

Lemma Qnat_nonneg (n : nat) : (0 <= Qnat n)%Q.
Proof.
  unfold Qnat, Qle. simpl. lia.
Qed.

Lemma Qeqb0_Qnat_S (n : nat) : Qeqb0 (Qnat (S n)) = false.
Proof.
  unfold Qeqb0, Qnat, Qeq_bool. simpl. reflexivity.
Qed.

Lemma lookup_store_same (d : dict) (k : string) (v : value) :
  lookup (store d k v) k = Some v.
Proof.
  induction d as [|[k' v'] d IH]; simpl.
  - rewrite String.eqb_refl. reflexivity.
  - destruct (String.eqb k k') eqn:E; simpl; rewrite E.
    + reflexivity.
    + exact IH.
Qed.

Lemma lookup_store_other (d : dict) (k k' : string) (v : value) :
  String.eqb k' k = false -> lookup (store d k v) k' = lookup d k'.
Proof.
  intro Hne. induction d as [|[k0 v0] d IH]; simpl.
  - rewrite Hne. reflexivity.
  - destruct (String.eqb k k0) eqn:E; simpl.
    + apply String.eqb_eq in E. subst k0. rewrite Hne. reflexivity.
    + destruct (String.eqb k' k0); [reflexivity | exact IH].
Qed.

Lemma get_store_same (d : dict) (k : string) (v dflt : value) :
  get (store d k v) k dflt = v.
Proof.
  unfold get. rewrite lookup_store_same. reflexivity.
Qed.

Lemma get_store_other (d : dict) (k k' : string) (v dflt : value) :
  String.eqb k' k = false -> get (store d k v) k' dflt = get d k' dflt.
Proof.
  intro H. unfold get. rewrite lookup_store_other by exact H. reflexivity.
Qed.

(* ================================================================== *)
(** ** Text statistics *)
(* ================================================================== *)

Lemma text_stats_never_raises (text : string) :
  exists d, _analyze_text_stats_try text = Ok (VDict d).
Proof.
  unfold _analyze_text_stats_try.
  assert (Havg : exists a,
             (if truthy (VList (map VStr (Str.split text)))
              then py_truediv (Qnat (Str.sum_lengths (Str.split text)))
                              (Qnat (List.length (Str.split text)))
              else Ok 0%Q) = Ok a).
  { destruct (Str.split text) as [|w ws]; simpl.
    - eexists; reflexivity.
    - unfold py_truediv. rewrite Qeqb0_Qnat_S. eexists; reflexivity. }
  assert (Hup : exists u,
             (if truthy (VStr text)
              then py_truediv (Qnat (Str.count_if Str.isupper text))
                              (Qnat (String.length text))
              else Ok 0%Q) = Ok u).
  { destruct text as [|c text']; simpl.
    - eexists; reflexivity.
    - unfold py_truediv. rewrite Qeqb0_Qnat_S. eexists; reflexivity. }
  destruct Havg as [a Ha]. destruct Hup as [u Hu].
  rewrite Ha. cbn [Py.bind]. rewrite Hu. cbn [Py.bind].
  eexists; reflexivity.
Qed.

(** C9.  On the empty text every statistic is 0, and on every text the
    two divisions (average word length, uppercase ratio) are only
    evaluated with a non-zero divisor: the body never raises, so the
    extractor never falls back to its empty error report. *)
Theorem text_stats_empty_zero_and_guarded :
  _analyze_text_stats "" =
    VDict [ ("char_count", VNum 0); ("word_count", VNum 0);
            ("sentence_count", VNum 0); ("avg_word_length", VNum 0);
            ("uppercase_ratio", VNum 0); ("exclamation_count", VNum 0);
            ("question_count", VNum 0) ]
  /\ (forall text : string,
        (exists d, _analyze_text_stats_try text = Ok (VDict d)
                   /\ _analyze_text_stats text = VDict d)
        /\ (Str.split text <> [] ->
            ~ (Qnat (List.length (Str.split text)) == 0)%Q)
        /\ (text <> "" -> ~ (Qnat (String.length text) == 0)%Q)).
Proof.
  split; [reflexivity|].
  intro text. split; [|split].
  - destruct (text_stats_never_raises text) as [d Hd].
    exists d. split; [exact Hd|].
    unfold _analyze_text_stats. rewrite Hd. reflexivity.
  - destruct (Str.split text) as [|w ws]; [congruence|].
    intros _ H. unfold Qnat, Qeq in H. simpl in H. lia.
  - destruct text as [|c t]; [congruence|].
    intros _ H. unfold Qnat, Qeq in H. simpl in H. lia.
Qed.

Lemma text_stats_witness :
  ~ (Qnat (List.length (Str.split "YOU ARE AN IDIOT!!!!")) == 0)%Q
  /\ ~ (Qnat (String.length "YOU ARE AN IDIOT!!!!") == 0)%Q.
Proof.
  destruct text_stats_empty_zero_and_guarded as (_ & H).
  destruct (H "YOU ARE AN IDIOT!!!!") as (_ & Hw & Hc).
  split; [apply Hw | apply Hc]; discriminate.
Defined.

(* ================================================================== *)
(** ** Signal aggregator: grading *)
(* ================================================================== *)

Lemma grade_decision (self : Service) (t : tally) :
  decision_of (grade self t) =
    if Qle_bool (inject_Z (severity_threshold self)) (total_score t) then
      if Qle_bool 5 (total_score t) then (VBool true, VStr "CRITICAL", VStr "ESCALATE")
      else if Qle_bool 3.5 (total_score t) then (VBool true, VStr "HIGH", VStr "FLAG")
      else (VBool true, VStr "MEDIUM", VStr "REVIEW")
    else (VBool false, VStr "LOW", VStr "APPROVE").
Proof.
  unfold grade.
  destruct (Qle_bool (inject_Z (severity_threshold self)) (total_score t));
    [destruct (Qle_bool 5 (total_score t));
     [|destruct (Qle_bool 3.5 (total_score t))]|];
    reflexivity.
Qed.

Lemma grade_confidence (self : Service) (t : tally) (dflt : value) :
  get (grade self t) "confidence_score" dflt = VNum (py_min (total_score t / 6) 1).
Proof.
  unfold grade.
  destruct (Qle_bool (inject_Z (severity_threshold self)) (total_score t));
    [destruct (Qle_bool 5 (total_score t));
     [|destruct (Qle_bool 3.5 (total_score t))]|];
    reflexivity.
Qed.

Lemma grade_methods (self : Service) (t : tally) (dflt : value) :
  get (grade self t) "flagged_by_methods" dflt = VList (map VStr (flagged_methods t)).
Proof.
  unfold grade.
  destruct (Qle_bool (inject_Z (severity_threshold self)) (total_score t));
    [destruct (Qle_bool 5 (total_score t));
     [|destruct (Qle_bool 3.5 (total_score t))]|];
    reflexivity.
Qed.

Lemma grade_concerns (self : Service) (t : tally) (dflt : value) :
  get (grade self t) "primary_concerns" dflt = VList (map VStr (concerns t)).
Proof.
  unfold grade.
  destruct (Qle_bool (inject_Z (severity_threshold self)) (total_score t));
    [destruct (Qle_bool 5 (total_score t));
     [|destruct (Qle_bool 3.5 (total_score t))]|];
    reflexivity.
Qed.

(** What the [try] block returns when scoring went through. *)
Lemma assessment_of_tally (self : Service) (ar : value) (t : tally) :
  score_signals self ar = Ok t ->
  _calculate_overall_assessment_try self ar =
    Ok (store (grade self t) "requires_ai_analysis"
              (VBool (_should_use_ai_analysis (grade self t) ar))).
Proof.
  intro H. unfold _calculate_overall_assessment_try. rewrite H. reflexivity.
Qed.

Lemma assessment_try_inv (self : Service) (ar : value) (a : dict) :
  _calculate_overall_assessment_try self ar = Ok a ->
  exists t, score_signals self ar = Ok t
            /\ a = store (grade self t) "requires_ai_analysis"
                         (VBool (_should_use_ai_analysis (grade self t) ar)).
Proof.
  unfold _calculate_overall_assessment_try. intro H.
  destruct (score_signals self ar) as [t|e]; cbn [Py.bind] in H; [|discriminate].
  exists t. split; [reflexivity|]. congruence.
Qed.

Lemma assessment_raises_iff (self : Service) (ar : value) (e : exn) :
  _calculate_overall_assessment_try self ar = Raise e <-> score_signals self ar = Raise e.
Proof.
  unfold _calculate_overall_assessment_try.
  destruct (score_signals self ar) as [t|e']; cbn [Py.bind]; split; congruence.
Qed.

Lemma decision_of_assessment (self : Service) (ar : value) (t : tally) :
  score_signals self ar = Ok t ->
  decision_of (_calculate_overall_assessment self ar) = decision_of (grade self t).
Proof.
  intro H. unfold _calculate_overall_assessment.
  rewrite (assessment_of_tally _ _ _ H).
  unfold decision_of. rewrite !get_store_other by reflexivity. reflexivity.
Qed.

Lemma decision_of_fields (a : dict) (f s r : value) :
  decision_of a = (f, s, r) ->
  get a "should_flag" VNone = f /\ get a "severity_level" VNone = s
  /\ get a "recommendation" VNone = r.
Proof.
  unfold decision_of. intro H. inversion H. auto.
Qed.

Lemma grade_rank_correct (self : Service) (t : tally) :
  _severity_rank (get (grade self t) "severity_level" VNone)
  = Ok (grade_rank self (total_score t)).
Proof.
  pose proof (grade_decision self t) as H. unfold grade_rank.
  destruct (Qle_bool (inject_Z (severity_threshold self)) (total_score t));
    [destruct (Qle_bool 5 (total_score t));
     [|destruct (Qle_bool 3.5 (total_score t))]|];
    apply decision_of_fields in H; destruct H as (_ & -> & _); reflexivity.
Qed.

Lemma grade_rank_monotone (self : Service) (x y : Q) :
  (x <= y)%Q -> (grade_rank self x <= grade_rank self y)%Z.
Proof.
  intro Hxy. unfold grade_rank.
  destruct (Qle_bool (inject_Z (severity_threshold self)) x) eqn:Tx.
  - apply Qle_bool_iff in Tx.
    assert (Ty : Qle_bool (inject_Z (severity_threshold self)) y = true)
      by (apply Qle_bool_iff; eapply Qle_trans; eassumption).
    rewrite Ty.
    destruct (Qle_bool 5 x) eqn:Cx.
    + apply Qle_bool_iff in Cx.
      assert (Cy : Qle_bool 5 y = true)
        by (apply Qle_bool_iff; eapply Qle_trans; eassumption).
      rewrite Cy. lia.
    + destruct (Qle_bool 3.5 x) eqn:Hx.
      * apply Qle_bool_iff in Hx.
        assert (Hy : Qle_bool 3.5 y = true)
          by (apply Qle_bool_iff; eapply Qle_trans; eassumption).
        rewrite Hy. destruct (Qle_bool 5 y); lia.
      * destruct (Qle_bool 5 y); [lia|]. destruct (Qle_bool 3.5 y); lia.
  - destruct (Qle_bool (inject_Z (severity_threshold self)) y);
      [destruct (Qle_bool 5 y); [|destruct (Qle_bool 3.5 y)]|]; lia.
Qed.

(** C4, as the code has it.  [should_flag] is [total_score >=
    severity_threshold], and the severity table is only consulted when
    [should_flag] holds: CRITICAL/ESCALATE from 5, HIGH/FLAG from 3.5,
    MEDIUM/REVIEW below; an unflagged text is LOW/APPROVE whatever its
    score.  With a threshold of at most 3 (the default) this is the table
    of the claim.  For every threshold the severity rank is monotone
    non-decreasing in the total score. *)
Theorem severity_table_gated_by_should_flag
    (self : Service) (ar : value) (t : tally) :
  score_signals self ar = Ok t ->
  let a := _calculate_overall_assessment self ar in
  let total := total_score t in
  let flag := (inject_Z (severity_threshold self) <= total)%Q in
  (get a "should_flag" VNone = VBool true <-> flag)
  /\ (flag -> (5 <= total)%Q ->
      decision_of a = (VBool true, VStr "CRITICAL", VStr "ESCALATE"))
  /\ (flag -> (3.5 <= total)%Q -> (total < 5)%Q ->
      decision_of a = (VBool true, VStr "HIGH", VStr "FLAG"))
  /\ (flag -> (total < 3.5)%Q ->
      decision_of a = (VBool true, VStr "MEDIUM", VStr "REVIEW"))
  /\ (~ flag -> decision_of a = (VBool false, VStr "LOW", VStr "APPROVE"))
  /\ ((severity_threshold self <= 3)%Z ->
      ((5 <= total)%Q ->
       decision_of a = (VBool true, VStr "CRITICAL", VStr "ESCALATE"))
      /\ ((3.5 <= total)%Q -> (total < 5)%Q ->
          decision_of a = (VBool true, VStr "HIGH", VStr "FLAG")))
  /\ (forall ar' t',
        score_signals self ar' = Ok t' ->
        (total <= total_score t')%Q ->
        exists r r',
          _severity_rank (get a "severity_level" VNone) = Ok r
          /\ _severity_rank
               (get (_calculate_overall_assessment self ar') "severity_level" VNone)
             = Ok r'
          /\ (r <= r')%Z).
Proof.
  intros Hs a total flag.
  assert (Hd : decision_of a = decision_of (grade self t))
    by (apply decision_of_assessment; exact Hs).
  rewrite grade_decision in Hd. fold total in Hd.
  assert (Hflag : Qle_bool (inject_Z (severity_threshold self)) total = true <-> flag)
    by apply Qle_bool_iff.
  assert (Gated :
            flag ->
            decision_of a =
              (if Qle_bool 5 total then (VBool true, VStr "CRITICAL", VStr "ESCALATE")
               else if Qle_bool 3.5 total then (VBool true, VStr "HIGH", VStr "FLAG")
               else (VBool true, VStr "MEDIUM", VStr "REVIEW"))).
  { intro F. apply Hflag in F. rewrite F in Hd. exact Hd. }
  assert (C5 : (5 <= total)%Q -> Qle_bool 5 total = true) by apply Qle_bool_iff.
  assert (N5 : (total < 5)%Q -> Qle_bool 5 total = false) by apply Qle_bool_false.
  assert (C35 : (3.5 <= total)%Q -> Qle_bool 3.5 total = true) by apply Qle_bool_iff.
  assert (N35 : (total < 3.5)%Q -> Qle_bool 3.5 total = false) by apply Qle_bool_false.
  assert (Low35 : (total < 3.5)%Q -> (total < 5)%Q)
    by (intro L; eapply Qlt_trans; [exact L | reflexivity]).
  assert (from35 : (severity_threshold self <= 3)%Z -> (3.5 <= total)%Q -> flag).
  { intros Hthr H35. unfold flag.
    apply Qle_trans with (y := 3.5%Q); [|exact H35].
    apply Qle_trans with (y := inject_Z 3).
    - rewrite <- Zle_Qle. exact Hthr.
    - unfold Qle. simpl. lia. }
  split; [|split; [|split; [|split; [|split; [|split]]]]].
  - split.
    + intro Hsf. apply Hflag.
      destruct (Qle_bool (inject_Z (severity_threshold self)) total); [reflexivity|].
      apply decision_of_fields in Hd. destruct Hd as (Hd & _). congruence.
    + intro F. pose proof (Gated F) as G.
      destruct (Qle_bool 5 total); [|destruct (Qle_bool 3.5 total)];
        apply decision_of_fields in G; tauto.
  - intros F H5. rewrite (Gated F), (C5 H5). reflexivity.
  - intros F H35 L5. rewrite (Gated F), (N5 L5), (C35 H35). reflexivity.
  - intros F L35. rewrite (Gated F), (N5 (Low35 L35)), (N35 L35). reflexivity.
  - intro NF.
    destruct (Qle_bool (inject_Z (severity_threshold self)) total) eqn:E.
    + exfalso. apply NF, Hflag. reflexivity.
    + exact Hd.
  - intro Hthr. split.
    + intro H5.
      assert (F : flag).
      { apply from35; [exact Hthr|].
        apply Qle_trans with (y := 5%Q); [unfold Qle; simpl; lia | exact H5]. }
      rewrite (Gated F), (C5 H5). reflexivity.
    + intros H35 L5. rewrite (Gated (from35 Hthr H35)), (N5 L5), (C35 H35). reflexivity.
  - intros ar' t' Hs' Hle.
    exists (grade_rank self total), (grade_rank self (total_score t')).
    split; [|split].
    + unfold a, _calculate_overall_assessment.
      rewrite (assessment_of_tally _ _ _ Hs).
      rewrite get_store_other by reflexivity. apply grade_rank_correct.
    + unfold _calculate_overall_assessment.
      rewrite (assessment_of_tally _ _ _ Hs').
      rewrite get_store_other by reflexivity. apply grade_rank_correct.
    + apply grade_rank_monotone. exact Hle.
Qed.

Lemma severity_table_witness :
  decision_of (_calculate_overall_assessment Sample.default_service Sample.loud)
  = (VBool true, VStr "CRITICAL", VStr "ESCALATE").
Proof.
  pose proof (severity_table_gated_by_should_flag
                Sample.default_service Sample.loud
                (tally_of Sample.default_service Sample.loud) eq_refl) as H.
  cbv zeta in H. destruct H as (_ & H & _).
  apply H; q_decide.
Defined.

(** C4 as stated fails when the threshold is configured above a
    breakpoint: with [severity_threshold = 6], a classifier probability of
    1.0 and one lexicon hit give a total score of 5.5, at least 5, and the
    aggregator answers LOW/APPROVE, not CRITICAL/ESCALATE. *)
Lemma severity_table_counterexample :
  let self := Sample.service 6 0 0 false 0 Sample.timeout (Sample.always true) [] in
  exists t,
    score_signals self Sample.loud = Ok t
    /\ (total_score t == 5.5)%Q
    /\ (5 <= total_score t)%Q
    /\ decision_of (_calculate_overall_assessment self Sample.loud)
       = (VBool false, VStr "LOW", VStr "APPROVE").
Proof.
  eexists. split; [reflexivity|]. split; [|split].
  - vm_compute. reflexivity.
  - q_decide.
  - reflexivity.
Qed.

(* ================================================================== *)
(** ** Signal aggregator: the fail-safe *)
(* ================================================================== *)

(** C7.  Whenever the body of the aggregator raises, the aggregator
    returns the fixed fail-safe assessment: should_flag true, severity
    HIGH, recommendation REVIEW (with the error text); in particular the
    recommendation is not APPROVE and the record will be flagged. *)
Theorem aggregator_failsafe (self : Service) (ar : value) (e : exn) :
  _calculate_overall_assessment_try self ar = Raise e ->
  let a := _calculate_overall_assessment self ar in
  a = failsafe_assessment e
  /\ decision_of a = (VBool true, VStr "HIGH", VStr "REVIEW")
  /\ get a "recommendation" VNone <> VStr "APPROVE"
  /\ truthy (get a "should_flag" (VBool false)) = true.
Proof.
  intros H a. unfold a, _calculate_overall_assessment. rewrite H.
  repeat split. discriminate.
Qed.

Lemma aggregator_failsafe_witness :
  decision_of (_calculate_overall_assessment Sample.default_service Sample.broken)
  = (VBool true, VStr "HIGH", VStr "REVIEW").
Proof.
  pose proof (aggregator_failsafe Sample.default_service Sample.broken
                (TypeError "unsupported operand type(s)") eq_refl) as H.
  cbv zeta in H. destruct H as (_ & H & _). exact H.
Defined.

(* ================================================================== *)
(** ** Signal aggregator: the score is a sum of non-negative terms *)
(* ================================================================== *)

Lemma as_num_Ok (v : value) (q : Q) : as_num v = Ok q -> num_of v = Some q.
Proof.
  unfold as_num. destruct (num_of v); congruence.
Qed.

Lemma py_gt_Ok (v : value) (c : Q) (b : bool) :
  py_gt v c = Ok b -> exists q, num_of v = Some q /\ b = Qltb c q.
Proof.
  unfold py_gt, as_num. destruct (num_of v) as [q|]; cbn [Py.bind]; [|discriminate].
  intro H. exists q. split; congruence.
Qed.

Lemma py_mul_int_then_add (v : value) (n : nat) (w : value) (t t' : Q) :
  py_mul_int v n = Ok w -> py_add_num t w = Ok t' ->
  exists q, num_of v = Some q /\ t' = (t + q * Qnat n)%Q.
Proof.
  unfold py_mul_int, py_add_num, as_num.
  destruct v; cbn; intros Hm Ha; inversion Hm; subst w; cbn in Ha;
    try discriminate; inversion Ha; eexists; split; reflexivity.
Qed.

Lemma score_ml_total (self : Service) (ar : value) (t t' : tally) :
  score_ml self ar t = Ok t' ->
  total_score t' = total_score t
  \/ exists p, report_number ar "ml_profanity_check" "profanity_probability" = Some p
               /\ total_score t' = (total_score t + p * Qnat 4)%Q.
Proof.
  unfold score_ml. intro H.
  destruct ar as [| | | | |l|d]; cbn [py_get Py.bind] in H; try discriminate.
  destruct (get d "ml_profanity_check" (VDict [])) as [| | | | |l|r] eqn:Er;
    cbn [py_get Py.bind] in H; try discriminate.
  destruct (truthy (get r "is_profane" (VBool false))).
  - do 2 step_bind. cbn [py_get Py.bind] in H. step_bind.
    inversion H; subst t'; cbn [total_score].
    destruct (py_mul_int_then_add _ _ _ _ _ E E0) as (q & Hq & ->).
    right. exists q. split; [|reflexivity].
    unfold report_number. rewrite Er. exact Hq.
  - left. congruence.
Qed.

Lemma score_dictionary_total (self : Service) (ar : value) (t t' : tally) :
  score_dictionary self ar t = Ok t' ->
  total_score t' = total_score t
  \/ exists n, report_number ar "dictionary_profanity" "word_count" = Some n
               /\ total_score t' = (total_score t + py_min (n * 1.5) 3)%Q.
Proof.
  unfold score_dictionary. intro H.
  destruct ar as [| | | | |l|d]; cbn [py_get Py.bind] in H; try discriminate.
  destruct (get d "dictionary_profanity" (VDict [])) as [| | | | |l|r] eqn:Er;
    cbn [py_get Py.bind] in H; try discriminate.
  destruct (truthy (get r "has_profanity" (VBool false))).
  - unfold py_mul_float in H.
    destruct (as_num (get r "word_count" (VNum 0))) as [n|] eqn:En;
      cbn [Py.bind] in H; [|discriminate].
    do 2 step_bind.
    inversion H; subst t'; cbn [total_score].
    right. exists n. split; [|reflexivity].
    unfold report_number. rewrite Er. apply as_num_Ok. exact En.
  - left. congruence.
Qed.

Lemma score_sentiment_total (self : Service) (ar : value) (t t' : tally) :
  score_sentiment self ar t = Ok t' ->
  total_score t' = total_score t
  \/ exists q, (0.3 < q)%Q
               /\ (total_score t' = (total_score t + q * Qnat 2)%Q
                   \/ total_score t' = (total_score t + q)%Q).
Proof.
  unfold score_sentiment. intro H.
  destruct ar as [| | | | |l|d]; cbn [py_get Py.bind] in H; try discriminate.
  destruct (get d "sentiment_analysis" (VDict [])) as [| | | | |l|r] eqn:Er;
    cbn [py_get Py.bind] in H; try discriminate.
  destruct (py_eq_str (get r "sentiment" VNone) "NEGATIVE"); [|left; congruence].
  destruct (py_gt (get r "intensity" (VNum 0)) 0.6) as [strong|] eqn:Es;
    cbn [Py.bind] in H; [|discriminate].
  destruct (py_gt_Ok _ _ _ Es) as (q & Hq & ->).
  destruct (Qltb 0.6 q) eqn:E6.
  - do 3 step_bind. inversion H; subst t'; cbn [total_score].
    destruct (py_mul_int_then_add _ _ _ _ _ E E0) as (q' & Hq' & ->).
    rewrite Hq in Hq'. inversion Hq'; subst q'.
    right. exists q. split; [|left; reflexivity].
    apply Qltb_lt in E6. eapply Qlt_trans; [|exact E6]. q_decide.
  - destruct (py_gt (get r "intensity" (VNum 0)) 0.3) as [moderate|] eqn:Em;
      cbn [Py.bind] in H; [|discriminate].
    destruct (py_gt_Ok _ _ _ Em) as (q' & Hq' & ->).
    rewrite Hq in Hq'. inversion Hq'; subst q'.
    destruct (Qltb 0.3 q) eqn:E3; [|left; congruence].
    unfold py_add_num, as_num in H. rewrite Hq in H. cbn [Py.bind] in H.
    step_bind. inversion H; subst t'; cbn [total_score].
    right. exists q. split; [|right; reflexivity].
    apply Qltb_lt. exact E3.
Qed.

Lemma score_text_stats_total (ar : value) (t t' : tally) :
  score_text_stats ar t = Ok t' ->
  exists caps excl : bool,
    total_score t' =
      ((if excl then (fun x => x + 0.3) else (fun x => x))
         ((if caps then (fun x => x + 0.5) else (fun x => x)) (total_score t)))%Q.
Proof.
  unfold score_text_stats. intro H.
  destruct ar as [| | | | |l|d]; cbn [py_get Py.bind] in H; try discriminate.
  destruct (get d "text_stats" (VDict [])) as [| | | | |l|r] eqn:Er;
    cbn [py_get Py.bind] in H; try discriminate.
  destruct (py_gt (get r "uppercase_ratio" (VNum 0)) 0.3) as [caps|];
    cbn [Py.bind] in H; [|discriminate].
  destruct (py_gt (get r "exclamation_count" (VNum 0)) 3) as [excl|];
    cbn [Py.bind] in H; [|discriminate].
  exists caps, excl. inversion H; subst t'.
  destruct caps, excl; reflexivity.
Qed.

Lemma Qplus_nonneg (a b : Q) : (0 <= a)%Q -> (0 <= b)%Q -> (0 <= a + b)%Q.
Proof.
  intros Ha Hb. setoid_replace 0%Q with (0 + 0)%Q by reflexivity.
  apply Qplus_le_compat; assumption.
Qed.

Lemma py_min_nonneg (a b : Q) : (0 <= a)%Q -> (0 <= b)%Q -> (0 <= py_min a b)%Q.
Proof.
  intros Ha Hb. unfold py_min. destruct (Qltb b a); assumption.
Qed.

Lemma score_signals_nonneg (self : Service) (ar : value) (t : tally) :
  well_formed_reports ar -> score_signals self ar = Ok t -> (0 <= total_score t)%Q.
Proof.
  intros [Hml Hwc] H. unfold score_signals in H.
  destruct (score_ml self ar tally0) as [t1|] eqn:E1; cbn [Py.bind] in H; [|discriminate].
  destruct (score_dictionary self ar t1) as [t2|] eqn:E2;
    cbn [Py.bind] in H; [|discriminate].
  destruct (score_sentiment self ar t2) as [t3|] eqn:E3;
    cbn [Py.bind] in H; [|discriminate].
  assert (N1 : (0 <= total_score t1)%Q).
  { destruct (score_ml_total _ _ _ _ E1) as [->|(p & Hp & ->)].
    - cbn. q_decide.
    - apply Qplus_nonneg; [cbn; q_decide|].
      apply Qmult_le_0_compat; [apply Hml; exact Hp | apply Qnat_nonneg]. }
  assert (N2 : (0 <= total_score t2)%Q).
  { destruct (score_dictionary_total _ _ _ _ E2) as [->|(n & Hn & ->)]; [exact N1|].
    apply Qplus_nonneg; [exact N1|].
    apply py_min_nonneg; [|q_decide].
    apply Qmult_le_0_compat; [apply Hwc; exact Hn | q_decide]. }
  assert (N3 : (0 <= total_score t3)%Q).
  { destruct (score_sentiment_total _ _ _ _ E3) as [->|(q & Hq & [->| ->])];
      [exact N2| |].
    - apply Qplus_nonneg; [exact N2|].
      apply Qmult_le_0_compat; [|apply Qnat_nonneg].
      apply Qlt_le_weak. eapply Qlt_trans; [|exact Hq]. q_decide.
    - apply Qplus_nonneg; [exact N2|].
      apply Qlt_le_weak. eapply Qlt_trans; [|exact Hq]. q_decide. }
  destruct (score_text_stats_total _ _ _ H) as (caps & excl & ->).
  destruct caps, excl; repeat apply Qplus_nonneg; try exact N3; q_decide.
Qed.

(** C8.  For signal reports whose probability and matched-term count are
    not negative, every contribution to the score is non-negative, so the
    total is; the stored confidence is [min(total_score / 6, 1)] and lies
    between 0 and 1. *)
Theorem confidence_normalised (self : Service) (ar : value) (t : tally) :
  well_formed_reports ar ->
  score_signals self ar = Ok t ->
  (0 <= total_score t)%Q
  /\ exists c,
       get (_calculate_overall_assessment self ar) "confidence_score" VNone = VNum c
       /\ (c == Qmin (total_score t / 6) 1)%Q
       /\ (0 <= c)%Q /\ (c <= 1)%Q.
Proof.
  intros Hwf Hs.
  pose proof (score_signals_nonneg _ _ _ Hwf Hs) as Hnn.
  split; [exact Hnn|].
  exists (py_min (total_score t / 6) 1). split; [|split; [|split]].
  - unfold _calculate_overall_assessment. rewrite (assessment_of_tally _ _ _ Hs).
    rewrite get_store_other by reflexivity. apply grade_confidence.
  - apply py_min_Qmin.
  - apply py_min_nonneg; [|q_decide].
    unfold Qdiv. apply Qmult_le_0_compat; [exact Hnn | q_decide].
  - rewrite py_min_Qmin. apply Q.le_min_r.
Qed.

Lemma confidence_normalised_witness :
  exists c,
    get (_calculate_overall_assessment Sample.default_service Sample.loud)
        "confidence_score" VNone = VNum c
    /\ (0 <= c)%Q /\ (c <= 1)%Q.
Proof.
  assert (Hwf : well_formed_reports Sample.loud).
  { split; intros x Hx; vm_compute in Hx; inversion Hx; q_decide. }
  destruct (confidence_normalised Sample.default_service Sample.loud
              (tally_of Sample.default_service Sample.loud) Hwf eq_refl)
    as (_ & c & Hc & _ & H0 & H1).
  exists c. auto.
Defined.

(** The reports the extractors of this program build are well formed as
    soon as the classifier returns a probability that is not negative. *)
Lemma extractor_reports_well_formed (self : Service) (text : string) :
  (forall p, predict_prob self text = Ok p -> (0 <= p)%Q) ->
  well_formed_reports (VDict (signal_reports self text)).
Proof.
  intro Hp. split.
  - intros p H. unfold report_number, signal_reports in H.
    rewrite get_store_other in H by reflexivity.
    rewrite get_store_other in H by reflexivity.
    cbn in H. unfold _ml_profanity_analysis in H.
    destruct (predict_prob self text) as [q|] eqn:Eq; cbn in H.
    + destruct (predict self text); cbn in H; inversion H; subst;
        [apply Hp; reflexivity | q_decide].
    + inversion H. q_decide.
  - intros n H. unfold report_number, signal_reports in H.
    rewrite get_store_other in H by reflexivity.
    cbn in H. unfold _dictionary_profanity_analysis in H.
    destruct (contains_profanity self text); cbn in H.
    + destruct (censor self text); cbn in H; inversion H; subst;
        [apply Qnat_nonneg | q_decide].
    + inversion H. q_decide.
Qed.

(* ================================================================== *)
(** ** Escalation policy *)
(* ================================================================== *)

Lemma existsb_map_VStr (needle : string) (m : list string) :
  existsb (fun x => py_eq_str x needle) (map VStr m)
  = existsb (fun s => String.eqb s needle) m.
Proof.
  induction m as [|s m IH]; simpl; [reflexivity|]. rewrite IH. reflexivity.
Qed.

Lemma sole_member (needle : string) (m : list string) :
  existsb (fun s => String.eqb s needle) m && Nat.eqb (List.length m) 1 = true
  <-> m = [needle].
Proof.
  split.
  - intro H. apply andb_true_iff in H. destruct H as [Hin Hlen].
    destruct m as [|s [|s' m]]; simpl in Hlen; try discriminate.
    simpl in Hin. rewrite orb_false_r in Hin.
    apply String.eqb_eq in Hin. congruence.
  - intros ->. simpl. rewrite String.eqb_refl. reflexivity.
Qed.

(** The escalation rule on an assessment whose confidence is a number and
    whose method tags are a list of strings. *)
Lemma should_use_ai_rule (a : dict) (ar : value) (c : Q) (m : list string) :
  get a "confidence_score" (VNum 0) = VNum c ->
  get a "flagged_by_methods" (VList []) = VList (map VStr m) ->
  _should_use_ai_analysis a ar = true
  <-> ((0.7 < c)%Q \/ (2 <= List.length m)%nat
       \/ ((0.3 <= c)%Q /\ (c <= 0.7)%Q)
       \/ m = ["STRONG_NEGATIVE_SENTIMENT"]).
Proof.
  intros Hc Hm.
  unfold _should_use_ai_analysis, _should_use_ai_analysis_try.
  rewrite Hc, Hm. cbn [py_gt py_len py_between py_in_str as_num num_of Py.bind].
  rewrite existsb_map_VStr, length_map.
  rewrite <- (sole_member "STRONG_NEGATIVE_SENTIMENT" m).
  destruct (existsb (fun s => String.eqb s "STRONG_NEGATIVE_SENTIMENT") m);
    cbn [Py.bind existsb andb];
    rewrite !orb_true_iff, andb_true_iff, Qltb_lt, !Qle_bool_iff, Nat.leb_le;
    intuition discriminate.
Qed.

(** C5.  For every assessment the aggregator builds,
    requires_ai_analysis is true exactly when the confidence exceeds 0.7,
    or at least two methods fired, or the confidence lies in [0.3, 0.7],
    or STRONG_NEGATIVE_SENTIMENT is the only method that fired.  In
    particular a sole strong negative sentiment with total score 1.6 has
    confidence below 0.3 and is still escalated. *)
Theorem escalation_rule (self : Service) (ar : value) (t : tally) :
  score_signals self ar = Ok t ->
  let a := _calculate_overall_assessment self ar in
  let c := py_min (total_score t / 6) 1 in
  let m := flagged_methods t in
  get a "confidence_score" VNone = VNum c
  /\ get a "flagged_by_methods" VNone = VList (map VStr m)
  /\ (exists b, get a "requires_ai_analysis" VNone = VBool b
                /\ (b = true
                    <-> ((0.7 < c)%Q \/ (2 <= List.length m)%nat
                         \/ ((0.3 <= c)%Q /\ (c <= 0.7)%Q)
                         \/ m = ["STRONG_NEGATIVE_SENTIMENT"])))
  /\ (m = ["STRONG_NEGATIVE_SENTIMENT"] -> (total_score t == 1.6)%Q ->
      (c < 0.3)%Q /\ get a "requires_ai_analysis" VNone = VBool true).
Proof.
  intros Hs a c m.
  assert (Ha : a = store (grade self t) "requires_ai_analysis"
                         (VBool (_should_use_ai_analysis (grade self t) ar))).
  { unfold a, _calculate_overall_assessment.
    rewrite (assessment_of_tally _ _ _ Hs). reflexivity. }
  assert (Rule := should_use_ai_rule (grade self t) ar c m
                    (grade_confidence self t _) (grade_methods self t _)).
  split; [|split; [|split]].
  - rewrite Ha, get_store_other by reflexivity. apply grade_confidence.
  - rewrite Ha, get_store_other by reflexivity. apply grade_methods.
  - exists (_should_use_ai_analysis (grade self t) ar). split.
    + rewrite Ha. apply get_store_same.
    + exact Rule.
  - intros Hm Ht. split.
    + unfold c. rewrite py_min_Qmin.
      apply Q.min_lt_iff. left. rewrite Ht. q_decide.
    + rewrite Ha, get_store_same. f_equal. apply Rule. right. right. right. exact Hm.
Qed.

Lemma escalation_rule_witness :
  let a := _calculate_overall_assessment Sample.default_service Sample.bitter in
  (exists c, get a "confidence_score" VNone = VNum c /\ (c < 0.3)%Q)
  /\ get a "flagged_by_methods" VNone = VList [VStr "STRONG_NEGATIVE_SENTIMENT"]
  /\ get a "requires_ai_analysis" VNone = VBool true.
Proof.
  destruct (escalation_rule Sample.default_service Sample.bitter
              (tally_of Sample.default_service Sample.bitter) eq_refl)
    as (Hc & Hm & _ & Hex).
  destruct (Hex eq_refl) as [Hlt Hreq]; [vm_compute; reflexivity|].
  split; [|split].
  - eexists. split; [exact Hc | exact Hlt].
  - exact Hm.
  - exact Hreq.
Defined.

(* ================================================================== *)
(** ** Decision merger *)
(* ================================================================== *)

Lemma severity_rank_str (s : string) : _severity_rank (VStr s) = Ok (rank_of_name s).
Proof. reflexivity. Qed.

(** No judgment was obtained: the base decision, nothing touched. *)
Lemma combine_not_obtained (A S : dict) :
  judgment_of S = None ->
  _combine_library_and_ai_results_try A S = Ok (base_decision "combined_analysis" A, A).
Proof.
  unfold judgment_of, _combine_library_and_ai_results_try, has_key.
  destruct (truthy (get S "success" VNone)); cbn [andb]; [|reflexivity].
  destruct (lookup S "ai_analysis"); [discriminate|reflexivity].
Qed.

(** A well-typed judgment was obtained: the merger goes through, and
    overrides or keeps according to the ranks. *)
Lemma combine_obtained (A S : dict) (sa : string) (ca : Q) (cs_l : list value)
      (j : value) (d : dict) (cs : Q) :
  get A "severity_level" (VStr "LOW") = VStr sa ->
  get A "confidence_score" (VNum 0.5) = VNum ca ->
  get A "primary_concerns" (VList []) = VList cs_l ->
  judgment_of S = Some j ->
  well_typed_judgment j d cs ->
  exists F A',
    _combine_library_and_ai_results_try A S = Ok (F, A') /\
    if (rank_of_name sa <? rank_of_name (judged_severity d))%Z then
      get F "severity_level" (VStr "LOW") = VStr (judged_severity d)
      /\ get F "recommendation" (VStr "APPROVE")
         = get d "recommended_action" (get A "recommendation" (VStr "APPROVE"))
      /\ get F "confidence" (VNum 0.5)
         = (if Qltb ca cs then get d "confidence" (VNum 0) else VNum ca)
      /\ get F "should_flag" (VBool false) = get A "should_flag" (VBool false)
      /\ get F "primary_method" VNone = VStr "combined_analysis"
    else F = base_decision "combined_analysis" A /\ A' = A.
Proof.
  intros Hsev Hconf Hcon Hj (Hd & Hhash & Hnum).
  unfold judgment_of in Hj.
  destruct (truthy (get S "success" VNone) && has_key S "ai_analysis") eqn:Hc;
    [|discriminate].
  assert (Hmap : _map_ai_urgency_to_severity (get d "urgency" (VStr "LOW"))
                 = Ok (judged_severity d)).
  { unfold judged_severity, _map_ai_urgency_to_severity. rewrite Hhash. reflexivity. }
  unfold _combine_library_and_ai_results_try. rewrite Hc.
  unfold subscript at 1. rewrite Hj. subst j. cbn [Py.bind py_get].
  rewrite Hmap. cbn [Py.bind].
  rewrite severity_rank_str. cbn [Py.bind].
  change (subscript (base_decision "combined_analysis" A) "severity_level")
    with (Ok (get A "severity_level" (VStr "LOW"))).
  rewrite Hsev. cbn [Py.bind].
  rewrite severity_rank_str. cbn [Py.bind].
  destruct (rank_of_name sa <? rank_of_name (judged_severity d))%Z.
  - change (subscript (base_decision "combined_analysis" A) "recommendation")
      with (Ok (get A "recommendation" (VStr "APPROVE"))).
    change (subscript (base_decision "combined_analysis" A) "confidence")
      with (Ok (get A "confidence_score" (VNum 0.5))).
    rewrite Hconf. cbn [Py.bind].
    unfold py_max_value, as_num. cbn [num_of Py.bind]. rewrite Hnum. cbn [Py.bind].
    match goal with
    | |- context [subscript (update ?b ?u) "reasoning"] =>
        change (subscript (update b u) "reasoning")
          with (Ok (get A "primary_concerns" (VList [])))
    end.
    rewrite Hcon. cbn [Py.bind py_append].
    eexists. eexists. split; [reflexivity|].
    repeat split.
  - eexists. eexists. split; [reflexivity|]. split; reflexivity.
Qed.

Lemma base_keeps_library (method : string) (A : dict) :
  keeps_library A (base_decision method A).
Proof.
  repeat split.
Qed.

(** Whatever the secondary result holds, the merged severity does not
    rank below the library's. *)
Lemma combine_monotone (A S : dict) (sa : string) :
  get A "severity_level" (VStr "LOW") = VStr sa ->
  exists sf,
    get (_combine_library_and_ai_results A S) "severity_level" (VStr "LOW") = VStr sf
    /\ (rank_of_name sa <= rank_of_name sf)%Z.
Proof.
  intro Hsev.
  unfold _combine_library_and_ai_results, _combine_library_and_ai_results_shared.
  destruct (_combine_library_and_ai_results_try A S) as [[F A']|e] eqn:H;
    [|exists sa; split; [exact Hsev | lia]].
  cbn [fst].
  unfold _combine_library_and_ai_results_try in H.
  destruct (truthy (get S "success" VNone) && has_key S "ai_analysis").
  - do 2 step_bind.
    match type of H with
    | context [_map_ai_urgency_to_severity ?u] =>
        destruct (_map_ai_urgency_to_severity u) as [s_ai|] eqn:Em;
          cbn [Py.bind] in H; [|discriminate]
    end.
    rewrite severity_rank_str in H. cbn [Py.bind] in H.
    change (subscript (base_decision "combined_analysis" A) "severity_level")
      with (Ok (get A "severity_level" (VStr "LOW"))) in H.
    rewrite Hsev in H. cbn [Py.bind] in H.
    rewrite severity_rank_str in H. cbn [Py.bind] in H.
    destruct (rank_of_name sa <? rank_of_name s_ai)%Z eqn:Hr.
    + repeat step_bind. inversion H; subst F A'.
      exists s_ai. split; [reflexivity|]. apply Z.ltb_lt in Hr. lia.
    + inversion H; subst F A'. exists sa. split; [exact Hsev | lia].
  - inversion H; subst F A'. exists sa. split; [exact Hsev | lia].
Qed.

(** C1.  For a library assessment A whose severity is one of the level
    names, and any secondary result S: the merged decision's severity
    rank is at least A's.  If no judgment was obtained, A's severity,
    recommendation and confidence are kept.  If a judgment was obtained,
    they are overridden exactly when the severity its urgency maps to
    ranks strictly above A's: the severity becomes that severity, the
    recommendation the judgment's recommended action, the confidence the
    larger of A's and the judgment's; otherwise A's values are kept. *)
Theorem merge_monotone_override (A S : dict) (sa : string) :
  get A "severity_level" (VStr "LOW") = VStr sa ->
  let F := _combine_library_and_ai_results A S in
  (exists ra rf,
      _severity_rank (get A "severity_level" (VStr "LOW")) = Ok ra
      /\ _severity_rank (get F "severity_level" (VStr "LOW")) = Ok rf
      /\ (ra <= rf)%Z)
  /\ (judgment_of S = None -> keeps_library A F)
  /\ (forall (ca : Q) (reasons : list value) (j : value) (d : dict) (cs : Q),
        get A "confidence_score" (VNum 0.5) = VNum ca ->
        get A "primary_concerns" (VList []) = VList reasons ->
        judgment_of S = Some j ->
        well_typed_judgment j d cs ->
        if (rank_of_name sa <? rank_of_name (judged_severity d))%Z
        then get F "severity_level" (VStr "LOW") = VStr (judged_severity d)
             /\ get F "recommendation" (VStr "APPROVE")
                = get d "recommended_action" (get A "recommendation" (VStr "APPROVE"))
             /\ (exists c, num_of (get F "confidence" (VNum 0.5)) = Some c
                           /\ (c == Qmax ca cs)%Q)
        else keeps_library A F).
Proof.
  intros Hsev F. split; [|split].
  - destruct (combine_monotone A S sa Hsev) as (sf & Hsf & Hle).
    exists (rank_of_name sa), (rank_of_name sf).
    unfold F. rewrite Hsev, Hsf, !severity_rank_str. auto.
  - intro Hnone. unfold F, _combine_library_and_ai_results,
      _combine_library_and_ai_results_shared.
    rewrite (combine_not_obtained A S Hnone). apply base_keeps_library.
  - intros ca reasons j d cs Hconf Hcon Hj Hwt.
    destruct (combine_obtained A S sa ca reasons j d cs Hsev Hconf Hcon Hj Hwt)
      as (F0 & A' & Htry & Hcase).
    assert (HF : F = F0).
    { unfold F, _combine_library_and_ai_results,
        _combine_library_and_ai_results_shared. rewrite Htry. reflexivity. }
    rewrite HF.
    destruct (rank_of_name sa <? rank_of_name (judged_severity d))%Z.
    + destruct Hcase as (H1 & H2 & H3 & _). split; [exact H1|]. split; [exact H2|].
      rewrite H3. exists (py_max ca cs). split; [|apply py_max_Qmax].
      unfold py_max. destruct (Qltb ca cs); [|reflexivity].
      destruct Hwt as (_ & _ & Hnum). exact Hnum.
    + destruct Hcase as (-> & _). apply base_keeps_library.
Qed.

Lemma merge_monotone_override_witness :
  let F := _combine_library_and_ai_results
             Sample.bitter_assessment
             (Sample.obtained (Sample.judgment "CRITICAL" "ESCALATE" 0.9)) in
  get F "severity_level" (VStr "LOW") = VStr "CRITICAL"
  /\ get F "recommendation" (VStr "APPROVE") = VStr "ESCALATE"
  /\ exists c, num_of (get F "confidence" (VNum 0.5)) = Some c
               /\ (c == Qmax (py_min (1.6 / 6) 1) 0.9)%Q.
Proof.
  pose proof (merge_monotone_override
                Sample.bitter_assessment
                (Sample.obtained (Sample.judgment "CRITICAL" "ESCALATE" 0.9))
                "LOW" eq_refl) as H.
  cbv zeta in H. destruct H as (_ & _ & H).
  specialize (H (py_min (1.6 / 6) 1)
                [VStr "Strong negative sentiment (intensity: 0.00)"]
                (VDict (Sample.judgment "CRITICAL" "ESCALATE" 0.9))
                (Sample.judgment "CRITICAL" "ESCALATE" 0.9) 0.9%Q).
  assert (Hc : get Sample.bitter_assessment "confidence_score" (VNum 0.5)
               = VNum (py_min (1.6 / 6) 1)).
  { vm_compute. reflexivity. }
  exact (H Hc eq_refl eq_refl (conj eq_refl (conj eq_refl eq_refl))).
Defined.

(* ================================================================== *)
(** ** Text extraction from a record *)
(* ================================================================== *)

Lemma converter_nonempty (self : Service) (xml : value) (j : dict) :
  xml_to_json_converter self xml = Some j -> truthy (VDict j) = true.
Proof.
  unfold xml_to_json_converter. intro H.
  destruct (negb (truthy xml)); [discriminate|].
  destruct xml; try discriminate.
  destruct (negb (truthy (VStr (Str.strip s)))); [discriminate|].
  destruct (ET_fromstring self s); [|discriminate].
  inversion H. reflexivity.
Qed.

Lemma falsy_text_is_short (s : string) :
  negb (truthy (VStr s)) = true -> (String.length (Str.strip s) <? 5)%nat = true.
Proof.
  cbn [truthy]. rewrite negb_involutive. intro H.
  apply String.eqb_eq in H. subst s. reflexivity.
Qed.

(** The emptiness test of line 228 is subsumed by the length test. *)
Lemma unusable_test (s : string) :
  negb (truthy (VStr s)) || (String.length (Str.strip s) <? 5)%nat
  = (String.length (Str.strip s) <? 5)%nat.
Proof.
  destruct (negb (truthy (VStr s))) eqn:E; [|reflexivity].
  rewrite (falsy_text_is_short s E). reflexivity.
Qed.

(** What [process_complaint_from_db] returns on a fetched row. *)
Lemma process_complaint_outcome (self : Service) (r : dict) (xml : value) :
  fetched_row r ->
  lookup r "complaint_xml" = Some xml ->
  match xml_to_json_converter self xml with
  | None => process_complaint_from_db self r = None
  | Some j =>
      if (String.length (Str.strip (_extract_complaint_text j)) <? 5)%nat
      then process_complaint_from_db self r = None
      else exists id uid ts,
          lookup r "id" = Some id /\ lookup r "user_id" = Some uid /\
          process_complaint_from_db self r =
            Some [ ("db_id", id); ("user_id", uid); ("timestamp", ts);
                   ("category", get r "category" (VStr "general"));
                   ("priority", get r "priority" (VStr "normal"));
                   ("complaint_text", VStr (_extract_complaint_text j));
                   ("original_json", VDict j);
                   ("db_record", VDict r) ]
  end.
Proof.
  intros ((n & Hid) & (u & Hu) & _ & Hcreated & _) Hxml.
  unfold process_complaint_from_db, process_complaint_from_db_try, subscript.
  rewrite Hxml. cbn [Py.bind].
  destruct (xml_to_json_converter self xml) as [j|] eqn:Ej; [|reflexivity].
  rewrite (converter_nonempty _ _ _ Ej). cbn [negb].
  rewrite unusable_test.
  destruct (String.length (Str.strip (_extract_complaint_text j)) <? 5)%nat;
    [reflexivity|].
  rewrite Hid, Hu. cbn [Py.bind].
  exists (VNum n), u.
  destruct Hcreated as [Hc|(iso & Hc)]; rewrite Hc;
    cbn [truthy isoformat Py.bind];
    eexists; (split; [reflexivity|split; reflexivity]).
Qed.

(** C10.  A fetched record is unprocessable exactly when the XML
    conversion yields nothing or the extracted complaint text, stripped,
    has fewer than 5 characters. *)
Theorem unprocessable_iff (self : Service) (r : dict) (xml : value) :
  fetched_row r ->
  lookup r "complaint_xml" = Some xml ->
  process_complaint_from_db self r = None
  <-> (xml_to_json_converter self xml = None
       \/ exists j, xml_to_json_converter self xml = Some j
                    /\ (String.length (Str.strip (_extract_complaint_text j)) < 5)%nat).
Proof.
  intros Hrow Hxml.
  pose proof (process_complaint_outcome self r xml Hrow Hxml) as H.
  destruct (xml_to_json_converter self xml) as [j|].
  - destruct (String.length (Str.strip (_extract_complaint_text j)) <? 5)%nat eqn:E.
    + apply Nat.ltb_lt in E. split; [|intros _; exact H].
      intros _. right. exists j. split; [reflexivity | exact E].
    + apply Nat.ltb_ge in E. destruct H as (id & uid & ts & _ & _ & H).
      rewrite H. split; [discriminate|].
      intros [Hn|(j' & Hj & Hlt)]; [discriminate|].
      inversion Hj; subst j'. lia.
  - split; [|intros _; exact H]. intros _. left. reflexivity.
Qed.

Lemma sample_row_fetched (id : Z) (xml : string) : fetched_row (Sample.row id xml).
Proof.
  unfold fetched_row, Sample.row. cbn [lookup String.eqb Ascii.eqb Bool.eqb].
  repeat split; try (eexists; reflexivity). right. eexists; reflexivity.
Defined.

Lemma unprocessable_iff_witness :
  process_complaint_from_db Sample.default_service (Sample.row 8 "hey") = None
  /\ process_complaint_from_db Sample.default_service (Sample.row 7 "hello") <> None.
Proof.
  split.
  - apply (proj2 (unprocessable_iff Sample.default_service (Sample.row 8 "hey")
                    (VStr "hey") (sample_row_fetched 8 "hey") eq_refl)).
    right. eexists. split; [reflexivity|].
    apply Nat.ltb_lt. vm_compute. reflexivity.
  - intro H.
    apply (proj1 (unprocessable_iff Sample.default_service (Sample.row 7 "hello")
                    (VStr "hello") (sample_row_fetched 7 "hello") eq_refl)) in H.
    destruct H as [H|(j & Hj & Hlt)]; [discriminate|].
    inversion Hj; subst j.
    apply Nat.ltb_lt in Hlt. vm_compute in Hlt. discriminate Hlt.
Defined.

(* ================================================================== *)
(** ** Escalation inside [enhanced_analysis] *)
(* ================================================================== *)

Lemma overall_assessment_of_analysis (self : Service) (text : string) (dflt : value) :
  get (comprehensive_profanity_analysis self text) "overall_assessment" dflt
  = VDict (_calculate_overall_assessment self (VDict (signal_reports self text))).
Proof.
  unfold comprehensive_profanity_analysis. apply get_store_same.
Qed.

Lemma failure_has_no_judgment (S : dict) :
  truthy (get S "success" VNone) = false -> judgment_of S = None.
Proof.
  unfold judgment_of. intros ->. reflexivity.
Qed.

(** Escalation required and the secondary call unsuccessful: no
    exception, the library's values, and the tag of the merger. *)
Lemma enhanced_analysis_escalation_failed
    (self : Service) (text : string) (ctx : value) :
  let A := _calculate_overall_assessment self (VDict (signal_reports self text)) in
  truthy (get A "requires_ai_analysis" (VBool false)) = true ->
  truthy (get (analyze_with_bedrock self text ctx) "success" VNone) = false ->
  get (enhanced_analysis self text ctx) "final_decision" VNone
  = VDict (base_decision "combined_analysis" A)
  /\ has_key (enhanced_analysis self text ctx) "error" = false.
Proof.
  intros A Hreq Hfail.
  unfold enhanced_analysis, enhanced_analysis_try.
  rewrite overall_assessment_of_analysis. fold A.
  cbn [py_get Py.bind]. rewrite Hreq.
  unfold _combine_library_and_ai_results_shared.
  rewrite (combine_not_obtained A _ (failure_has_no_judgment _ Hfail)).
  split.
  - rewrite get_store_same. reflexivity.
  - unfold has_key.
    rewrite !lookup_store_other by reflexivity. reflexivity.
Qed.

(** C2 at a text whose only signal is a strong negative sentiment
    (escalation required) while the Bedrock call times out: no exception
    reaches the caller and should_flag, severity, confidence and
    recommendation are the aggregate's, but the provenance tag is
    "combined_analysis", not "libraries_only". *)
Theorem failed_escalation_is_tagged_combined :
  let self := Sample.service 3 0 0 false (-0.8) Sample.timeout (Sample.always true) [] in
  let text := "I hate this service" in
  let A := _calculate_overall_assessment self (VDict (signal_reports self text)) in
  let R := enhanced_analysis self text VNone in
  get A "requires_ai_analysis" VNone = VBool true
  /\ get (analyze_with_bedrock self text VNone) "success" VNone = VBool false
  /\ has_key R "error" = false
  /\ exists F,
       get R "final_decision" VNone = VDict F
       /\ keeps_library A F
       /\ get F "primary_method" VNone = VStr "combined_analysis"
       /\ get F "primary_method" VNone <> VStr "libraries_only".
Proof.
  intros self text A R.
  destruct (enhanced_analysis_escalation_failed self text VNone eq_refl eq_refl)
    as (Hfd & Herr).
  split; [reflexivity|]. split; [reflexivity|]. split; [exact Herr|].
  exists (base_decision "combined_analysis" A).
  split; [exact Hfd|]. split; [apply base_keeps_library|].
  split; [reflexivity | discriminate].
Qed.


(* ================================================================== *)
(** ** Persistence and the per-record handler *)
(* ================================================================== *)

Lemma status_after_app (calls : list db_call) (c : db_call) (id : value) :
  status_after (calls ++ [c]) id =
    if call_committed c && same_id (call_id c) id
    then Some (call_status c) else status_after calls id.
Proof.
  induction calls as [|c0 calls IH]; simpl.
  - destruct (call_committed c && same_id (call_id c) id); reflexivity.
  - rewrite IH.
    destruct (call_committed c && same_id (call_id c) id); [reflexivity|].
    reflexivity.
Qed.

Lemma same_id_refl (n : Q) : same_id (VNum n) (VNum n) = true.
Proof. apply Qeq_bool_refl. Qed.

(** A write whose payload carries a dictionary (or nothing) under
    [final_decision] fails only at the database. *)
Lemma update_moderation_status_run (self : Service) (id : value) (status : string)
      (payload fd : dict) (r : Run) :
  get payload "final_decision" (VDict []) = VDict fd ->
  let ok := db_commit_ok self (List.length (db_calls r)) in
  update_moderation_status self id status payload r =
    (Build_Run (db_calls r ++ [DbCall id status payload ok])
               (archived r) (notified r) (metrics r),
     if ok then Ok tt else Raise db_error).
Proof.
  intros Hfd ok. unfold update_moderation_status. rewrite Hfd. fold ok.
  destruct ok; reflexivity.
Qed.

Lemma retry_payload_fetched (self : Service) (r : dict) (e : exn) :
  lookup r "retry_count" = None ->
  retry_payload self r e =
    Ok [ ("error", VStr (str_exn e)); ("retry_count", VNum (0 + 1));
         ("last_error_at", VStr (utcnow_isoformat self)) ].
Proof.
  intro H. unfold retry_payload, get. rewrite H. reflexivity.
Qed.

(** The handler of the loop. *)
Lemma process_record_handler (self : Service) (force : value) (rec : dict)
      (r r1 : Run) (e : exn) (n : Q) :
  lookup rec "id" = Some (VNum n) ->
  lookup rec "retry_count" = None ->
  process_record_try self force rec r = (r1, Raise e) ->
  process_record self force rec r =
    (Build_Run (db_calls r1 ++
                  [retry_call self (VNum n) e
                              (db_commit_ok self (List.length (db_calls r1)))])
               (archived r1) (notified r1) (inc_error (metrics r1)),
     Ok tt).
Proof.
  intros Hid Hrc Htry. unfold process_record. rewrite Htry.
  unfold subscript, bind_e, lift_e. rewrite Hid.
  rewrite (retry_payload_fetched self rec e Hrc).
  cbn [fst].
  rewrite (update_moderation_status_run self (VNum n) "retry"
             [ ("error", VStr (str_exn e)); ("retry_count", VNum (0 + 1));
               ("last_error_at", VStr (utcnow_isoformat self)) ] []
             (with_metrics inc_error r1) eq_refl).
  reflexivity.
Qed.

Lemma process_record_no_error (self : Service) (force : value) (rec : dict)
      (r r1 : Run) :
  process_record_try self force rec r = (r1, Ok tt) ->
  process_record self force rec r = (r1, Ok tt).
Proof.
  intro H. unfold process_record. rewrite H. reflexivity.
Qed.

Lemma enhanced_analysis_shape (self : Service) (text : string) (ctx : value) :
  exists ai fd,
    lookup (enhanced_analysis self text ctx) "ai_analysis" = Some (VDict ai)
    /\ lookup (enhanced_analysis self text ctx) "final_decision" = Some (VDict fd).
Proof.
  unfold enhanced_analysis.
  destruct (enhanced_analysis_try _ _ _ _) as [R|e] eqn:H.
  - unfold enhanced_analysis_try in H.
    rewrite overall_assessment_of_analysis in H.
    cbn [py_get Py.bind] in H.
    match type of H with
    | context [truthy ?v] => destruct (truthy v)
    end.
    + destruct (_combine_library_and_ai_results_shared _ _) as [F A'].
      injection H as HR; subst R.
      eexists; eexists; split; reflexivity.
    + injection H as HR; subst R.
      eexists; eexists; split; reflexivity.
  - eexists; eexists; split; reflexivity.
Qed.

(** [enhanced_analysis] never takes its fallback: nothing in its body
    raises. *)
Lemma enhanced_analysis_no_fallback (self : Service) (text : string) (ctx : value) :
  exists R, enhanced_analysis_try self text ctx
              [ ("text", VStr text); ("library_analysis", VDict []);
                ("ai_analysis", VDict []); ("final_decision", VDict []);
                ("processing_timestamp", VStr (utcnow_isoformat self)) ] = Ok R.
Proof.
  unfold enhanced_analysis_try.
  rewrite overall_assessment_of_analysis.
  cbn [py_get Py.bind].
  match goal with
  | |- context [truthy ?v] => destruct (truthy v)
  end.
  - destruct (_combine_library_and_ai_results_shared _ _) as [F A'].
    eexists; reflexivity.
  - eexists; reflexivity.
Qed.

Lemma handled_inc_error (m : Metrics) : handled (inc_error m) = S (handled m).
Proof. unfold handled. simpl. lia. Qed.
Lemma handled_inc_processed (m : Metrics) : handled (inc_processed m) = S (handled m).
Proof. unfold handled. simpl. lia. Qed.
Lemma handled_inc_flagged (m : Metrics) : handled (inc_flagged m) = handled m.
Proof. reflexivity. Qed.
Lemma handled_inc_ai_used (m : Metrics) : handled (inc_ai_used m) = handled m.
Proof. reflexivity. Qed.
Lemma handled_inc_library_only (m : Metrics) : handled (inc_library_only m) = handled m.
Proof. reflexivity. Qed.

(** Forced mode: the attribute lookup raises before anything is written. *)
Lemma moderate_forced (self : Service) (force : value) (rec cd : dict) (r : Run)
      (uid : value) (text : string) :
  truthy force = true ->
  lookup cd "user_id" = Some uid ->
  lookup cd "complaint_text" = Some (VStr text) ->
  moderate self force rec cd r = (r, Raise no_such_method).
Proof.
  intros Hf Hu Ht. unfold moderate, bind_e, lift_e, subscript.
  rewrite Hu, Ht. cbn [as_str]. rewrite Hf. reflexivity.
Qed.

(** Standard mode: the only step that can raise is the write. *)
Lemma moderate_standard (self : Service) (force : value) (rec cd : dict) (r : Run)
      (uid id : value) (text : string) :
  truthy force = false ->
  lookup cd "user_id" = Some uid ->
  lookup cd "complaint_text" = Some (VStr text) ->
  lookup rec "id" = Some id ->
  let analysis := enhanced_analysis self text (VDict (get_user_context self uid)) in
  let ok := db_commit_ok self (List.length (db_calls r)) in
  exists r' status,
    moderate self force rec cd r = (r', if ok then Ok tt else Raise db_error)
    /\ db_calls r' = db_calls r ++ [DbCall id status analysis ok]
    /\ (status = "flagged" \/ status = "approved")
    /\ handled (metrics r') = (if ok then S (handled (metrics r)) else handled (metrics r)).
Proof.
  intros Hf Hu Ht Hid analysis ok.
  destruct (enhanced_analysis_shape self text (VDict (get_user_context self uid)))
    as (ai & fd & Hai & Hfd).
  fold analysis in Hai, Hfd.
  unfold moderate, bind_e, lift_e, subscript, ret_e, modify.
  rewrite Hu, Ht, Hid. cbn [as_str]. rewrite Hf.
  fold analysis. unfold has_key. rewrite Hai. cbn [py_get Py.bind].
  assert (Hget : get analysis "final_decision" (VDict []) = VDict fd)
    by (unfold get; rewrite Hfd; reflexivity).
  set (status := if truthy (get fd "should_flag" (VBool false))
                 then "flagged" else "approved").
  assert (Hst : status = "flagged" \/ status = "approved")
    by (unfold status; destruct (truthy (get fd "should_flag" (VBool false)));
        [left|right]; reflexivity).
  destruct (truthy (get ai "success" VNone));
    cbv beta iota; rewrite Hget; cbn [py_get]; fold status;
    rewrite (update_moderation_status_run self id status analysis fd _ Hget);
    cbn [db_calls with_metrics]; fold ok; destruct ok;
    cbv beta iota;
    try (destruct (truthy (get fd "should_flag" (VBool false))));
    eexists; exists status; (split; [reflexivity|]); (split; [reflexivity|]);
    (split; [exact Hst|]); reflexivity.
Qed.

Lemma mark_failed_processing_run (self : Service) (rec : dict) (r : Run) (id : value) :
  lookup rec "id" = Some id ->
  let ok := db_commit_ok self (List.length (db_calls r)) in
  let payload :=
    [ ("error", VStr "Failed to convert XML to JSON or extract complaint text");
      ("processed_at", VStr (utcnow_isoformat self)) ] in
  mark_failed_processing self rec r =
    (Build_Run (db_calls r ++ [DbCall id "failed_processing" payload ok])
               (archived r) (notified r)
               (if ok then inc_error (metrics r) else metrics r),
     if ok then Ok tt else Raise db_error).
Proof.
  intros Hid ok payload.
  unfold mark_failed_processing, bind_e, lift_e, subscript, modify.
  rewrite Hid.
  rewrite (update_moderation_status_run self id "failed_processing"
             [ ("error", VStr "Failed to convert XML to JSON or extract complaint text");
               ("processed_at", VStr (utcnow_isoformat self)) ] [] r eq_refl).
  fold ok. destruct ok; reflexivity.
Qed.

Lemma process_record_try_attempt (self : Service) (force : value) (rec : dict)
      (r : Run) (n : Q) :
  fetched_row rec ->
  lookup rec "id" = Some (VNum n) ->
  attempt self force rec r (VNum n) (process_record_try self force rec r).
Proof.
  intros Hrow Hid.
  destruct Hrow as (Hid' & Hu & (xml & Hxml) & Hcr & Hrc).
  pose proof (process_complaint_outcome self rec xml
                (conj Hid' (conj Hu (conj (ex_intro _ xml Hxml) (conj Hcr Hrc)))) Hxml)
    as Hout.
  unfold process_record_try.
  destruct (xml_to_json_converter self xml) as [j|].
  - destruct (String.length (Str.strip (_extract_complaint_text j)) <? 5)%nat.
    + rewrite Hout, (mark_failed_processing_run self rec r _ Hid).
      apply Unusable. exact Hout.
    + destruct Hout as (id & uid & ts & Hid2 & Huid & Hcd).
      rewrite Hcd. cbn [truthy negb].
      destruct (truthy force) eqn:Hf.
      * match goal with
        | |- context [moderate self force rec ?cd r] =>
            rewrite (moderate_forced self force rec cd r uid
                       (_extract_complaint_text j) Hf eq_refl eq_refl)
        end.
        eapply Forced; [exact Hcd | exact Hf].
      * match goal with
        | |- context [moderate self force rec ?cd r] =>
            destruct (moderate_standard self force rec cd r uid (VNum n)
                        (_extract_complaint_text j) Hf eq_refl eq_refl Hid)
              as (r' & status & Hm & Hcalls & Hst & Hh)
        end.
        rewrite Hm. eapply Standard; eassumption.
  - rewrite Hout, (mark_failed_processing_run self rec r _ Hid).
    apply Unusable. exact Hout.
Qed.

Lemma status_after_uncommitted (calls : list db_call) (c : db_call) (id : value) :
  call_committed c = false ->
  status_after (calls ++ [c]) id = status_after calls id.
Proof.
  intro H. rewrite status_after_app, H. reflexivity.
Qed.

Lemma status_after_committed (calls : list db_call) (c : db_call) (n : Q) :
  call_committed c = true -> call_id c = VNum n ->
  status_after (calls ++ [c]) (VNum n) = Some (call_status c).
Proof.
  intros H Hid. rewrite status_after_app, H, Hid, same_id_refl. reflexivity.
Qed.

(** One iteration on a fetched row, all cases. *)
Lemma process_record_outcome (self : Service) (force : value) (rec : dict)
      (r : Run) (n : Q) :
  fetched_row rec ->
  lookup rec "id" = Some (VNum n) ->
  let id := VNum n in
  let out := fst (process_record self force rec r) in
  snd (process_record self force rec r) = Ok tt
  /\ handled (metrics out) = S (handled (metrics r))
  /\ (exists new,
        db_calls out = db_calls r ++ new
        /\ (forall c, In c new -> call_status c = "failed_processing" ->
            process_complaint_from_db self rec = None)
        /\ (forall c, In c new -> call_status c = "failed_processing" ->
            call_committed c = true ->
            new = [c] /\ status_after (db_calls out) id = Some "failed_processing"))
  /\ (forall r1 e,
        process_record_try self force rec r = (r1, Raise e) ->
        let ok := db_commit_ok self (List.length (db_calls r1)) in
        db_calls out = db_calls r1 ++ [retry_call self id e ok]
        /\ error_count (metrics out) = S (error_count (metrics r1))
        /\ (ok = true -> status_after (db_calls out) id = Some "retry")
        /\ (ok = false ->
            status_after (db_calls out) id = status_after (db_calls r) id)).
Proof.
  intros Hrow Hid id out.
  destruct Hrow as (Hrow & Hrc).
  assert (Hrow' : fetched_row rec) by (split; assumption).
  destruct Hrc as (_ & _ & _ & Hrc).
  pose proof (process_record_try_attempt self force rec r n Hrow' Hid) as Hatt.
  destruct (process_record_try self force rec r) as [r1 res] eqn:Htry.
  assert (Herr : forall e, res = Raise e ->
                 process_record self force rec r =
                   (Build_Run (db_calls r1 ++
                                 [retry_call self id e
                                    (db_commit_ok self (List.length (db_calls r1)))])
                              (archived r1) (notified r1) (inc_error (metrics r1)),
                    Ok tt)).
  { intros e ->. apply (process_record_handler self force rec r r1 e n Hid Hrc Htry). }
  inversion Hatt as [payload Hnone ok Hr1 | cd Hsome Hf Hr1
                     | cd analysis status r' Hsome Hf ok Hcalls Hst Hh Hr1];
    subst.
  - (* unusable *)
    destruct ok eqn:Hok.
    + assert (Hpr : process_record self force rec r =
                    (Build_Run (db_calls r ++ [DbCall id "failed_processing" payload true])
                               (archived r) (notified r) (inc_error (metrics r)), Ok tt))
        by (apply process_record_no_error; exact Htry).
      subst out. rewrite Hpr. cbn [fst snd db_calls metrics].
      split; [reflexivity|]. split; [apply handled_inc_error|]. split.
      * eexists. split; [reflexivity|]. split.
        -- intros c _ _. exact Hnone.
        -- intros c [<-|[]] _ _. split; [reflexivity|].
           apply status_after_committed; reflexivity.
      * intros r1 e H. discriminate H.
    + specialize (Herr db_error eq_refl).
      subst out. rewrite Herr. cbn [fst snd db_calls metrics].
      split; [reflexivity|]. split; [apply handled_inc_error|]. split.
      * eexists. split; [rewrite <- app_assoc; reflexivity|]. split.
        -- intros c _ _. exact Hnone.
        -- intros c [<-|[<-|[]]] Hs Hc; cbn in Hs, Hc; discriminate.
      * intros r1 e H. injection H as <- <-. cbn [db_calls metrics].
        split; [reflexivity|]. split; [reflexivity|]. split.
        -- intro Hc. rewrite status_after_committed with (n := n);
             [reflexivity | exact Hc | reflexivity].
        -- intro Hc. rewrite status_after_uncommitted by exact Hc.
           apply status_after_uncommitted. reflexivity.
  - (* forced *)
    specialize (Herr no_such_method eq_refl).
    subst out. rewrite Herr. cbn [fst snd db_calls metrics].
    split; [reflexivity|]. split; [apply handled_inc_error|]. split.
    + eexists. split; [reflexivity|]. split.
      * intros c [<-|[]] Hs. discriminate Hs.
      * intros c [<-|[]] Hs. discriminate Hs.
    + intros r1' e H. injection H as <- <-. cbn [db_calls metrics].
      split; [reflexivity|]. split; [reflexivity|]. split.
      * intro Hc. rewrite status_after_committed with (n := n);
          [reflexivity | exact Hc | reflexivity].
      * intro Hc. apply status_after_uncommitted. exact Hc.
  - (* standard *)
    destruct ok eqn:Hok.
    + assert (Hpr : process_record self force rec r = (r1, Ok tt))
        by (apply process_record_no_error; exact Htry).
      subst out. rewrite Hpr. cbn [fst snd].
      split; [reflexivity|]. split; [exact Hh|]. split.
      * eexists. split; [exact Hcalls|]. split.
        -- intros c [<-|[]] Hs. cbn in Hs. destruct Hst; subst; discriminate.
        -- intros c [<-|[]] Hs. cbn in Hs. destruct Hst; subst; discriminate.
      * intros r1' e H. discriminate H.
    + specialize (Herr db_error eq_refl).
      subst out. rewrite Herr. cbn [fst snd db_calls metrics].
      split; [reflexivity|]. split; [rewrite handled_inc_error, Hh; reflexivity|]. split.
      * eexists. split; [rewrite Hcalls, <- app_assoc; reflexivity|]. split.
        -- intros c [<-|[<-|[]]] Hs; cbn in Hs; [destruct Hst; subst|]; discriminate.
        -- intros c [<-|[<-|[]]] Hs; cbn in Hs; [destruct Hst; subst|]; discriminate.
      * intros r1' e H. injection H as <- <-.
        split; [reflexivity|]. split; [reflexivity|]. split.
        -- intro Hc. rewrite status_after_committed with (n := n);
             [reflexivity | exact Hc | reflexivity].
        -- intro Hc. rewrite status_after_uncommitted by exact Hc.
           rewrite Hcalls. apply status_after_uncommitted. reflexivity.
Qed.

Lemma process_batch_step (self : Service) (force : value) (rec : dict)
      (rest : list dict) (r : Run) :
  snd (process_record self force rec r) = Ok tt ->
  process_batch self force (rec :: rest) r
  = process_batch self force rest (fst (process_record self force rec r)).
Proof.
  intro H. cbn [process_batch]. unfold bind_e.
  destruct (process_record self force rec r) as [out res].
  cbn [snd] in H. subst res. reflexivity.
Qed.

(** A batch of fetched rows is processed to its end, and every record is
    counted once, as processed or as an error. *)
Lemma process_batch_completes (self : Service) (force : value)
      (complaints : list dict) :
  Forall fetched_row complaints ->
  forall r,
    snd (process_batch self force complaints r) = Ok tt
    /\ handled (metrics (fst (process_batch self force complaints r)))
       = (handled (metrics r) + List.length complaints)%nat.
Proof.
  induction 1 as [|rec rest Hrow Hrest IH]; intro r.
  - cbn. split; [reflexivity | lia].
  - destruct Hrow as ((n & Hid) & Hmore).
    destruct (process_record_outcome self force rec r n
                (conj (ex_intro _ n Hid) Hmore) Hid) as (Hok & Hh & _).
    rewrite (process_batch_step self force rec rest r Hok).
    destruct (IH (fst (process_record self force rec r))) as (IH1 & IH2).
    split; [exact IH1|]. rewrite IH2, Hh. cbn [List.length]. lia.
Qed.

(** C6, as the code has it.  For a fetched record: the iteration never
    lets an exception escape and the loop goes on with the next record;
    the record is counted once.  A FAILED_PROCESSING write is issued only
    for a record without usable text, and when it commits it is the only
    write (no retry).  When the body raises (a failed write, or forced
    mode), the handler counts an error and attempts a RETRY write carrying
    the error text and retry_count = (the record's retry_count, 0 when
    absent) + 1; if that write commits the record's status is RETRY, and
    if it fails too the status is left as it was before the iteration. *)
Theorem per_record_error_isolation (self : Service) (force : value) (rec : dict)
    (r : Run) (n : Q) :
  fetched_row rec ->
  lookup rec "id" = Some (VNum n) ->
  let id := VNum n in
  let out := fst (process_record self force rec r) in
  snd (process_record self force rec r) = Ok tt
  /\ (forall rest, process_batch self force (rec :: rest) r
                   = process_batch self force rest out)
  /\ handled (metrics out) = S (handled (metrics r))
  /\ (exists new,
        db_calls out = db_calls r ++ new
        /\ (forall c, In c new -> call_status c = "failed_processing" ->
            process_complaint_from_db self rec = None)
        /\ (forall c, In c new -> call_status c = "failed_processing" ->
            call_committed c = true ->
            new = [c] /\ status_after (db_calls out) id = Some "failed_processing"))
  /\ (forall r1 e,
        process_record_try self force rec r = (r1, Raise e) ->
        let ok := db_commit_ok self (List.length (db_calls r1)) in
        db_calls out = db_calls r1 ++ [retry_call self id e ok]
        /\ error_count (metrics out) = S (error_count (metrics r1))
        /\ (ok = true -> status_after (db_calls out) id = Some "retry")
        /\ (ok = false ->
            status_after (db_calls out) id = status_after (db_calls r) id)).
Proof.
  intros Hrow Hid id out.
  destruct (process_record_outcome self force rec r n Hrow Hid)
    as (Hok & Hh & Hnew & Herr).
  split; [exact Hok|]. split.
  - intro rest. apply process_batch_step. exact Hok.
  - split; [exact Hh|]. split; [exact Hnew | exact Herr].
Qed.

Lemma per_record_error_isolation_witness :
  let self := Sample.service 3 0 0 false (-0.8) Sample.timeout
                             (fun k => negb (Nat.eqb k 0)) [] in
  let rec := Sample.row 7 "I hate this service" in
  status_after (db_calls (fst (process_record self (VBool false) rec run0))) (VNum 7)
  = Some "retry".
Proof.
  intros self rec.
  pose proof (per_record_error_isolation self (VBool false) rec run0 7
                (sample_row_fetched 7 "I hate this service") eq_refl) as H.
  cbv zeta in H. destruct H as (_ & _ & _ & _ & H).
  destruct (H (fst (process_record_try self (VBool false) rec run0)) db_error)
    as (_ & _ & Hok & _).
  - vm_compute. reflexivity.
  - apply Hok. vm_compute. reflexivity.
Defined.

(** C6 as stated fails when the retry write fails as well: with a
    database that rejects every write, the record's analysis goes through,
    the "approved" write raises, the handler counts the error, its "retry"
    write raises too and is only logged; the record's status is not RETRY
    (no write committed), and the run still ends with status 200. *)
Lemma retry_write_lost_counterexample :
  let self := Sample.service 3 0 0 false (-0.8) Sample.timeout (Sample.always false)
                             [Sample.row 7 "I hate this service"] in
  let run := fst (lambda_handler self []) in
  snd (lambda_handler self []) = 200%Z
  /\ error_count (metrics run) = 1%nat
  /\ map (fun c => (call_status c, call_committed c)) (db_calls run)
     = [("approved", false); ("retry", false)]
  /\ status_after (db_calls run) (VNum 7) = None
  /\ status_after (db_calls run) (VNum 7) <> Some "retry".
Proof.
  vm_compute. repeat split. discriminate.
Qed.

(* ================================================================== *)
(** ** Forced secondary analysis *)
(* ================================================================== *)

(** What the function of lines 1078-1099 computes, were it called. *)
Lemma ai_to_final_decision_as_written (ai_results : dict) :
  (truthy (get ai_results "success" VNone) = false ->
   exists F, _ai_to_final_decision ai_results = Ok F
             /\ get F "primary_method" VNone = VStr "ai_error_fallback"
             /\ decision_of F = (VBool true, VStr "HIGH", VStr "REVIEW"))
  /\ (forall d,
        truthy (get ai_results "success" VNone) = true ->
        get ai_results "ai_analysis" (VDict []) = VDict d ->
        hashable (get d "urgency" (VStr "LOW")) = true ->
        exists F, _ai_to_final_decision ai_results = Ok F
                  /\ get F "primary_method" VNone = VStr "ai_only"
                  /\ get F "should_flag" VNone
                     = VBool (existsb (py_eq_str (get d "recommended_action"
                                                     (VStr "APPROVE")))
                                      ["FLAG"; "ESCALATE"; "REVIEW"])).
Proof.
  split.
  - intro H. unfold _ai_to_final_decision. rewrite H. cbn [negb].
    eexists. split; [reflexivity|]. split; reflexivity.
  - intros d H Hd Hh. unfold _ai_to_final_decision. rewrite H, Hd.
    cbn [negb py_get Py.bind]. unfold _map_ai_urgency_to_severity. rewrite Hh.
    cbn [Py.bind]. eexists. split; [reflexivity|]. split; reflexivity.
Qed.

(** In forced mode the body of the iteration raises at the attribute
    lookup, for every record with usable text. *)
Lemma forced_mode_raises (self : Service) (force : value) (rec : dict) (r : Run)
      (n : Q) (cd : dict) :
  fetched_row rec ->
  lookup rec "id" = Some (VNum n) ->
  process_complaint_from_db self rec = Some cd ->
  truthy force = true ->
  process_record_try self force rec r = (r, Raise no_such_method)
  /\ getattr_service "_ai_to_final_decision" = Raise no_such_method.
Proof.
  intros Hrow Hid Hcd Hf. split; [|reflexivity].
  pose proof (process_record_try_attempt self force rec r n Hrow Hid) as Hatt.
  inversion Hatt as [payload Hnone ok Hr1 | cd' Hsome Hf' Hr1
                     | cd' analysis status r' Hsome Hf' ok Hcalls Hst Hh Hr1].
  - congruence.
  - reflexivity.
  - congruence.
Qed.

(** C3 on the code: forced mode with a judgment that recommends FLAG.
    The call of [_ai_to_final_decision] on the service object raises
    AttributeError, so no decision tagged "ai_only" is produced: the only
    write is RETRY with that error, nothing is processed or flagged.  The
    function as written would have returned an "ai_only" decision with
    should_flag true. *)
Theorem forced_mode_never_builds_ai_decision :
  let judgment := Sample.judgment "HIGH" "FLAG" 0.9 in
  let self := Sample.service 3 0 0 false (-0.8) (Ok (Some judgment)) (Sample.always true)
                             [Sample.row 7 "I hate this service"] in
  let run := fst (lambda_handler self [("force_ai_analysis", VBool true)]) in
  map (fun c => (call_id c, call_status c, get (call_result c) "error" VNone))
      (db_calls run)
  = [ (VNum 7, "retry",
       VStr "'ProductionModerationService' object has no attribute '_ai_to_final_decision'") ]
  /\ status_after (db_calls run) (VNum 7) = Some "retry"
  /\ processed_count (metrics run) = 0%nat
  /\ flagged_count (metrics run) = 0%nat
  /\ error_count (metrics run) = 1%nat
  /\ exists F,
       _ai_to_final_decision (Sample.obtained judgment) = Ok F
       /\ get F "primary_method" VNone = VStr "ai_only"
       /\ get F "should_flag" VNone = VBool true.
Proof.
  vm_compute. repeat split. eexists. repeat split.
Qed.


(* ================================================================== *)
(** ** The rows of the worked runs *)
(* ================================================================== *)

Lemma bitter_rows_fetched (limit status : value) :
  Forall fetched_row (fetch_complaints_from_db bitter_service limit status).
Proof.
  change (Forall fetched_row [Sample.row 7 "I hate this service"]).
  constructor; [apply sample_row_fetched | constructor].
Defined.

Lemma forced_rows_fetched (limit status : value) :
  Forall fetched_row (fetch_complaints_from_db forced_service limit status).
Proof.
  change (Forall fetched_row [Sample.row 7 "I hate this service"; Sample.row 8 "hey"]).
  constructor; [apply sample_row_fetched|].
  constructor; [apply sample_row_fetched | constructor].
Defined.

(* ================================================================== *)
(** ** Method tags and concerns of a scoring run *)
(* ================================================================== *)

(** Each scoring block leaves the tally alone or adds one term, one
    concern and one tag. *)
Lemma score_ml_shape (self : Service) (ar : value) (t t' : tally) :
  score_ml self ar t = Ok t' ->
  t' = t
  \/ exists total c, t' = Tally total (concerns t ++ [c])
                               (flagged_methods t ++ ["ML_PROFANITY"]).
Proof.
  unfold score_ml. intro H.
  do 2 step_bind.
  match type of H with context [truthy ?v] => destruct (truthy v) end.
  - repeat step_bind. inversion H. right. eexists. eexists. reflexivity.
  - left. congruence.
Qed.

Lemma score_dictionary_shape (self : Service) (ar : value) (t t' : tally) :
  score_dictionary self ar t = Ok t' ->
  t' = t
  \/ exists total c, t' = Tally total (concerns t ++ [c])
                               (flagged_methods t ++ ["DICTIONARY_PROFANITY"]).
Proof.
  unfold score_dictionary. intro H.
  do 2 step_bind.
  match type of H with context [truthy ?v] => destruct (truthy v) end.
  - repeat step_bind. inversion H. right. eexists. eexists. reflexivity.
  - left. congruence.
Qed.

Lemma score_sentiment_shape (self : Service) (ar : value) (t t' : tally) :
  score_sentiment self ar t = Ok t' ->
  t' = t
  \/ exists total c tag,
       (tag = "STRONG_NEGATIVE_SENTIMENT" \/ tag = "MODERATE_NEGATIVE_SENTIMENT")
       /\ t' = Tally total (concerns t ++ [c]) (flagged_methods t ++ [tag]).
Proof.
  unfold score_sentiment. intro H.
  do 2 step_bind.
  match type of H with context [py_eq_str ?v ?s] => destruct (py_eq_str v s) end;
    [|left; congruence].
  do 2 step_bind.
  match goal with E : py_gt _ 0.6 = Ok ?b |- _ => destruct b end.
  - repeat step_bind. inversion H. right.
    eexists. eexists. eexists. split; [left; reflexivity | reflexivity].
  - step_bind.
    match goal with E : py_gt _ 0.3 = Ok ?b |- _ => destruct b end.
    + repeat step_bind. inversion H. right.
      eexists. eexists. eexists. split; [right; reflexivity | reflexivity].
    + left. congruence.
Qed.

Lemma score_text_stats_shape (ar : value) (t t' : tally) :
  score_text_stats ar t = Ok t' ->
  exists caps excl : bool,
    flagged_methods t' = flagged_methods t ++ (if caps then ["EXCESSIVE_CAPS"] else [])
    /\ List.length (concerns t')
       = (List.length (concerns t) + (if caps then 1 else 0) + (if excl then 1 else 0))%nat.
Proof.
  unfold score_text_stats. intro H.
  do 5 step_bind. injection H as <-.
  match goal with E : py_gt _ 0.3 = Ok ?b |- _ => exists b end.
  match goal with E : py_gt _ 3 = Ok ?b |- _ => exists b end.
  repeat match goal with b : bool |- _ => destruct b end;
    cbn [flagged_methods concerns]; rewrite ?length_app, ?app_nil_r;
    cbn [List.length]; split; try reflexivity; lia.
Qed.

(** The tags and concerns a scoring run ends with. *)
Lemma score_signals_shape (self : Service) (ar : value) (t : tally) :
  score_signals self ar = Ok t ->
  exists (ml dc caps excl : bool) (sent : list string),
    (sent = [] \/ sent = ["STRONG_NEGATIVE_SENTIMENT"]
     \/ sent = ["MODERATE_NEGATIVE_SENTIMENT"])
    /\ flagged_methods t
       = (if ml then ["ML_PROFANITY"] else [])
         ++ (if dc then ["DICTIONARY_PROFANITY"] else [])
         ++ sent
         ++ (if caps then ["EXCESSIVE_CAPS"] else [])
    /\ List.length (concerns t)
       = (List.length (flagged_methods t) + (if excl then 1 else 0))%nat.
Proof.
  unfold score_signals. intro H.
  destruct (score_ml self ar tally0) as [t1|] eqn:E1; cbn [Py.bind] in H; [|discriminate].
  destruct (score_dictionary self ar t1) as [t2|] eqn:E2;
    cbn [Py.bind] in H; [|discriminate].
  destruct (score_sentiment self ar t2) as [t3|] eqn:E3;
    cbn [Py.bind] in H; [|discriminate].
  destruct (score_text_stats_shape _ _ _ H) as (caps & excl & Hm & Hc).
  assert (S1 : exists ml : bool,
             flagged_methods t1 = (if ml then ["ML_PROFANITY"] else [])
             /\ List.length (concerns t1) = List.length (flagged_methods t1)).
  { destruct (score_ml_shape _ _ _ _ E1) as [->|(x & c & ->)].
    - exists false. split; reflexivity.
    - exists true. split; reflexivity. }
  destruct S1 as (ml & M1 & C1).
  assert (S2 : exists dc : bool,
             flagged_methods t2 = flagged_methods t1
                                  ++ (if dc then ["DICTIONARY_PROFANITY"] else [])
             /\ List.length (concerns t2) = List.length (flagged_methods t2)).
  { destruct (score_dictionary_shape _ _ _ _ E2) as [->|(x & c & ->)].
    - exists false. rewrite app_nil_r. split; [reflexivity | exact C1].
    - exists true. cbn [flagged_methods concerns]. rewrite !length_app, C1.
      split; reflexivity. }
  destruct S2 as (dc & M2 & C2).
  assert (S3 : exists sent : list string,
             (sent = [] \/ sent = ["STRONG_NEGATIVE_SENTIMENT"]
              \/ sent = ["MODERATE_NEGATIVE_SENTIMENT"])
             /\ flagged_methods t3 = flagged_methods t2 ++ sent
             /\ List.length (concerns t3) = List.length (flagged_methods t3)).
  { destruct (score_sentiment_shape _ _ _ _ E3) as [->|(x & c & tag & Htag & ->)].
    - exists []. rewrite app_nil_r. split; [left; reflexivity|]. split; [reflexivity | exact C2].
    - exists [tag]. cbn [flagged_methods concerns]. rewrite !length_app, C2.
      split; [destruct Htag as [->| ->]; auto|]. split; reflexivity. }
  destruct S3 as (sent & Hsent & M3 & C3).
  exists ml, dc, caps, excl, sent. split; [exact Hsent|]. split.
  - rewrite Hm, M3, M2, M1, <- !app_assoc. reflexivity.
  - rewrite Hc, Hm, C3, !length_app. destruct caps; cbn [List.length]; lia.
Qed.

(** X1.  Whenever the scoring part of the aggregator goes through, the
    method tags it leaves are pairwise distinct, at most four, all among
    the five tags the aggregator can append, and never hold both the
    strong and the moderate sentiment tag; the concerns are as many as
    the tags, or one more (the exclamation-mark concern has no tag). *)
Theorem method_tags_invariant (self : Service) (ar : value) (t : tally) :
  score_signals self ar = Ok t ->
  NoDup (flagged_methods t)
  /\ (List.length (flagged_methods t) <= 4)%nat
  /\ (forall m, In m (flagged_methods t) -> In m known_tags)
  /\ ~ (In "STRONG_NEGATIVE_SENTIMENT" (flagged_methods t)
        /\ In "MODERATE_NEGATIVE_SENTIMENT" (flagged_methods t))
  /\ (List.length (flagged_methods t) <= List.length (concerns t)
      <= S (List.length (flagged_methods t)))%nat.
Proof.
  intro H.
  destruct (score_signals_shape self ar t H) as (ml & dc & caps & excl & sent & Hs & Hm & Hc).
  rewrite Hc, Hm.
  destruct Hs as [->|[->| ->]]; destruct ml, dc, caps, excl; cbn;
    (split; [repeat constructor; cbn; intuition discriminate|]);
    (split; [lia|]);
    (split; [intros m Hin; cbn in Hin; intuition (subst; auto 10)|]);
    (split; [intuition discriminate | lia]).
Qed.

Lemma method_tags_invariant_witness :
  NoDup (flagged_methods (tally_of Sample.default_service Sample.loud))
  /\ (List.length (flagged_methods (tally_of Sample.default_service Sample.loud)) <= 4)%nat.
Proof.
  destruct (method_tags_invariant Sample.default_service Sample.loud
              (tally_of Sample.default_service Sample.loud) eq_refl) as (H1 & H2 & _).
  split; assumption.
Defined.

(* ================================================================== *)
(** ** The score of the extractor reports *)
(* ================================================================== *)

Lemma reports_ml (self : Service) (text : string) (dflt : value) :
  get (signal_reports self text) "ml_profanity_check" dflt = _ml_profanity_analysis self text.
Proof.
  unfold signal_reports.
  rewrite !get_store_other by reflexivity. apply get_store_same.
Qed.

Lemma reports_dictionary (self : Service) (text : string) (dflt : value) :
  get (signal_reports self text) "dictionary_profanity" dflt
  = _dictionary_profanity_analysis self text.
Proof.
  unfold signal_reports.
  rewrite !get_store_other by reflexivity. apply get_store_same.
Qed.

Lemma reports_sentiment (self : Service) (text : string) (dflt : value) :
  get (signal_reports self text) "sentiment_analysis" dflt = _sentiment_analysis self text.
Proof.
  unfold signal_reports. apply get_store_same.
Qed.

Lemma reports_text_stats (self : Service) (text : string) (dflt : value) :
  get (signal_reports self text) "text_stats" dflt = _analyze_text_stats text.
Proof.
  unfold signal_reports.
  rewrite !get_store_other by reflexivity. apply get_store_same.
Qed.

Lemma score_ml_pipeline (self : Service) (text : string) (t : tally) :
  exists t', score_ml self (VDict (signal_reports self text)) t = Ok t'
             /\ (total_score t' == total_score t + ml_contribution self text)%Q
             /\ flagged_methods t'
                = flagged_methods t
                  ++ (if ml_fires self text then ["ML_PROFANITY"] else []).
Proof.
  unfold score_ml, ml_contribution, ml_fires. cbn [py_get Py.bind].
  rewrite reports_ml. unfold _ml_profanity_analysis.
  destruct (predict_prob self text) as [p|e1]; cbn [Py.bind].
  - destruct (predict self text) as [l|e2]; cbn [Py.bind].
    + destruct (Z.eqb l 1).
      * eexists. split; [reflexivity|]. cbn [total_score flagged_methods].
        split; reflexivity.
      * eexists. split; [reflexivity|]. rewrite app_nil_r. split; [ring|reflexivity].
    + eexists. split; [reflexivity|]. rewrite app_nil_r. split; [ring|reflexivity].
  - eexists. split; [reflexivity|]. rewrite app_nil_r. split; [ring|reflexivity].
Qed.

Lemma score_dictionary_pipeline (self : Service) (text : string) (t : tally) :
  exists t', score_dictionary self (VDict (signal_reports self text)) t = Ok t'
             /\ (total_score t' == total_score t + dictionary_contribution self text)%Q
             /\ flagged_methods t'
                = flagged_methods t
                  ++ (if dictionary_fires self text then ["DICTIONARY_PROFANITY"] else []).
Proof.
  unfold score_dictionary, dictionary_contribution, dictionary_fires.
  cbn [py_get Py.bind].
  rewrite reports_dictionary. unfold _dictionary_profanity_analysis.
  destruct (contains_profanity self text) as [b|e1]; cbn [Py.bind].
  - destruct (censor self text) as [c|e2]; cbn [Py.bind].
    + destruct b.
      * eexists. split; [reflexivity|]. cbn [total_score flagged_methods].
        split; reflexivity.
      * eexists. split; [reflexivity|]. rewrite app_nil_r. split; [ring|reflexivity].
    + eexists. split; [reflexivity|]. destruct b; rewrite app_nil_r;
        (split; [ring|reflexivity]).
  - eexists. split; [reflexivity|]. rewrite app_nil_r. split; [ring|reflexivity].
Qed.

Lemma score_sentiment_pipeline (self : Service) (text : string) (t : tally) :
  exists t', score_sentiment self (VDict (signal_reports self text)) t = Ok t'
             /\ (total_score t' == total_score t + sentiment_contribution self text)%Q
             /\ flagged_methods t' = flagged_methods t ++ sentiment_tags self text.
Proof.
  unfold score_sentiment, sentiment_contribution, sentiment_tags.
  cbn [py_get Py.bind].
  rewrite reports_sentiment. unfold _sentiment_analysis.
  destruct (polarity_scores self text) as [[[[c pos] neg] neu]|e]; cbn [Py.bind].
  - destruct (Qle_bool 0.05 c).
    + eexists. split; [reflexivity|]. rewrite app_nil_r. split; [ring|reflexivity].
    + destruct (Qle_bool c (-0.05)).
      * cbn [py_get Py.bind get lookup]. cbv zeta.
        change (py_eq_str (get _ "sentiment" VNone) "NEGATIVE") with true.
        cbv iota.
        change (get _ "intensity" (VNum 0)) with (VNum (Qabs c)).
        cbn [py_gt as_num num_of Py.bind].
        destruct (Qltb 0.6 (Qabs c)).
        -- eexists. split; [reflexivity|]. cbn [total_score flagged_methods].
           split; reflexivity.
        -- destruct (Qltb 0.3 (Qabs c)).
           ++ eexists. split; [reflexivity|]. cbn [total_score flagged_methods].
              split; reflexivity.
           ++ eexists. split; [reflexivity|]. rewrite app_nil_r.
              split; [ring|reflexivity].
      * eexists. split; [reflexivity|]. rewrite app_nil_r. split; [ring|reflexivity].
  - eexists. split; [reflexivity|]. rewrite app_nil_r. split; [ring|reflexivity].
Qed.

Lemma text_stats_explicit (text : string) :
  _analyze_text_stats text =
    VDict
      [ ("char_count", VNum (Qnat (String.length text)));
        ("word_count", VNum (Qnat (List.length (Str.split text))));
        ("sentence_count",
          VNum (Qnat (List.length
                        (filter (fun s => truthy (VStr (Str.strip s)))
                                (Str.re_split_sentences text)))));
        ("avg_word_length", VNum (avg_word_length_of text));
        ("uppercase_ratio", VNum (uppercase_ratio_of text));
        ("exclamation_count",
          VNum (Qnat (Str.count_if (fun c => Ascii.eqb c "!"%char) text)));
        ("question_count",
          VNum (Qnat (Str.count_if (fun c => Ascii.eqb c "?"%char) text))) ].
Proof.
  unfold _analyze_text_stats, _analyze_text_stats_try, avg_word_length_of,
    uppercase_ratio_of.
  destruct (Str.split text) as [|w ws] eqn:Ew.
  - cbn [map truthy Py.bind].
    destruct text as [|c text']; [reflexivity|].
    cbn [truthy String.eqb negb Str.is_empty String.length]. unfold py_truediv.
    rewrite Qeqb0_Qnat_S. reflexivity.
  - cbn [map truthy List.length]. unfold py_truediv at 1.
    rewrite Qeqb0_Qnat_S. cbn [Py.bind].
    destruct text as [|c text']; [reflexivity|].
    cbn [truthy String.eqb negb Str.is_empty String.length]. unfold py_truediv.
    rewrite Qeqb0_Qnat_S. reflexivity.
Qed.

Lemma Qltb_Qnat (a b : nat) : Qltb (Qnat a) (Qnat b) = (a <? b)%nat.
Proof.
  destruct (a <? b)%nat eqn:E.
  - apply Qltb_lt. apply Nat.ltb_lt in E. unfold Qnat, Qlt. simpl. lia.
  - apply Qltb_ge. apply Nat.ltb_ge in E. unfold Qnat, Qle. simpl. lia.
Qed.

Lemma score_text_stats_pipeline (self : Service) (text : string) (t : tally) :
  exists t', score_text_stats (VDict (signal_reports self text)) t = Ok t'
             /\ (total_score t' == total_score t + caps_contribution text
                                   + exclamation_contribution text)%Q
             /\ flagged_methods t'
                = flagged_methods t
                  ++ (if caps_fires text then ["EXCESSIVE_CAPS"] else []).
Proof.
  unfold score_text_stats, caps_contribution, exclamation_contribution, caps_fires.
  cbn [py_get Py.bind].
  rewrite reports_text_stats, text_stats_explicit.
  cbn [py_get Py.bind].
  change (get _ "uppercase_ratio" (VNum 0)) with (VNum (uppercase_ratio_of text)).
  change (get _ "exclamation_count" (VNum 0))
    with (VNum (Qnat (Str.count_if (fun c => Ascii.eqb c "!"%char) text))).
  cbn [py_gt as_num num_of Py.bind].
  change 3%Q with (Qnat 3). rewrite Qltb_Qnat.
  destruct (Qltb 0.3 (uppercase_ratio_of text));
    destruct (3 <? Str.count_if (fun c => Ascii.eqb c "!"%char) text)%nat;
    eexists; (split; [reflexivity|]); cbn [total_score flagged_methods];
    rewrite ?app_nil_r; (split; [ring|reflexivity]).
Qed.

Lemma pipeline_score_formula (self : Service) (text : string) :
  exists t,
    score_signals self (VDict (signal_reports self text)) = Ok t
    /\ (total_score t ==
          ml_contribution self text + dictionary_contribution self text
          + sentiment_contribution self text
          + caps_contribution text + exclamation_contribution text)%Q
    /\ flagged_methods t = pipeline_tags self text.
Proof.
  unfold score_signals, pipeline_tags.
  destruct (score_ml_pipeline self text tally0) as (t1 & E1 & T1 & M1).
  destruct (score_dictionary_pipeline self text t1) as (t2 & E2 & T2 & M2).
  destruct (score_sentiment_pipeline self text t2) as (t3 & E3 & T3 & M3).
  destruct (score_text_stats_pipeline self text t3) as (t4 & E4 & T4 & M4).
  exists t4. rewrite E1. cbn [Py.bind]. rewrite E2. cbn [Py.bind].
  rewrite E3. cbn [Py.bind]. split; [exact E4|]. split.
  - rewrite T4, T3, T2, T1. cbn [total_score tally0]. ring.
  - rewrite M4, M3, M2, M1. cbn [flagged_methods tally0 app].
    rewrite <- !app_assoc. reflexivity.
Qed.

(* ================================================================== *)
(** ** More on the merger and on [enhanced_analysis] *)
(* ================================================================== *)

(** The merger returns the base decision, the base decision with the
    four overridden entries and one more reason, or (on an exception)
    the library assessment itself. *)
Lemma combine_result_cases (A S : dict) :
  let F := _combine_library_and_ai_results A S in
  F = A
  \/ F = base_decision "combined_analysis" A
  \/ exists sev rec conf ins reasons,
       F = store (update (base_decision "combined_analysis" A)
                         [ ("severity_level", VStr sev); ("recommendation", rec);
                           ("confidence", conf); ("ai_insights", ins) ])
                 "reasoning" reasons.
Proof.
  intro F. subst F.
  unfold _combine_library_and_ai_results, _combine_library_and_ai_results_shared.
  destruct (_combine_library_and_ai_results_try A S) as [[F A']|e] eqn:H;
    [|left; reflexivity].
  cbn [fst]. right.
  unfold _combine_library_and_ai_results_try in H.
  destruct (truthy (get S "success" VNone) && has_key S "ai_analysis").
  - do 6 step_bind.
    match type of H with
    | context [if ?b then _ else _] => destruct b
    end.
    + repeat step_bind. injection H as <- _.
      right. repeat eexists.
    + injection H as <- _. left. reflexivity.
  - injection H as <- _. left. reflexivity.
Qed.

Lemma merge_never_changes_should_flag (A S : dict) :
  get (_combine_library_and_ai_results A S) "should_flag" (VBool false)
  = get A "should_flag" (VBool false).
Proof.
  destruct (combine_result_cases A S) as [->|[->|(sev & rec & conf & ins & reasons & ->)]];
    reflexivity.
Qed.

Lemma rank_of_name_bounds (s : string) : (1 <= rank_of_name s <= 4)%Z.
Proof.
  unfold rank_of_name.
  destruct (String.eqb s "LOW"); [lia|].
  destruct (String.eqb s "MEDIUM"); [lia|].
  destruct (String.eqb s "HIGH"); [lia|].
  destruct (String.eqb s "CRITICAL"); lia.
Qed.

Lemma map_urgency_names (u : value) (s : string) :
  _map_ai_urgency_to_severity u = Ok s -> In s severity_names.
Proof.
  unfold _map_ai_urgency_to_severity.
  destruct (hashable u); [|discriminate].
  destruct u as [| | |name| | |]; intro H; injection H as <-;
    try (left; reflexivity).
  match goal with
  | |- In (if ?b then _ else _) _ => destruct b eqn:E
  end; [|left; reflexivity].
  repeat rewrite orb_true_iff in E. rewrite !String.eqb_eq in E.
  unfold severity_names. cbn [In]. intuition (subst; auto; discriminate).
Qed.

(** X7.  A judgment whose urgency is none of MEDIUM, HIGH, CRITICAL (an
    unknown word, a number, null, or no urgency at all) maps to LOW and
    outranks nothing: the merged decision is the base decision built
    from the library assessment, with nothing overridden. *)
Theorem unknown_urgency_is_ignored (A S d : dict) (sa : string) :
  get A "severity_level" (VStr "LOW") = VStr sa ->
  judgment_of S = Some (VDict d) ->
  hashable (get d "urgency" (VStr "LOW")) = true ->
  get d "urgency" (VStr "LOW") <> VStr "MEDIUM" ->
  get d "urgency" (VStr "LOW") <> VStr "HIGH" ->
  get d "urgency" (VStr "LOW") <> VStr "CRITICAL" ->
  _combine_library_and_ai_results A S = base_decision "combined_analysis" A.
Proof.
  intros Hsev Hj Hh Hm Hhi Hc.
  assert (Hmap : _map_ai_urgency_to_severity (get d "urgency" (VStr "LOW")) = Ok "LOW").
  { unfold _map_ai_urgency_to_severity. rewrite Hh.
    destruct (get d "urgency" (VStr "LOW")) as [| | |u| | |]; try reflexivity.
    cbn [existsb severity_names].
    destruct (String.eqb u "LOW") eqn:E1;
      [apply String.eqb_eq in E1; subst; reflexivity|].
    destruct (String.eqb u "MEDIUM") eqn:E2;
      [apply String.eqb_eq in E2; subst; congruence|].
    destruct (String.eqb u "HIGH") eqn:E3;
      [apply String.eqb_eq in E3; subst; congruence|].
    destruct (String.eqb u "CRITICAL") eqn:E4;
      [apply String.eqb_eq in E4; subst; congruence|].
    reflexivity. }
  unfold judgment_of in Hj.
  destruct (truthy (get S "success" VNone) && has_key S "ai_analysis") eqn:Hc0;
    [|discriminate].
  unfold _combine_library_and_ai_results, _combine_library_and_ai_results_shared,
    _combine_library_and_ai_results_try.
  rewrite Hc0. unfold subscript at 1. rewrite Hj. cbn [Py.bind py_get].
  rewrite Hmap. cbn [Py.bind]. rewrite severity_rank_str. cbn [Py.bind].
  change (subscript (base_decision "combined_analysis" A) "severity_level")
    with (Ok (get A "severity_level" (VStr "LOW"))).
  rewrite Hsev. cbn [Py.bind]. rewrite severity_rank_str. cbn [Py.bind].
  pose proof (rank_of_name_bounds sa) as Hb.
  change (rank_of_name "LOW") with 1%Z.
  destruct (rank_of_name sa <? 1)%Z eqn:E; [apply Z.ltb_lt in E; lia|].
  reflexivity.
Qed.

Lemma unknown_urgency_is_ignored_witness :
  _combine_library_and_ai_results Sample.bitter_assessment
    (Sample.obtained (Sample.judgment "URGENT" "ESCALATE" 0.9))
  = base_decision "combined_analysis" Sample.bitter_assessment.
Proof.
  apply (unknown_urgency_is_ignored Sample.bitter_assessment
           (Sample.obtained (Sample.judgment "URGENT" "ESCALATE" 0.9))
           (Sample.judgment "URGENT" "ESCALATE" 0.9) "LOW");
    [vm_compute; reflexivity | reflexivity | reflexivity
     | discriminate | discriminate | discriminate].
Defined.

(** X8.  When the judgment outranks the library's severity but its
    confidence is not a number, [max] raises inside the merger and the
    handler returns the library assessment itself: the severity is not
    raised, and the result has the entries of an assessment, not those
    of a decision. *)
Theorem ill_typed_confidence_returns_raw_assessment (A S d : dict) (sa : string)
    (ca : Q) :
  get A "severity_level" (VStr "LOW") = VStr sa ->
  num_of (get A "confidence_score" (VNum 0.5)) = Some ca ->
  judgment_of S = Some (VDict d) ->
  hashable (get d "urgency" (VStr "LOW")) = true ->
  (rank_of_name sa < rank_of_name (judged_severity d))%Z ->
  num_of (get d "confidence" (VNum 0)) = None ->
  _combine_library_and_ai_results A S = A.
Proof.
  intros Hsev Hca Hj Hh Hr Hn.
  assert (Hmap : _map_ai_urgency_to_severity (get d "urgency" (VStr "LOW"))
                 = Ok (judged_severity d)).
  { unfold judged_severity, _map_ai_urgency_to_severity. rewrite Hh. reflexivity. }
  unfold judgment_of in Hj.
  destruct (truthy (get S "success" VNone) && has_key S "ai_analysis") eqn:Hc0;
    [|discriminate].
  unfold _combine_library_and_ai_results, _combine_library_and_ai_results_shared,
    _combine_library_and_ai_results_try.
  rewrite Hc0. unfold subscript at 1. rewrite Hj. cbn [Py.bind py_get].
  rewrite Hmap. cbn [Py.bind]. rewrite severity_rank_str. cbn [Py.bind].
  change (subscript (base_decision "combined_analysis" A) "severity_level")
    with (Ok (get A "severity_level" (VStr "LOW"))).
  rewrite Hsev. cbn [Py.bind]. rewrite severity_rank_str. cbn [Py.bind].
  apply Z.ltb_lt in Hr. rewrite Hr.
  change (subscript (base_decision "combined_analysis" A) "recommendation")
    with (Ok (get A "recommendation" (VStr "APPROVE"))).
  change (subscript (base_decision "combined_analysis" A) "confidence")
    with (Ok (get A "confidence_score" (VNum 0.5))).
  cbn [Py.bind]. unfold py_max_value, as_num. rewrite Hn, Hca. reflexivity.
Qed.

Lemma ill_typed_confidence_witness :
  _combine_library_and_ai_results Sample.bitter_assessment
    (Sample.obtained [("urgency", VStr "CRITICAL"); ("confidence", VStr "high")])
  = Sample.bitter_assessment.
Proof.
  apply (ill_typed_confidence_returns_raw_assessment Sample.bitter_assessment
           (Sample.obtained [("urgency", VStr "CRITICAL"); ("confidence", VStr "high")])
           [("urgency", VStr "CRITICAL"); ("confidence", VStr "high")] "LOW"
           (py_min (1.6 / 6) 1));
    vm_compute; reflexivity.
Defined.

Lemma enhanced_analysis_decision (self : Service) (text : string) (ctx : value) :
  let A := library_assessment_of self text in
  let R := enhanced_analysis self text ctx in
  has_key R "error" = false
  /\ if truthy (get A "requires_ai_analysis" (VBool false))
     then get R "final_decision" VNone
          = VDict (_combine_library_and_ai_results A (analyze_with_bedrock self text ctx))
          /\ get R "ai_analysis" VNone = VDict (analyze_with_bedrock self text ctx)
     else get R "final_decision" VNone = VDict (base_decision "libraries_only" A)
          /\ get R "ai_analysis" VNone = VDict [].
Proof.
  intros A R. subst R. unfold enhanced_analysis, enhanced_analysis_try.
  rewrite overall_assessment_of_analysis. fold (library_assessment_of self text).
  fold A. cbn [py_get Py.bind].
  destruct (truthy (get A "requires_ai_analysis" (VBool false))).
  - unfold _combine_library_and_ai_results.
    destruct (_combine_library_and_ai_results_shared A _) as [F A'].
    cbn [fst]. split; [reflexivity|]. split; reflexivity.
  - split; [reflexivity|]. split; reflexivity.
Qed.

Lemma final_should_flag_is_the_librarys (self : Service) (text : string) (ctx : value) :
  exists F,
    get (enhanced_analysis self text ctx) "final_decision" VNone = VDict F
    /\ get F "should_flag" (VBool false)
       = get (library_assessment_of self text) "should_flag" (VBool false).
Proof.
  destruct (enhanced_analysis_decision self text ctx) as (_ & H).
  destruct (truthy (get (library_assessment_of self text) "requires_ai_analysis"
                        (VBool false))).
  - destruct H as (H & _). eexists. split; [exact H|].
    apply merge_never_changes_should_flag.
  - destruct H as (H & _). eexists. split; [exact H | reflexivity].
Qed.

(** X9.  When the assessment does not require escalation,
    [enhanced_analysis] leaves [ai_analysis] empty (Bedrock is not
    called) and its final decision is the base decision tagged
    "libraries_only", which keeps the library's flag, severity,
    recommendation and confidence. *)
Theorem no_escalation_ignores_bedrock (self : Service) (text : string) (ctx : value) :
  let A := library_assessment_of self text in
  truthy (get A "requires_ai_analysis" (VBool false)) = false ->
  get (enhanced_analysis self text ctx) "final_decision" VNone
  = VDict (base_decision "libraries_only" A)
  /\ get (enhanced_analysis self text ctx) "ai_analysis" VNone = VDict []
  /\ keeps_library A (base_decision "libraries_only" A).
Proof.
  intros A Hreq.
  destruct (enhanced_analysis_decision self text ctx) as (_ & H).
  fold A in H. rewrite Hreq in H. destruct H as (H1 & H2).
  split; [exact H1|]. split; [exact H2 | apply base_keeps_library].
Qed.

Lemma no_escalation_ignores_bedrock_witness :
  get (enhanced_analysis Sample.default_service "hello there" VNone) "ai_analysis" VNone
  = VDict [].
Proof.
  refine (proj1 (proj2 (no_escalation_ignores_bedrock Sample.default_service
                          "hello there" VNone _))).
  vm_compute. reflexivity.
Defined.

(* ================================================================== *)
(** ** Bounds on the library score and what follows from them *)
(* ================================================================== *)

Lemma ml_contribution_idle (self : Service) (text : string) :
  ml_fires self text = false -> ml_contribution self text = 0%Q.
Proof.
  unfold ml_fires, ml_contribution.
  destruct (predict_prob self text); [|reflexivity].
  destruct (predict self text); [|reflexivity].
  intros ->. reflexivity.
Qed.

Lemma ml_contribution_bounds (self : Service) (text : string) :
  (forall p, predict_prob self text = Ok p -> (0 <= p)%Q /\ (p <= 1)%Q) ->
  (0 <= ml_contribution self text)%Q /\ (ml_contribution self text <= 4)%Q.
Proof.
  intro Hp. unfold ml_contribution.
  destruct (predict_prob self text) as [p|]; [|split; q_decide].
  destruct (Hp p eq_refl) as [H0 H1].
  destruct (predict self text) as [l|]; [|split; q_decide].
  destruct (Z.eqb l 1); [|split; q_decide].
  split; lra.
Qed.

Lemma dictionary_contribution_idle (self : Service) (text : string) :
  dictionary_fires self text = false -> dictionary_contribution self text = 0%Q.
Proof.
  unfold dictionary_fires, dictionary_contribution.
  destruct (contains_profanity self text) as [[|]|]; try reflexivity.
  destruct (censor self text); [discriminate | reflexivity].
Qed.

Lemma dictionary_contribution_bounds (self : Service) (text : string) :
  (0 <= dictionary_contribution self text)%Q
  /\ (dictionary_contribution self text <= 3)%Q.
Proof.
  unfold dictionary_contribution.
  destruct (contains_profanity self text) as [[|]|];
    [|split; q_decide|split; q_decide].
  destruct (censor self text) as [c|]; [|split; q_decide].
  split.
  - apply py_min_nonneg; [|q_decide].
    apply Qmult_le_0_compat; [apply Qnat_nonneg | q_decide].
  - rewrite py_min_Qmin. apply Q.le_min_r.
Qed.

Lemma sentiment_contribution_bounds (self : Service) (text : string) :
  (forall c p n u, polarity_scores self text = Ok (c, p, n, u) -> (-1 <= c)%Q) ->
  (0 <= sentiment_contribution self text)%Q
  /\ (sentiment_contribution self text <= 2)%Q.
Proof.
  intro Hc. unfold sentiment_contribution.
  destruct (polarity_scores self text) as [[[[c p] n] u]|]; [|split; q_decide].
  specialize (Hc c p n u eq_refl).
  destruct (Qle_bool 0.05 c); [split; q_decide|].
  destruct (Qle_bool c (-0.05)) eqn:E; [|split; q_decide].
  apply Qle_bool_iff in E.
  assert (Habs : (Qabs c == - c)%Q) by (apply Qabs_neg; lra).
  cbv zeta.
  destruct (Qltb 0.6 (Qabs c)).
  - rewrite Habs. split; lra.
  - destruct (Qltb 0.3 (Qabs c)); [|split; q_decide].
    rewrite Habs. split; lra.
Qed.

Lemma caps_contribution_bounds (text : string) :
  (0 <= caps_contribution text)%Q /\ (caps_contribution text <= 0.5)%Q.
Proof.
  unfold caps_contribution. destruct (Qltb 0.3 (uppercase_ratio_of text)); split; q_decide.
Qed.

Lemma exclamation_contribution_bounds (text : string) :
  (0 <= exclamation_contribution text)%Q /\ (exclamation_contribution text <= 0.3)%Q.
Proof.
  unfold exclamation_contribution.
  destruct (3 <? _)%nat; split; q_decide.
Qed.

(** The decision of the library assessment, from the total of the run. *)
Lemma library_decision (self : Service) (text : string) (t : tally) :
  score_signals self (VDict (signal_reports self text)) = Ok t ->
  decision_of (library_assessment_of self text) = decision_of (grade self t).
Proof.
  intro H. unfold library_assessment_of. apply decision_of_assessment. exact H.
Qed.

(** X3.  When the classifier's probability lies in [0, 1] and the
    compound sentiment score is at least -1, scoring the extractors'
    reports goes through and the total score lies between 0 and 9.8
    (4 + 3 + 2 + 0.5 + 0.3). *)
Theorem score_upper_bound (self : Service) (text : string) :
  (forall p, predict_prob self text = Ok p -> (0 <= p)%Q /\ (p <= 1)%Q) ->
  (forall c p n u, polarity_scores self text = Ok (c, p, n, u) -> (-1 <= c)%Q) ->
  exists t,
    score_signals self (VDict (signal_reports self text)) = Ok t
    /\ (0 <= total_score t)%Q /\ (total_score t <= 9.8)%Q.
Proof.
  intros Hp Hc.
  destruct (pipeline_score_formula self text) as (t & Ht & Hsum & _).
  exists t. split; [exact Ht|].
  destruct (ml_contribution_bounds self text Hp) as [A0 A1].
  destruct (dictionary_contribution_bounds self text) as [B0 B1].
  destruct (sentiment_contribution_bounds self text Hc) as [C0 C1].
  destruct (caps_contribution_bounds text) as [D0 D1].
  destruct (exclamation_contribution_bounds text) as [E0 E1].
  rewrite Hsum. repeat split; lra.
Qed.

Lemma score_upper_bound_witness :
  exists t,
    score_signals bitter_service
      (VDict (signal_reports bitter_service "I hate this service")) = Ok t
    /\ (total_score t <= 9.8)%Q.
Proof.
  destruct (score_upper_bound bitter_service "I hate this service") as (t & H & _ & Hle).
  - intros p H. vm_compute in H. injection H as <-. split; q_decide.
  - intros c p n u H. vm_compute in H. injection H as <- _ _ _. q_decide.
  - exists t. split; assumption.
Defined.

(** X4.  With a severity threshold of 3 or more, a text on which
    neither the classifier nor the lexicon fires is never flagged,
    whatever its sentiment, capitals and punctuation (these add at most
    2.8): the assessment is not flagged / LOW / APPROVE, and the final
    decision of [enhanced_analysis] is not flagged either, whatever
    Bedrock answers. *)
Theorem clean_text_is_never_flagged (self : Service) (text : string) (ctx : value) :
  ml_fires self text = false ->
  dictionary_fires self text = false ->
  (forall c p n u, polarity_scores self text = Ok (c, p, n, u) -> (-1 <= c)%Q) ->
  (3 <= severity_threshold self)%Z ->
  decision_of (library_assessment_of self text)
  = (VBool false, VStr "LOW", VStr "APPROVE")
  /\ exists F,
       get (enhanced_analysis self text ctx) "final_decision" VNone = VDict F
       /\ get F "should_flag" (VBool false) = VBool false.
Proof.
  intros Hml Hdc Hc Hthr.
  destruct (pipeline_score_formula self text) as (t & Ht & Hsum & _).
  rewrite (ml_contribution_idle _ _ Hml), (dictionary_contribution_idle _ _ Hdc) in Hsum.
  destruct (sentiment_contribution_bounds self text Hc) as [C0 C1].
  destruct (caps_contribution_bounds text) as [D0 D1].
  destruct (exclamation_contribution_bounds text) as [E0 E1].
  assert (Hlt : (total_score t < inject_Z (severity_threshold self))%Q).
  { apply Qlt_le_trans with (y := inject_Z 3).
    - rewrite Hsum. change (inject_Z 3) with 3%Q. lra.
    - rewrite <- Zle_Qle. exact Hthr. }
  assert (Hd : decision_of (library_assessment_of self text)
               = (VBool false, VStr "LOW", VStr "APPROVE")).
  { rewrite (library_decision self text t Ht), grade_decision.
    apply Qle_bool_false in Hlt. rewrite Hlt. reflexivity. }
  split; [exact Hd|].
  destruct (final_should_flag_is_the_librarys self text ctx) as (F & HF & Hsf).
  exists F. split; [exact HF|]. rewrite Hsf.
  apply decision_of_fields in Hd. destruct Hd as (Hd & _).
  unfold get in *. destruct (lookup (library_assessment_of self text) "should_flag");
    [exact Hd | discriminate Hd].
Qed.

Lemma clean_text_is_never_flagged_witness :
  decision_of (library_assessment_of Sample.default_service "hello there")
  = (VBool false, VStr "LOW", VStr "APPROVE").
Proof.
  refine (proj1 (clean_text_is_never_flagged Sample.default_service "hello there" VNone
                   eq_refl eq_refl _ _)).
  - intros c p n u H. vm_compute in H. injection H as <- _ _ _. q_decide.
  - vm_compute. discriminate.
Defined.

Lemma sentiment_contribution_nonneg (self : Service) (text : string) :
  (0 <= sentiment_contribution self text)%Q.
Proof.
  unfold sentiment_contribution.
  destruct (polarity_scores self text) as [[[[c p] n] u]|]; [|q_decide].
  destruct (Qle_bool 0.05 c); [q_decide|].
  destruct (Qle_bool c (-0.05)); [|q_decide].
  cbv zeta. pose proof (Qabs_nonneg c) as Hn.
  destruct (Qltb 0.6 (Qabs c)); [lra|].
  destruct (Qltb 0.3 (Qabs c)); [lra | q_decide].
Qed.

Lemma library_assessment_explicit (self : Service) (text : string) (t : tally) :
  score_signals self (VDict (signal_reports self text)) = Ok t ->
  library_assessment_of self text
  = store (grade self t) "requires_ai_analysis"
          (VBool (_should_use_ai_analysis (grade self t)
                                          (VDict (signal_reports self text)))).
Proof.
  intro H. unfold library_assessment_of, _calculate_overall_assessment.
  rewrite (assessment_of_tally _ _ _ H). reflexivity.
Qed.


(** X6.  With a severity threshold of 0 or less every text is flagged
    (the score is never negative as long as the classifier's probability
    is not), with a severity other than LOW and a recommendation other
    than APPROVE. *)
Theorem nonpositive_threshold_flags_everything (self : Service) (text : string) :
  (forall p, predict_prob self text = Ok p -> (0 <= p)%Q) ->
  (severity_threshold self <= 0)%Z ->
  get (library_assessment_of self text) "should_flag" VNone = VBool true
  /\ get (library_assessment_of self text) "severity_level" VNone <> VStr "LOW"
  /\ get (library_assessment_of self text) "recommendation" VNone <> VStr "APPROVE".
Proof.
  intros Hp Hthr.
  destruct (pipeline_score_formula self text) as (t & Ht & Hsum & _).
  assert (A0 : (0 <= ml_contribution self text)%Q).
  { unfold ml_contribution.
    destruct (predict_prob self text) as [p|] eqn:E; [|q_decide].
    specialize (Hp p eq_refl).
    destruct (predict self text); [|q_decide].
    destruct (Z.eqb _ 1); [lra | q_decide]. }
  destruct (dictionary_contribution_bounds self text) as [B0 _].
  pose proof (sentiment_contribution_nonneg self text) as C0.
  destruct (caps_contribution_bounds text) as [D0 _].
  destruct (exclamation_contribution_bounds text) as [E0 _].
  assert (Hge : (inject_Z (severity_threshold self) <= total_score t)%Q).
  { apply Qle_trans with (y := inject_Z 0).
    - rewrite <- Zle_Qle. exact Hthr.
    - rewrite Hsum. change (inject_Z 0) with 0%Q. lra. }
  pose proof (library_decision self text t Ht) as Hd.
  rewrite grade_decision in Hd.
  apply Qle_bool_iff in Hge. rewrite Hge in Hd.
  destruct (Qle_bool 5 (total_score t)); [|destruct (Qle_bool 3.5 (total_score t))];
    apply decision_of_fields in Hd; destruct Hd as (-> & -> & ->);
    repeat split; discriminate.
Qed.

Lemma nonpositive_threshold_witness :
  get (library_assessment_of
         (Sample.service 0 0 0 false 0 Sample.timeout (Sample.always true) []) "hello")
      "should_flag" VNone = VBool true.
Proof.
  refine (proj1 (nonpositive_threshold_flags_everything
                   (Sample.service 0 0 0 false 0 Sample.timeout (Sample.always true) [])
                   "hello" _ _)).
  - intros p H. vm_compute in H. injection H as <-. q_decide.
  - vm_compute. discriminate.
Defined.

(** X5.  Failing detectors fail open.  When the classifier, the lexicon
    and the sentiment analyzer all raise, each extractor reports its
    error and only the text patterns score (at most 0.8): with a
    threshold of 1 or more the text is not flagged / LOW / APPROVE, no
    escalation is required, and the final decision is the library-only
    one. *)
Theorem detectors_down_means_approval (self : Service) (text : string) (ctx : value)
    (e1 e2 e3 : exn) :
  predict_prob self text = Raise e1 ->
  contains_profanity self text = Raise e2 ->
  polarity_scores self text = Raise e3 ->
  (1 <= severity_threshold self)%Z ->
  let A := library_assessment_of self text in
  decision_of A = (VBool false, VStr "LOW", VStr "APPROVE")
  /\ get A "requires_ai_analysis" VNone = VBool false
  /\ get (enhanced_analysis self text ctx) "final_decision" VNone
     = VDict (base_decision "libraries_only" A).
Proof.
  intros H1 H2 H3 Hthr A.
  destruct (pipeline_score_formula self text) as (t & Ht & Hsum & Htags).
  assert (Hml : ml_contribution self text = 0%Q)
    by (unfold ml_contribution; rewrite H1; reflexivity).
  assert (Hdc : dictionary_contribution self text = 0%Q)
    by (unfold dictionary_contribution; rewrite H2; reflexivity).
  assert (Hsn : sentiment_contribution self text = 0%Q)
    by (unfold sentiment_contribution; rewrite H3; reflexivity).
  rewrite Hml, Hdc, Hsn in Hsum.
  assert (Htags' : flagged_methods t = if caps_fires text then ["EXCESSIVE_CAPS"] else []).
  { rewrite Htags. unfold pipeline_tags, ml_fires, dictionary_fires, sentiment_tags.
    rewrite H1, H2, H3. reflexivity. }
  destruct (caps_contribution_bounds text) as [D0 D1].
  destruct (exclamation_contribution_bounds text) as [E0 E1].
  assert (Hlt : (total_score t < inject_Z (severity_threshold self))%Q).
  { apply Qlt_le_trans with (y := inject_Z 1).
    - rewrite Hsum. change (inject_Z 1) with 1%Q. lra.
    - rewrite <- Zle_Qle. exact Hthr. }
  assert (Hd : decision_of A = (VBool false, VStr "LOW", VStr "APPROVE")).
  { unfold A. rewrite (library_decision self text t Ht), grade_decision.
    apply Qle_bool_false in Hlt. rewrite Hlt. reflexivity. }
  assert (Hreq : _should_use_ai_analysis (grade self t) (VDict (signal_reports self text))
                 = false).
  { destruct (_should_use_ai_analysis (grade self t) (VDict (signal_reports self text)))
      eqn:E; [|reflexivity].
    exfalso.
    apply (should_use_ai_rule (grade self t) (VDict (signal_reports self text))
             (py_min (total_score t / 6) 1) (flagged_methods t)
             (grade_confidence self t _) (grade_methods self t _)) in E.
    assert (Hc : (py_min (total_score t / 6) 1 < 0.3)%Q).
    { rewrite py_min_Qmin. apply Q.min_lt_iff. left.
      apply Qlt_shift_div_r; [q_decide|]. rewrite Hsum. lra. }
    rewrite Htags' in E.
    destruct E as [E|[E|[[E _]|E]]].
    - lra.
    - destruct (caps_fires text); cbn in E; lia.
    - lra.
    - destruct (caps_fires text); discriminate E. }
  assert (HA : get A "requires_ai_analysis" VNone = VBool false).
  { unfold A. rewrite (library_assessment_explicit self text t Ht).
    rewrite get_store_same, Hreq. reflexivity. }
  split; [exact Hd|]. split; [exact HA|].
  destruct (enhanced_analysis_decision self text ctx) as (_ & H).
  fold A in H.
  assert (Hfalse : truthy (get A "requires_ai_analysis" (VBool false)) = false).
  { unfold A. rewrite (library_assessment_explicit self text t Ht).
    rewrite get_store_same, Hreq. reflexivity. }
  rewrite Hfalse in H. apply H.
Qed.

Lemma detectors_down_means_approval_witness :
  get (library_assessment_of (detectors_down 3) "WHY!!!!") "requires_ai_analysis" VNone
  = VBool false.
Proof.
  refine (proj1 (proj2 (detectors_down_means_approval (detectors_down 3) "WHY!!!!" VNone
                          (Exn "RuntimeError" "model not loaded")
                          (Exn "RuntimeError" "model not loaded")
                          (Exn "RuntimeError" "model not loaded")
                          eq_refl eq_refl eq_refl _))).
  vm_compute. discriminate.
Defined.

(* ================================================================== *)
(** ** Text statistics: bounds *)
(* ================================================================== *)

Lemma count_if_le_length (p : ascii -> bool) (s : string) :
  (Str.count_if p s <= String.length s)%nat.
Proof.
  induction s as [|c s IH]; cbn [Str.count_if String.length]; [lia|].
  destruct (p c); lia.
Qed.

Lemma count_if_disjoint (p q : ascii -> bool) (s : string) :
  (forall c, p c = true -> q c = false) ->
  (Str.count_if p s + Str.count_if q s <= String.length s)%nat.
Proof.
  intro H. induction s as [|c s IH]; cbn [Str.count_if String.length]; [lia|].
  destruct (p c) eqn:E; [rewrite (H c E); lia|]. destruct (q c); lia.
Qed.

Lemma length_append (a b : string) :
  String.length (a ++ b)%string = (String.length a + String.length b)%nat.
Proof. induction a as [|c a IH]; cbn; [reflexivity | rewrite IH; reflexivity]. Qed.

Lemma is_empty_length (s : string) : Str.is_empty s = true <-> String.length s = 0%nat.
Proof. destruct s; cbn; split; intro H; try reflexivity; discriminate. Qed.

(** The words of [split]: their lengths add up to the number of
    characters that are not white space, and none is empty. *)
Lemma split_from_lengths (s cur : string) :
  Str.sum_lengths (Str.split_from s cur)
  = (String.length cur + Str.count_if (fun c => negb (Str.isspace c)) s)%nat
  /\ (List.length (Str.split_from s cur)
      <= (if Str.is_empty cur then 0 else 1)
         + Str.count_if (fun c => negb (Str.isspace c)) s)%nat
  /\ (List.length (Str.split_from s cur) <= Str.sum_lengths (Str.split_from s cur))%nat.
Proof.
  revert cur. induction s as [|c s IH]; intro cur.
  - cbn [Str.split_from Str.count_if]. destruct cur as [|a cur]; cbn; lia.
  - cbn [Str.split_from Str.count_if]. destruct (Str.isspace c); cbn [negb].
    + destruct cur as [|a cur]; cbn [Str.is_empty].
      * destruct (IH "") as (H1 & H2 & H3). cbn in H1, H2 |- *. lia.
      * destruct (IH "") as (H1 & H2 & H3).
        cbn [Str.sum_lengths fold_right List.length] in *.
        fold (Str.sum_lengths (Str.split_from s "")).
        cbn [String.length Str.is_empty] in *. lia.
    + destruct (IH (cur ++ String c "")%string) as (H1 & H2 & H3).
      rewrite length_append in H1. cbn [String.length] in H1.
      assert (E : Str.is_empty (cur ++ String c "")%string = false)
        by (destruct cur; reflexivity).
      rewrite E in H2. destruct (Str.is_empty cur); lia.
Qed.

Lemma strip_nonblank_nonempty (s : string) :
  truthy (VStr (Str.strip s)) = true -> (1 <= String.length s)%nat.
Proof.
  destruct s; [discriminate | cbn [String.length]; lia].
Qed.

Lemma re_split_from_count (s cur : string) (b : bool) :
  (List.length (filter (fun x => truthy (VStr (Str.strip x))) (Str.re_split_from s cur b))
   <= String.length cur + Str.count_if (fun c => negb (Str.is_sentence_end c)) s)%nat.
Proof.
  revert cur b. induction s as [|c s IH]; intros cur b.
  - cbn [Str.re_split_from filter Str.count_if].
    destruct (truthy (VStr (Str.strip cur))) eqn:E; cbn [List.length]; [|lia].
    apply strip_nonblank_nonempty in E. lia.
  - cbn [Str.re_split_from Str.count_if]. destruct (Str.is_sentence_end c); cbn [negb].
    + destruct b.
      * specialize (IH "" true). cbn [String.length] in IH. lia.
      * cbn [filter]. specialize (IH "" true). cbn [String.length] in IH.
        destruct (truthy (VStr (Str.strip cur))) eqn:E; cbn [List.length]; [|lia].
        apply strip_nonblank_nonempty in E. lia.
    + specialize (IH (cur ++ String c "")%string false).
      rewrite length_append in IH. cbn [String.length] in IH. lia.
Qed.

Lemma Qnat_le (a b : nat) : (a <= b)%nat -> (Qnat a <= Qnat b)%Q.
Proof. intro H. unfold Qnat. rewrite <- Zle_Qle. lia. Qed.

Lemma Qnat_pos (a : nat) : (0 < a)%nat -> (0 < Qnat a)%Q.
Proof. intro H. unfold Qnat. change 0%Q with (inject_Z 0). rewrite <- Zlt_Qlt. lia. Qed.

Lemma Qnat_ratio_bounds (a b : nat) :
  (a <= b)%nat -> (0 < b)%nat -> (0 <= Qnat a / Qnat b)%Q /\ (Qnat a / Qnat b <= 1)%Q.
Proof.
  intros Hab Hb. pose proof (Qnat_pos b Hb) as Hp. split.
  - apply Qle_shift_div_l; [exact Hp|]. rewrite Qmult_0_l. apply Qnat_nonneg.
  - apply Qle_shift_div_r; [exact Hp|]. rewrite Qmult_1_l. apply Qnat_le. exact Hab.
Qed.

Lemma uppercase_ratio_bounds (text : string) :
  (0 <= uppercase_ratio_of text)%Q /\ (uppercase_ratio_of text <= 1)%Q.
Proof.
  unfold uppercase_ratio_of. destruct text as [|c text]; [split; q_decide|].
  cbn [Str.is_empty]. apply Qnat_ratio_bounds.
  - apply count_if_le_length.
  - cbn [String.length]. lia.
Qed.

Lemma avg_word_length_bounds (text : string) :
  match Str.split text with
  | [] => avg_word_length_of text = 0%Q
  | _ => (1 <= avg_word_length_of text)%Q
         /\ (avg_word_length_of text <= Qnat (String.length text))%Q
  end.
Proof.
  unfold avg_word_length_of, Str.split.
  destruct (split_from_lengths text "") as (H1 & H2 & H3).
  destruct (Str.split_from text "") as [|w ws] eqn:E; [reflexivity|].
  set (n := List.length (w :: ws)) in *. set (m := Str.sum_lengths (w :: ws)) in *.
  assert (Hn : (0 < n)%nat) by (unfold n; cbn; lia).
  pose proof (Qnat_pos n Hn) as Hp.
  pose proof (count_if_le_length (fun c => negb (Str.isspace c)) text) as Hc.
  cbn [String.length] in H1. split.
  - apply Qle_shift_div_l; [exact Hp|]. rewrite Qmult_1_l. apply Qnat_le. exact H3.
  - apply Qle_shift_div_r; [exact Hp|].
    apply Qle_trans with (y := (Qnat (String.length text) * 1)%Q).
    + rewrite Qmult_1_r. apply Qnat_le. lia.
    + apply Qmult_le_l.
      * apply Qnat_pos. lia.
      * change 1%Q with (Qnat 1). apply Qnat_le. lia.
Qed.

(** X14.  The text statistics of every text: all seven entries are
    present; the word count, the sentence count and the exclamation and
    question marks together are each at most the character count; the
    upper-case ratio lies in [0, 1]; the average word length is 0 when
    there is no word and otherwise between 1 and the character count. *)
Theorem text_stats_bounds (text : string) :
  exists (words sentences excl quest : nat) (avg ratio : Q),
    _analyze_text_stats text =
      VDict [ ("char_count", VNum (Qnat (String.length text)));
              ("word_count", VNum (Qnat words));
              ("sentence_count", VNum (Qnat sentences));
              ("avg_word_length", VNum avg);
              ("uppercase_ratio", VNum ratio);
              ("exclamation_count", VNum (Qnat excl));
              ("question_count", VNum (Qnat quest)) ]
    /\ (words <= String.length text)%nat
    /\ (sentences <= String.length text)%nat
    /\ (excl + quest <= String.length text)%nat
    /\ (0 <= ratio)%Q /\ (ratio <= 1)%Q
    /\ (words = 0%nat -> avg = 0%Q)
    /\ ((0 < words)%nat -> (1 <= avg)%Q /\ (avg <= Qnat (String.length text))%Q).
Proof.
  do 6 eexists. split; [apply text_stats_explicit|].
  destruct (split_from_lengths text "") as (H1 & H2 & H3).
  pose proof (count_if_le_length (fun c => negb (Str.isspace c)) text) as Hc.
  pose proof (count_if_le_length (fun c => negb (Str.is_sentence_end c)) text) as Hs.
  pose proof (re_split_from_count text "" false) as Hr.
  pose proof (avg_word_length_bounds text) as Ha.
  fold (Str.split text) in H1, H2, H3.
  fold (Str.re_split_sentences text) in Hr.
  cbn [String.length Str.is_empty] in H1, H2, Hr.
  split; [lia|]. split; [lia|]. split.
  - apply count_if_disjoint. intros c H.
    apply Ascii.eqb_eq in H. subst c. reflexivity.
  - split; [apply uppercase_ratio_bounds|]. split; [apply uppercase_ratio_bounds|].
    destruct (Str.split text) as [|w ws]; split.
    + intros _. exact Ha.
    + cbn [List.length]. lia.
    + cbn [List.length]. lia.
    + intros _. exact Ha.
Qed.

(* ================================================================== *)
(** ** The lexicon report and its flagged words *)
(* ================================================================== *)

Lemma dedup_In (xs : list string) (x : string) : In x (dedup xs) <-> In x xs.
Proof.
  induction xs as [|y ys IH]; cbn [dedup In]; [tauto|].
  rewrite filter_In, IH. split.
  - intros [H|[H _]]; auto.
  - intros [H|H]; [left; exact H|].
    destruct (String.eqb y x) eqn:E.
    + left. apply String.eqb_eq. exact E.
    + right. split; [exact H | reflexivity].
Qed.

Lemma dedup_NoDup (xs : list string) : NoDup (dedup xs).
Proof.
  induction xs as [|y ys IH]; cbn [dedup]; constructor.
  - rewrite filter_In. intros [_ H]. rewrite String.eqb_refl in H. discriminate.
  - apply NoDup_filter. exact IH.
Qed.

Lemma dedup_length (xs : list string) : (List.length (dedup xs) <= List.length xs)%nat.
Proof.
  induction xs as [|y ys IH]; cbn [dedup List.length]; [lia|].
  pose proof (filter_length_le (fun z => negb (String.eqb y z)) (dedup ys)). lia.
Qed.

Lemma flat_map_at_most_one {A B} (f : A -> list B) (l : list A) :
  (forall a, List.length (f a) <= 1)%nat ->
  (List.length (flat_map f l) <= List.length l)%nat.
Proof.
  intro H. induction l as [|a l IH]; cbn [flat_map List.length]; [lia|].
  rewrite length_app. specialize (H a). lia.
Qed.

Lemma flagged_words_distinct (original censored : string) :
  NoDup (_extract_flagged_words original censored)
  /\ (List.length (_extract_flagged_words original censored)
      <= Nat.min (List.length (Str.split original)) (List.length (Str.split censored)))%nat.
Proof.
  unfold _extract_flagged_words. split; [apply dedup_NoDup|].
  etransitivity; [apply dedup_length|].
  etransitivity; [apply flat_map_at_most_one|].
  - intros [o c]. destruct (negb (String.eqb o c) && is_substring "*" c); cbn; lia.
  - rewrite length_combine. reflexivity.
Qed.

(** X15.  The flagged words of a text and its censored version: no word
    twice; at most as many as the shorter of the two texts has words;
    each is an original word, with the characters .,!?;: stripped from
    both ends, whose counterpart differs from it and contains an
    asterisk; and a censored text equal to the original flags nothing. *)
Theorem flagged_words_properties (original censored : string) :
  let flagged := _extract_flagged_words original censored in
  NoDup flagged
  /\ (List.length flagged
      <= Nat.min (List.length (Str.split original)) (List.length (Str.split censored)))%nat
  /\ (forall w, In w flagged ->
        exists orig cens,
          In (orig, cens) (combine (Str.split original) (Str.split censored))
          /\ orig <> cens
          /\ is_substring "*" cens = true
          /\ w = Str.strip_by is_trailing_punct orig)
  /\ _extract_flagged_words original original = [].
Proof.
  intro flagged. subst flagged.
  destruct (flagged_words_distinct original censored) as (Hnd & Hlen).
  split; [exact Hnd|]. split; [exact Hlen|].
  unfold _extract_flagged_words. split.
  - intros w H. apply (proj1 (dedup_In _ _)) in H. apply (proj1 (in_flat_map _ _ _)) in H.
    destruct H as ([o c] & Hin & Hw).
    destruct (negb (String.eqb o c)) eqn:E; cbn [andb] in Hw; [|destruct Hw].
    destruct (is_substring "*" c) eqn:E2; [|destruct Hw].
    destruct Hw as [<-|[]]. exists o, c.
    split; [exact Hin|]. split; [|split; [exact E2 | reflexivity]].
    intro Heq. subst c. rewrite String.eqb_refl in E. discriminate.
  - assert (H : forall ws : list string,
               flat_map (fun oc : string * string =>
                           let (orig, cens) := oc in
                           if negb (String.eqb orig cens) && is_substring "*" cens
                           then [Str.strip_by is_trailing_punct orig] else [])
                        (combine ws ws) = []).
    { induction ws as [|w ws IH]; [reflexivity|].
      cbn [combine flat_map]. rewrite String.eqb_refl. cbn [negb andb app]. exact IH. }
    rewrite H. reflexivity.
Qed.

Lemma substring_length_le (n m : nat) (s : string) :
  (String.length (String.substring n m s) <= m)%nat.
Proof.
  revert n m. induction s as [|c s IH]; intros n m.
  - destruct n, m; cbn; lia.
  - destruct n as [|n].
    + destruct m as [|m]; cbn [String.substring String.length]; [lia|].
      specialize (IH 0%nat m). lia.
    + cbn [String.substring]. apply IH.
Qed.

(** X16.  The lexicon report.  When both library calls return it has
    the six entries of a report, word_count is the number of flagged
    words, these are distinct and at most as many as the text has words,
    and the preview is the censored text when that has at most 100
    characters and never longer than 103; when a call raises the report
    is the error report. *)
Theorem dictionary_report_shape (self : Service) (text : string) :
  match contains_profanity self text, censor self text with
  | Ok hit, Ok censored =>
      exists (words : list string) (preview : string),
        _dictionary_profanity_analysis self text =
          VDict [ ("has_profanity", VBool hit);
                  ("flagged_words", VList (map VStr words));
                  ("word_count", VNum (Qnat (List.length words)));
                  ("censored_preview", VStr preview);
                  ("method", VStr "dictionary_based");
                  ("library", VStr "better-profanity") ]
        /\ NoDup words
        /\ (List.length words <= List.length (Str.split text))%nat
        /\ (String.length preview <= 103)%nat
        /\ ((String.length censored <= 100)%nat -> preview = censored)
  | Raise e, _ | Ok _, Raise e =>
      _dictionary_profanity_analysis self text
      = VDict [("error", VStr (str_exn e)); ("method", VStr "dictionary_based")]
  end.
Proof.
  unfold _dictionary_profanity_analysis.
  destruct (contains_profanity self text) as [hit|e]; [|reflexivity].
  destruct (censor self text) as [censored|e]; [|reflexivity].
  cbn [Py.bind]. eexists. eexists. split; [reflexivity|].
  destruct (flagged_words_distinct text censored) as (H1 & H2).
  split; [exact H1|]. split; [lia|]. split.
  - destruct (100 <? String.length censored)%nat eqn:E.
    + rewrite length_append. pose proof (substring_length_le 0 100 censored).
      cbn [String.length]. lia.
    + apply Nat.ltb_ge in E. lia.
  - intro H. apply Nat.ltb_ge in H. rewrite H. reflexivity.
Qed.

Lemma Qnat_S (n : nat) : (Qnat (S n) == Qnat n + 1)%Q.
Proof.
  unfold Qnat. rewrite Nat2Z.inj_succ. unfold Z.succ. rewrite inject_Z_plus. reflexivity.
Qed.

Lemma dictionary_penalty_cases (n : nat) :
  (py_min (Qnat n * 1.5) 3 ==
   match n with 0%nat => 0 | 1%nat => 1.5 | _ => 3 end)%Q.
Proof.
  destruct n as [|[|n]]; [vm_compute; reflexivity | vm_compute; reflexivity|].
  rewrite py_min_Qmin. apply Q.min_r.
  rewrite !Qnat_S. pose proof (Qnat_nonneg n). lra.
Qed.

(** X13.  On the extractors' reports the lexicon block never raises and
    adds 0, 1.5 or 3 to the score: with a hit, 0 for no flagged word,
    1.5 for one and 3 for two or more distinct ones, and the tag is set
    in all three cases; without a hit (or when a lexicon call raised)
    score and tags are unchanged. *)
Theorem dictionary_penalty_values (self : Service) (text : string) (t : tally) :
  exists t',
    score_dictionary self (VDict (signal_reports self text)) t = Ok t'
    /\ match contains_profanity self text, censor self text with
       | Ok true, Ok censored =>
           match List.length (_extract_flagged_words text censored) with
           | 0%nat => (total_score t' == total_score t)%Q
           | 1%nat => (total_score t' == total_score t + 1.5)%Q
           | _ => (total_score t' == total_score t + 3)%Q
           end
           /\ flagged_methods t' = flagged_methods t ++ ["DICTIONARY_PROFANITY"]
       | _, _ => (total_score t' == total_score t)%Q
                 /\ flagged_methods t' = flagged_methods t
       end.
Proof.
  destruct (score_dictionary_pipeline self text t) as (t' & H & Ht & Hm).
  exists t'. split; [exact H|].
  unfold dictionary_contribution, dictionary_fires in *.
  destruct (contains_profanity self text) as [[|]|e].
  - destruct (censor self text) as [c|e].
    + split; [|exact Hm].
      pose proof (dictionary_penalty_cases
                    (List.length (_extract_flagged_words text c))) as Hp.
      revert Ht Hp.
      destruct (List.length (_extract_flagged_words text c)) as [|[|n]];
        intros Ht Hp; rewrite Ht, Hp; ring.
    + rewrite app_nil_r in Hm. split; [rewrite Ht; ring | exact Hm].
  - rewrite app_nil_r in Hm. split; [rewrite Ht; ring | exact Hm].
  - rewrite app_nil_r in Hm. split; [rewrite Ht; ring | exact Hm].
Qed.

(* ================================================================== *)
(** ** Method tags, escalation and provenance *)
(* ================================================================== *)

Lemma In_cond_singleton (b : bool) (x y : string) :
  In x (if b then [y] else []) <-> b = true /\ x = y.
Proof.
  destruct b; cbn [In]; split.
  - intros [H|[]]. auto.
  - intros [_ H]. left. auto.
  - intros [].
  - intros [H _]. discriminate.
Qed.

(** The sentiment tags in terms of the compound score alone. *)
Lemma sentiment_tags_compound (self : Service) (text : string) (c p n u : Q) :
  polarity_scores self text = Ok (c, p, n, u) ->
  sentiment_tags self text
  = if Qltb c (-0.6) then ["STRONG_NEGATIVE_SENTIMENT"]
    else if Qltb c (-0.3) then ["MODERATE_NEGATIVE_SENTIMENT"]
    else [].
Proof.
  intro H. unfold sentiment_tags. rewrite H.
  destruct (Qle_bool 0.05 c) eqn:E1.
  - apply Qle_bool_iff in E1.
    assert (H1 : Qltb c (-0.6) = false) by (apply Qltb_ge; lra).
    assert (H2 : Qltb c (-0.3) = false) by (apply Qltb_ge; lra).
    rewrite H1, H2. reflexivity.
  - apply Qle_bool_false in E1.
    destruct (Qle_bool c (-0.05)) eqn:E2.
    + apply Qle_bool_iff in E2.
      assert (Habs : (Qabs c == - c)%Q) by (apply Qabs_neg; lra).
      destruct (Qltb 0.6 (Qabs c)) eqn:E3.
      * apply Qltb_lt in E3. rewrite Habs in E3.
        assert (H1 : Qltb c (-0.6) = true) by (apply Qltb_lt; lra).
        rewrite H1. reflexivity.
      * apply Qltb_ge in E3. rewrite Habs in E3.
        assert (H1 : Qltb c (-0.6) = false) by (apply Qltb_ge; lra).
        rewrite H1.
        destruct (Qltb 0.3 (Qabs c)) eqn:E4.
        -- apply Qltb_lt in E4. rewrite Habs in E4.
           assert (H2 : Qltb c (-0.3) = true) by (apply Qltb_lt; lra).
           rewrite H2. reflexivity.
        -- apply Qltb_ge in E4. rewrite Habs in E4.
           assert (H2 : Qltb c (-0.3) = false) by (apply Qltb_ge; lra).
           rewrite H2. reflexivity.
    + apply Qle_bool_false in E2.
      assert (H1 : Qltb c (-0.6) = false) by (apply Qltb_ge; lra).
      assert (H2 : Qltb c (-0.3) = false) by (apply Qltb_ge; lra).
      rewrite H1, H2. reflexivity.
Qed.

Lemma caps_fires_iff (text : string) :
  caps_fires text = true
  <-> (3 * String.length text < 10 * Str.count_if Str.isupper text)%nat.
Proof.
  unfold caps_fires, uppercase_ratio_of.
  destruct text as [|c text]; [cbn; split; [discriminate | lia]|].
  cbn [Str.is_empty].
  set (l := String.length (String c text)). set (u := Str.count_if Str.isupper (String c text)).
  assert (Hl : (0 < l)%nat) by (unfold l; cbn; lia).
  pose proof (Qnat_pos l Hl) as Hp.
  assert (Hq : (0.3 * Qnat l < Qnat u)%Q <-> (3 * l < 10 * u)%nat).
  { unfold Qlt, Qnat. cbn [Qnum Qden Qmult inject_Z]. lia. }
  rewrite <- Hq, Qltb_lt. split.
  - intro H. destruct (Qlt_le_dec (0.3 * Qnat l) (Qnat u)) as [|Hle]; [assumption|].
    exfalso. apply (Qle_shift_div_r _ _ _ Hp) in Hle. lra.
  - intro H. apply Qlt_shift_div_l; assumption.
Qed.

Lemma pipeline_tags_of_assessment (self : Service) (text : string) (dflt : value) :
  get (library_assessment_of self text) "flagged_by_methods" dflt
  = VList (map VStr (pipeline_tags self text)).
Proof.
  destruct (pipeline_score_formula self text) as (t & Ht & _ & Htags).
  rewrite (library_assessment_explicit self text t Ht).
  rewrite get_store_other by reflexivity.
  rewrite grade_methods, Htags. reflexivity.
Qed.

(** X12.  When each method tag appears in the assessment of a text.
    ML_PROFANITY: both classifier calls return and the label is 1.
    DICTIONARY_PROFANITY: [contains_profanity] returns True and [censor]
    returns as well (a failing [censor] loses the hit).
    STRONG_NEGATIVE_SENTIMENT: compound < -0.6.
    MODERATE_NEGATIVE_SENTIMENT: -0.6 <= compound < -0.3.
    EXCESSIVE_CAPS: more than 30% of the characters are upper case. *)
Theorem pipeline_tag_conditions (self : Service) (text : string) :
  exists tags,
    get (library_assessment_of self text) "flagged_by_methods" VNone
    = VList (map VStr tags)
    /\ (In "ML_PROFANITY" tags
        <-> (exists p, predict_prob self text = Ok p) /\ predict self text = Ok 1%Z)
    /\ (In "DICTIONARY_PROFANITY" tags
        <-> contains_profanity self text = Ok true /\ exists c, censor self text = Ok c)
    /\ (In "STRONG_NEGATIVE_SENTIMENT" tags
        <-> exists c p n u, polarity_scores self text = Ok (c, p, n, u) /\ (c < -0.6)%Q)
    /\ (In "MODERATE_NEGATIVE_SENTIMENT" tags
        <-> exists c p n u, polarity_scores self text = Ok (c, p, n, u)
                            /\ (-0.6 <= c)%Q /\ (c < -0.3)%Q)
    /\ (In "EXCESSIVE_CAPS" tags
        <-> (3 * String.length text < 10 * Str.count_if Str.isupper text)%nat).
Proof.
  exists (pipeline_tags self text).
  split; [apply pipeline_tags_of_assessment|].
  assert (Hs : forall x, In x (sentiment_tags self text) <->
                 exists c p n u, polarity_scores self text = Ok (c, p, n, u)
                   /\ ((x = "STRONG_NEGATIVE_SENTIMENT" /\ (c < -0.6)%Q)
                       \/ (x = "MODERATE_NEGATIVE_SENTIMENT"
                           /\ (-0.6 <= c)%Q /\ (c < -0.3)%Q))).
  { intro x.
    destruct (polarity_scores self text) as [[[[c p] n] u]|e] eqn:E.
    - rewrite (sentiment_tags_compound self text c p n u E).
      destruct (Qltb c (-0.6)) eqn:E1.
      + apply Qltb_lt in E1. cbn [In]. split.
        * intros [<-|[]]. exists c, p, n, u. split; [reflexivity|]. left. auto.
        * intros (c' & p' & n' & u' & Heq & [[-> _]|[-> [H _]]]); [left; reflexivity|].
          injection Heq as <- _ _ _. lra.
      + apply Qltb_ge in E1. destruct (Qltb c (-0.3)) eqn:E2.
        * apply Qltb_lt in E2. cbn [In]. split.
          -- intros [<-|[]]. exists c, p, n, u. split; [reflexivity|]. right. auto.
          -- intros (c' & p' & n' & u' & Heq & [[-> H]|[-> _]]); [|left; reflexivity].
             injection Heq as <- _ _ _. lra.
        * apply Qltb_ge in E2. cbn [In]. split; [intros []|].
          intros (c' & p' & n' & u' & Heq & H). injection Heq as <- _ _ _.
          destruct H as [[_ H]|[_ [_ H]]]; lra.
    - unfold sentiment_tags. rewrite E. cbn [In]. split; [intros []|].
      intros (c' & p' & n' & u' & Heq & _). discriminate. }
  unfold pipeline_tags.
  split; [|split; [|split; [|split]]];
    rewrite ?in_app_iff, ?In_cond_singleton, ?Hs, ?caps_fires_iff;
    unfold ml_fires, dictionary_fires; split.
  - intros [[H _]|[[_ H]|[H|[_ H]]]]; try discriminate H.
    + destruct (predict_prob self text) as [p|]; [|discriminate].
      destruct (predict self text) as [l|]; [|discriminate].
      apply Z.eqb_eq in H. subst. split; [eexists|]; reflexivity.
    + destruct H as (c & p & n & u & _ & [[H _]|[H _]]); discriminate H.
  - intros [[p Hp] Hl]. left. rewrite Hp, Hl. split; reflexivity.
  - intros [[_ H]|[[H _]|[H|[_ H]]]]; try discriminate H.
    + destruct (contains_profanity self text) as [[|]|]; try discriminate.
      destruct (censor self text) as [c|]; [|discriminate].
      split; [reflexivity | eexists; reflexivity].
    + destruct H as (c & p & n & u & _ & [[H _]|[H _]]); discriminate H.
  - intros [Hc [c Hs']]. right. left. rewrite Hc, Hs'. split; reflexivity.
  - intros [[_ H]|[[_ H]|[H|[_ H]]]]; try discriminate H.
    destruct H as (c & p & n & u & Heq & [[_ H]|[H _]]); [|discriminate H].
    exists c, p, n, u. auto.
  - intros (c & p & n & u & Heq & H). right. right. left.
    exists c, p, n, u. split; [exact Heq|]. left. auto.
  - intros [[_ H]|[[_ H]|[H|[_ H]]]]; try discriminate H.
    destruct H as (c & p & n & u & Heq & [[H _]|[_ H]]); [discriminate H|].
    exists c, p, n, u. auto.
  - intros (c & p & n & u & Heq & H). right. right. left.
    exists c, p, n, u. split; [exact Heq|]. right. tauto.
  - intros [[_ H]|[[_ H]|[H|[H _]]]]; try discriminate H; [|exact H].
    destruct H as (c & p & n & u & _ & [[H _]|[H _]]); discriminate H.
  - intro H. right. right. right. auto.
Qed.

(** X11.  With a severity threshold of 2 or more, every assessment that
    is flagged also requires AI analysis: a score of 2 or more gives a
    confidence of at least 1/3, which lies in the borderline band
    [0.3, 0.7] or above 0.7. *)
Theorem flagged_implies_escalated (self : Service) (ar : value) (t : tally) :
  score_signals self ar = Ok t ->
  (2 <= severity_threshold self)%Z ->
  get (_calculate_overall_assessment self ar) "should_flag" VNone = VBool true ->
  get (_calculate_overall_assessment self ar) "requires_ai_analysis" VNone = VBool true.
Proof.
  intros Hs Hthr Hflag.
  pose proof (decision_of_assessment self ar t Hs) as Hd.
  rewrite grade_decision in Hd.
  destruct (Qle_bool (inject_Z (severity_threshold self)) (total_score t)) eqn:E.
  - apply Qle_bool_iff in E.
    assert (H2 : (2 <= total_score t)%Q).
    { apply Qle_trans with (y := inject_Z (severity_threshold self)); [|exact E].
      change 2%Q with (inject_Z 2). rewrite <- Zle_Qle. exact Hthr. }
    unfold _calculate_overall_assessment.
    rewrite (assessment_of_tally _ _ _ Hs), get_store_same. f_equal.
    apply (should_use_ai_rule (grade self t) ar (py_min (total_score t / 6) 1)
             (flagged_methods t) (grade_confidence self t _) (grade_methods self t _)).
    assert (Hc : (0.3 <= py_min (total_score t / 6) 1)%Q).
    { rewrite py_min_Qmin. apply Q.min_glb; [|q_decide].
      apply Qle_shift_div_l; [q_decide|]. lra. }
    destruct (Qlt_le_dec 0.7 (py_min (total_score t / 6) 1)) as [Hhi|Hlo].
    + left. exact Hhi.
    + right. right. left. split; assumption.
  - apply decision_of_fields in Hd. destruct Hd as (Hd & _). congruence.
Qed.

Lemma flagged_implies_escalated_witness :
  get (_calculate_overall_assessment Sample.default_service Sample.loud)
      "requires_ai_analysis" VNone = VBool true.
Proof.
  apply (flagged_implies_escalated Sample.default_service Sample.loud
           (tally_of Sample.default_service Sample.loud) eq_refl).
  - vm_compute. discriminate.
  - vm_compute. reflexivity.
Defined.

(** X17.  Mapping an urgency to a severity keeps its rank: the severity
    is one of the four level names and ranks as the urgency itself does,
    between 1 and 4 (anything unknown ranks 1, as LOW); the mapping
    raises only on an unhashable urgency, on which the rank raises too. *)
Theorem urgency_mapping_preserves_rank (urgency : value) :
  match _map_ai_urgency_to_severity urgency with
  | Ok severity =>
      In severity severity_names
      /\ _severity_rank (VStr severity) = _severity_rank urgency
      /\ exists r, _severity_rank urgency = Ok r /\ (1 <= r <= 4)%Z
  | Raise _ =>
      hashable urgency = false /\ exists e, _severity_rank urgency = Raise e
  end.
Proof.
  destruct (_map_ai_urgency_to_severity urgency) as [s|e] eqn:H.
  - split; [exact (map_urgency_names urgency s H)|].
    unfold _map_ai_urgency_to_severity in H. unfold _severity_rank.
    destruct (hashable urgency) eqn:Hh; [|discriminate]. injection H as <-.
    cbn [hashable].
    destruct urgency as [| | |u| | |]; try discriminate Hh;
      try (split; [reflexivity|]; eexists; split; [reflexivity|]; cbn; lia).
    split.
    + f_equal. cbn [existsb severity_names].
      unfold rank_of_name at 2.
      destruct (String.eqb u "LOW") eqn:E1;
        [apply String.eqb_eq in E1; subst; reflexivity|].
      destruct (String.eqb u "MEDIUM") eqn:E2;
        [apply String.eqb_eq in E2; subst; reflexivity|].
      destruct (String.eqb u "HIGH") eqn:E3;
        [apply String.eqb_eq in E3; subst; reflexivity|].
      destruct (String.eqb u "CRITICAL") eqn:E4;
        [apply String.eqb_eq in E4; subst; reflexivity|].
      reflexivity.
    + eexists. split; [reflexivity | apply rank_of_name_bounds].
  - unfold _map_ai_urgency_to_severity in H. unfold _severity_rank.
    destruct (hashable urgency); [discriminate|].
    split; [reflexivity | eexists; reflexivity].
Qed.

(** X10.  should_flag is the libraries' alone.  The merger returns a
    decision with the should_flag of the assessment whatever the
    secondary result holds (override, no override, or an exception inside
    the merger), and so does [enhanced_analysis] for every text and every
    answer of Bedrock. *)
Theorem secondary_judgment_never_changes_should_flag
    (self : Service) (text : string) (ctx : value) (A S : dict) :
  get (_combine_library_and_ai_results A S) "should_flag" (VBool false)
  = get A "should_flag" (VBool false)
  /\ exists F,
       get (enhanced_analysis self text ctx) "final_decision" VNone = VDict F
       /\ get F "should_flag" (VBool false)
          = get (library_assessment_of self text) "should_flag" (VBool false).
Proof.
  split; [apply merge_never_changes_should_flag|].
  apply final_should_flag_is_the_librarys.
Qed.

Lemma library_assessment_no_tag (self : Service) (text : string) :
  lookup (library_assessment_of self text) "primary_method" = None.
Proof.
  destruct (pipeline_score_formula self text) as (t & Ht & _ & _).
  rewrite (library_assessment_explicit self text t Ht).
  rewrite lookup_store_other by reflexivity.
  unfold grade.
  destruct (Qle_bool (inject_Z (severity_threshold self)) (total_score t));
    [destruct (Qle_bool 5 (total_score t));
     [|destruct (Qle_bool 3.5 (total_score t))]|];
    reflexivity.
Qed.

(** X18.  [enhanced_analysis] never takes its fallback: its result has
    no [error] entry.  The final decision is tagged "libraries_only"
    exactly when the assessment does not require escalation; otherwise it
    is tagged "combined_analysis", or it is the assessment itself, with
    no tag, when the merger raised. *)
Theorem provenance_of_standard_decision (self : Service) (text : string) (ctx : value) :
  let A := library_assessment_of self text in
  let R := enhanced_analysis self text ctx in
  has_key R "error" = false
  /\ exists F,
       get R "final_decision" VNone = VDict F
       /\ (get F "primary_method" VNone = VStr "libraries_only"
           <-> truthy (get A "requires_ai_analysis" (VBool false)) = false)
       /\ (get F "primary_method" VNone = VStr "libraries_only"
           \/ get F "primary_method" VNone = VStr "combined_analysis"
           \/ F = A /\ get F "primary_method" VNone = VNone).
Proof.
  intros A R.
  destruct (enhanced_analysis_decision self text ctx) as (Herr & H).
  fold A R in Herr, H. split; [exact Herr|].
  destruct (truthy (get A "requires_ai_analysis" (VBool false))).
  - destruct H as (H & _). eexists. split; [exact H|].
    destruct (combine_result_cases A (analyze_with_bedrock self text ctx))
      as [->|[->|(sev & rec & conf & ins & reasons & ->)]].
    + assert (Hn : get A "primary_method" VNone = VNone)
        by (unfold get, A; rewrite library_assessment_no_tag; reflexivity).
      rewrite Hn. split; [split; discriminate|]. right. right. auto.
    + split; [split; discriminate|]. right. left. reflexivity.
    + split; [split; discriminate|]. right. left. reflexivity.
  - destruct H as (H & _). eexists. split; [exact H|].
    split; [split; reflexivity|]. left. reflexivity.
Qed.

(* ================================================================== *)
(** ** Text extraction: priorities and trimming *)
(* ================================================================== *)

Lemma rstrip_idempotent (p : ascii -> bool) (s : string) :
  Str.rstrip p (Str.rstrip p s) = Str.rstrip p s.
Proof.
  induction s as [|c s IH]; [reflexivity|].
  cbn [Str.rstrip].
  destruct (p c && Str.is_empty (Str.rstrip p s)) eqn:E; [reflexivity|].
  cbn [Str.rstrip]. rewrite IH, E. reflexivity.
Qed.

(** A string that does not start with a stripped character keeps its
    first character under [rstrip], so [lstrip] leaves the result alone. *)
Lemma lstrip_rstrip_lstrip (p : ascii -> bool) (s : string) :
  Str.lstrip p (Str.rstrip p (Str.lstrip p s)) = Str.rstrip p (Str.lstrip p s).
Proof.
  induction s as [|c s IH]; [reflexivity|].
  cbn [Str.lstrip]. destruct (p c) eqn:E; [exact IH|].
  cbn [Str.rstrip]. rewrite E. cbn [andb Str.lstrip]. rewrite E. reflexivity.
Qed.

Lemma strip_by_idempotent (p : ascii -> bool) (s : string) :
  Str.strip_by p (Str.strip_by p s) = Str.strip_by p s.
Proof.
  unfold Str.strip_by. rewrite lstrip_rstrip_lstrip. apply rstrip_idempotent.
Qed.

Lemma strip_idempotent (s : string) : Str.strip (Str.strip s) = Str.strip s.
Proof. apply strip_by_idempotent. Qed.

Lemma first_text_trimmed (v : value) (paths : list (list string)) :
  Str.strip (first_text v paths) = first_text v paths.
Proof.
  induction paths as [|path paths IH]; [reflexivity|].
  cbn [first_text].
  destruct (follow_path v path) as [[| | |s| | |]|e]; try exact IH.
  destruct (truthy (VStr (Str.strip s))); [apply strip_idempotent | exact IH].
Qed.

Lemma extract_complaint_text_trimmed (json_data : dict) :
  Str.strip (_extract_complaint_text json_data) = _extract_complaint_text json_data.
Proof. apply first_text_trimmed. Qed.

Lemma safe_extract_trimmed (root : string -> option string) (xpath a : string) :
  _safe_xml_extract root xpath = Some a -> Str.strip a = a.
Proof.
  unfold _safe_xml_extract. destruct (root xpath) as [t|]; [|discriminate].
  destruct (truthy (VStr t)); [|discriminate].
  intro H. injection H as <-. apply strip_idempotent.
Qed.

Lemma py_or_trimmed (root : string -> option string) (xpath b : string) :
  Str.strip b = b ->
  Str.strip (py_or (_safe_xml_extract root xpath) b)
  = py_or (_safe_xml_extract root xpath) b.
Proof.
  intro Hb. unfold py_or.
  destruct (_safe_xml_extract root xpath) as [a|] eqn:E; [|exact Hb].
  destruct (truthy (VStr a)); [|exact Hb].
  exact (safe_extract_trimmed root xpath a E).
Qed.

Lemma truthy_py_or_false (a : option string) (b : string) :
  truthy (VStr (py_or a b)) = false ->
  truthy (VStr b) = false /\ py_or a b = b.
Proof.
  unfold py_or. destruct a as [s|]; [|auto].
  destruct (truthy (VStr s)) eqn:E; [|auto].
  intro H. congruence.
Qed.

Lemma py_or_falls_through (a : option string) (b b' : string) :
  truthy (VStr (py_or a b)) = false -> py_or a b' = b'.
Proof.
  unfold py_or. destruct a as [s|]; [|reflexivity].
  destruct (truthy (VStr s)) eqn:E; [|reflexivity].
  intro H. congruence.
Qed.

Lemma falsy_string (s : string) : truthy (VStr s) = false -> s = "".
Proof.
  cbn [truthy]. intro H. apply negb_false_iff in H. apply String.eqb_eq in H. exact H.
Qed.

(** [_extract_complaint_text] on a document of the shape the converter
    builds: only three of the seven paths can hold a string. *)
Lemma extract_from_converted (ct un em sj ds pr cg : string) :
  _extract_complaint_text
    [ ("complaint_text", VStr ct);
      ("user_details", VDict [ ("name", VStr un); ("email", VStr em) ]);
      ("complaint_details",
        VDict [ ("subject", VStr sj); ("description", VStr ds);
                ("priority", VStr pr); ("category", VStr cg) ]) ]
  = if truthy (VStr (Str.strip ct)) then Str.strip ct
    else if truthy (VStr (Str.strip ds)) then Str.strip ds
    else if truthy (VStr (Str.strip sj)) then Str.strip sj
    else "".
Proof. reflexivity. Qed.

(** X20.  Conversion followed by extraction.  For an XML document that
    is not blank and parses, the converter returns a document and the
    text extracted from it is the first non-blank, trimmed, of the
    elements complaint_text, description, message and subject (the empty
    string when all four are blank or missing). *)
Theorem extraction_priority (self : Service) (xml : string)
    (root : string -> option string) :
  truthy (VStr (Str.strip xml)) = true ->
  ET_fromstring self xml = Ok root ->
  let ex := _safe_xml_extract root in
  exists json_data,
    xml_to_json_converter self (VStr xml) = Some json_data
    /\ _extract_complaint_text json_data
       = py_or (ex ".//complaint_text")
           (py_or (ex ".//description")
              (py_or (ex ".//message")
                 (py_or (ex ".//subject") ""))).
Proof.
  intros Hx Hroot ex.
  assert (Hx' : truthy (VStr xml) = true).
  { destruct xml; [discriminate Hx | reflexivity]. }
  unfold xml_to_json_converter. rewrite Hx', Hx, Hroot. cbv zeta. cbn [negb]. fold ex.
  eexists. split; [reflexivity|].
  etransitivity; [apply extract_from_converted|].
  set (ct := py_or (ex ".//complaint_text")
               (py_or (ex ".//description") (py_or (ex ".//message") ""))).
  assert (Hct : Str.strip ct = ct).
  { unfold ct, ex. apply py_or_trimmed, py_or_trimmed, py_or_trimmed. reflexivity. }
  assert (Hds : Str.strip (py_or (ex ".//description") "") = py_or (ex ".//description") "")
    by (apply py_or_trimmed; reflexivity).
  assert (Hsj : Str.strip (py_or (ex ".//subject") "") = py_or (ex ".//subject") "")
    by (apply py_or_trimmed; reflexivity).
  rewrite Hct, Hds, Hsj.
  destruct (truthy (VStr ct)) eqn:E1.
  - unfold ct in *. unfold py_or in *.
    destruct (ex ".//complaint_text") as [a|];
      [destruct (truthy (VStr a)); [reflexivity|]|];
      (destruct (ex ".//description") as [b|];
       [destruct (truthy (VStr b)); [reflexivity|]|]);
      (destruct (ex ".//message") as [c|];
       [destruct (truthy (VStr c)); [reflexivity|]|]);
      discriminate E1.
  - destruct (truthy_py_or_false _ _ E1) as (E2 & R1).
    destruct (truthy_py_or_false _ _ E2) as (E3 & R2).
    destruct (truthy_py_or_false _ _ E3) as (_ & R3).
    unfold ct in E1.
    rewrite !(py_or_falls_through _ _ _ E1), !(py_or_falls_through _ _ _ E2),
      !(py_or_falls_through _ _ _ E3).
    change (truthy (VStr "")) with false. cbv iota.
    destruct (truthy (VStr (py_or (ex ".//subject") ""))) eqn:E4; [reflexivity|].
    apply falsy_string in E4. rewrite E4. reflexivity.
Qed.

Lemma extraction_priority_witness :
  exists json_data,
    xml_to_json_converter bitter_service (VStr "  late delivery ") = Some json_data
    /\ _extract_complaint_text json_data = "late delivery".
Proof.
  destruct (extraction_priority bitter_service "  late delivery "
              (fun path => if String.eqb path ".//complaint_text"
                           then Some "  late delivery " else None)
              eq_refl eq_refl) as (j & H1 & H2).
  exists j. split; [exact H1|]. rewrite H2. vm_compute. reflexivity.
Defined.

(** X19.  What a usable record becomes: the complaint text of the
    payload is trimmed and has at least 5 characters, and the payload
    carries the row's key and user id, its category and priority
    ("general" and "normal" when the row has none), and the row itself. *)
Theorem usable_payload (self : Service) (db_record complaint_data : dict) :
  fetched_row db_record ->
  process_complaint_from_db self db_record = Some complaint_data ->
  exists text,
    lookup complaint_data "complaint_text" = Some (VStr text)
    /\ Str.strip text = text
    /\ (5 <= String.length text)%nat
    /\ lookup complaint_data "db_id" = lookup db_record "id"
    /\ lookup complaint_data "user_id" = lookup db_record "user_id"
    /\ lookup complaint_data "category" = Some (get db_record "category" (VStr "general"))
    /\ lookup complaint_data "priority" = Some (get db_record "priority" (VStr "normal"))
    /\ lookup complaint_data "db_record" = Some (VDict db_record).
Proof.
  intros Hrow Hcd.
  assert (Hx : exists xml, lookup db_record "complaint_xml" = Some xml)
    by (destruct Hrow as (_ & _ & Hx & _); exact Hx).
  destruct Hx as (xml & Hxml).
  pose proof (process_complaint_outcome self db_record xml Hrow Hxml) as H.
  destruct (xml_to_json_converter self xml) as [j|]; [|congruence].
  destruct (String.length (Str.strip (_extract_complaint_text j)) <? 5)%nat eqn:E;
    [congruence|].
  destruct H as (id & uid & ts & Hid & Huid & H).
  rewrite H in Hcd. injection Hcd as <-.
  exists (_extract_complaint_text j).
  pose proof (extract_complaint_text_trimmed j) as Ht.
  apply Nat.ltb_ge in E. rewrite Ht in E.
  split; [reflexivity|]. split; [exact Ht|]. split; [exact E|].
  split; [rewrite Hid; reflexivity|]. split; [rewrite Huid; reflexivity|].
  split; [reflexivity|]. split; reflexivity.
Qed.

Lemma usable_payload_witness :
  exists text,
    lookup (match process_complaint_from_db bitter_service
                    (Sample.row 7 "  I hate this service ") with
            | Some cd => cd
            | None => []
            end) "complaint_text" = Some (VStr text)
    /\ Str.strip text = text
    /\ (5 <= String.length text)%nat.
Proof.
  destruct (usable_payload bitter_service (Sample.row 7 "  I hate this service ")
              (match process_complaint_from_db bitter_service
                       (Sample.row 7 "  I hate this service ") with
               | Some cd => cd
               | None => []
               end)
              (sample_row_fetched 7 "  I hate this service "))
    as (text & H1 & H2 & H3 & _).
  - vm_compute. reflexivity.
  - exists text. split; [exact H1|]. split; assumption.
Defined.

(* ================================================================== *)
(** ** The batch: metrics, writes and the status code *)
(* ================================================================== *)

Lemma calls_with_app (s : string) (a b : list db_call) :
  calls_with s (a ++ b) = (calls_with s a + calls_with s b)%nat.
Proof. unfold calls_with. rewrite filter_app, length_app. reflexivity. Qed.

Lemma committed_with_app (s : string) (a b : list db_call) :
  committed_with s (a ++ b) = (committed_with s a + committed_with s b)%nat.
Proof. unfold committed_with. rewrite filter_app, length_app. reflexivity. Qed.

Lemma adds_nothing (r : Run) : adds r r [].
Proof.
  unfold adds, committed_with, calls_with. cbn [filter List.length].
  rewrite app_nil_r. repeat split; lia.
Qed.

Lemma adds_trans (r1 r2 r3 : Run) (a b : list db_call) :
  adds r1 r2 a -> adds r2 r3 b -> adds r1 r3 (a ++ b).
Proof.
  unfold adds. rewrite !committed_with_app, !calls_with_app.
  intros (A1 & A2 & A3 & A4 & A5 & A6 & A7) (B1 & B2 & B3 & B4 & B5 & B6 & B7).
  split; [rewrite B1, A1, app_assoc; reflexivity|].
  repeat split; lia.
Qed.

Lemma calls_with_one (s : string) (c : db_call) :
  calls_with s [c] = if String.eqb (call_status c) s then 1%nat else 0%nat.
Proof. unfold calls_with. cbn [filter]. destruct (String.eqb _ s); reflexivity. Qed.

Lemma committed_with_one (s : string) (c : db_call) :
  committed_with s [c]
  = if call_committed c && String.eqb (call_status c) s then 1%nat else 0%nat.
Proof.
  unfold committed_with. cbn [filter].
  destruct (call_committed c && String.eqb _ s); reflexivity.
Qed.

(** Standard mode, in full: one write, and what follows it when it
    commits. *)
Lemma moderate_standard_adds (self : Service) (force : value) (rec cd : dict) (r : Run)
      (uid id : value) (text : string) :
  truthy force = false ->
  lookup cd "user_id" = Some uid ->
  lookup cd "complaint_text" = Some (VStr text) ->
  lookup rec "id" = Some id ->
  let analysis := enhanced_analysis self text (VDict (get_user_context self uid)) in
  let ok := db_commit_ok self (List.length (db_calls r)) in
  exists fd r',
    get analysis "final_decision" VNone = VDict fd
    /\ moderate self force rec cd r = (r', if ok then Ok tt else Raise db_error)
    /\ adds r r' [DbCall id (if truthy (get fd "should_flag" (VBool false))
                             then "flagged" else "approved") analysis ok].
Proof.
  intros Hf Hu Ht Hid analysis ok.
  destruct (enhanced_analysis_shape self text (VDict (get_user_context self uid)))
    as (ai & fd & Hai & Hfd).
  fold analysis in Hai, Hfd.
  exists fd.
  unfold moderate, bind_e, lift_e, subscript, ret_e, modify.
  rewrite Hu, Ht, Hid. cbn [as_str]. rewrite Hf.
  fold analysis. unfold has_key. rewrite Hai. cbn [py_get Py.bind].
  assert (Hget : get analysis "final_decision" (VDict []) = VDict fd)
    by (unfold get; rewrite Hfd; reflexivity).
  assert (Hget' : get analysis "final_decision" VNone = VDict fd)
    by (unfold get; rewrite Hfd; reflexivity).
  set (flag := truthy (get fd "should_flag" (VBool false))).
  destruct (truthy (get ai "success" VNone));
    cbv beta iota; rewrite Hget; cbn [py_get]; fold flag;
    rewrite (update_moderation_status_run self id (if flag then "flagged" else "approved")
               analysis fd _ Hget);
    cbn [db_calls with_metrics]; fold ok; destruct ok;
    cbv beta iota;
    destruct flag; cbv beta iota;
    unfold store_flagged_content, send_notification;
    cbn [db_calls archived notified metrics with_metrics];
    try (destruct (sns_publish_ok self (get cd "db_id" VNone)));
    eexists; (split; [exact Hget'|]); (split; [reflexivity|]);
    count_calls.
Qed.

Lemma mark_failed_adds (self : Service) (rec : dict) (r : Run) (id : value) :
  lookup rec "id" = Some id ->
  let ok := db_commit_ok self (List.length (db_calls r)) in
  exists payload,
    snd (mark_failed_processing self rec r) = (if ok then Ok tt else Raise db_error)
    /\ adds r (fst (mark_failed_processing self rec r))
            [DbCall id "failed_processing" payload ok].
Proof.
  intros Hid ok. eexists.
  rewrite (mark_failed_processing_run self rec r id Hid). fold ok.
  cbn [fst snd]. split; [reflexivity|].
  destruct ok; count_calls.
Qed.

(** The body of one iteration on a fetched row: at most one write, to the
    record's own key, committed exactly when the body returns. *)
Lemma process_record_try_adds (self : Service) (force : value) (rec : dict)
      (r : Run) (n : Q) :
  fetched_row rec ->
  lookup rec "id" = Some (VNum n) ->
  let r1 := fst (process_record_try self force rec r) in
  let res := snd (process_record_try self force rec r) in
  exists new,
    adds r r1 new
    /\ ((exists c, new = [c] /\ call_id c = VNum n /\ call_status c <> "retry"
                   /\ (if call_committed c then res = Ok tt else res = Raise db_error))
        \/ (new = [] /\ res = Raise no_such_method /\ truthy force = true)).
Proof.
  intros Hrow Hid r1 res. subst r1 res.
  destruct Hrow as (Hid' & Hu & (xml & Hxml) & Hcr & Hrc).
  pose proof (process_complaint_outcome self rec xml
                (conj Hid' (conj Hu (conj (ex_intro _ xml Hxml) (conj Hcr Hrc)))) Hxml)
    as Hout.
  assert (Hfail : process_complaint_from_db self rec = None ->
                  exists new,
                    adds r (fst (mark_failed_processing self rec r)) new
                    /\ ((exists c, new = [c] /\ call_id c = VNum n
                                   /\ call_status c <> "retry"
                                   /\ (if call_committed c
                                       then snd (mark_failed_processing self rec r) = Ok tt
                                       else snd (mark_failed_processing self rec r)
                                            = Raise db_error))
                        \/ (new = [] /\ snd (mark_failed_processing self rec r)
                                        = Raise no_such_method /\ truthy force = true))).
  { intros _. destruct (mark_failed_adds self rec r (VNum n) Hid) as (payload & Hres & Hadds).
    eexists. split; [exact Hadds|]. left. eexists. split; [reflexivity|].
    split; [reflexivity|]. split; [discriminate|].
    cbn [call_committed]. rewrite Hres.
    destruct (db_commit_ok self (List.length (db_calls r))); reflexivity. }
  unfold process_record_try.
  destruct (xml_to_json_converter self xml) as [j|].
  - destruct (String.length (Str.strip (_extract_complaint_text j)) <? 5)%nat.
    + rewrite Hout. apply Hfail. exact Hout.
    + destruct Hout as (id & uid & ts & Hid2 & Huid & Hcd).
      rewrite Hcd. cbn [truthy negb].
      destruct (truthy force) eqn:Hf.
      * match goal with
        | |- context [moderate self force rec ?cd r] =>
            rewrite (moderate_forced self force rec cd r uid
                       (_extract_complaint_text j) Hf eq_refl eq_refl)
        end.
        cbn [fst snd]. exists []. split; [apply adds_nothing|]. right. auto.
      * match goal with
        | |- context [moderate self force rec ?cd r] =>
            destruct (moderate_standard_adds self force rec cd r uid (VNum n)
                        (_extract_complaint_text j) Hf eq_refl eq_refl Hid)
              as (fd & r' & _ & Hm & Hadds)
        end.
        rewrite Hm. cbn [fst snd]. eexists. split; [exact Hadds|].
        left. eexists. split; [reflexivity|]. split; [reflexivity|].
        split.
        -- cbn [call_status]. destruct (truthy (get fd "should_flag" (VBool false)));
             discriminate.
        -- cbn [call_committed].
           destruct (db_commit_ok self (List.length (db_calls r))); reflexivity.
  - rewrite Hout. apply Hfail. exact Hout.
Qed.

(** One iteration with its handler. *)
Lemma process_record_adds (self : Service) (force : value) (rec : dict)
      (r : Run) (n : Q) :
  fetched_row rec ->
  lookup rec "id" = Some (VNum n) ->
  exists new,
    adds r (fst (process_record self force rec r)) new
    /\ Forall (fun c => call_id c = VNum n) new
    /\ (1 <= List.length new <= 2)%nat.
Proof.
  intros Hrow Hid.
  destruct (process_record_try_adds self force rec r n Hrow Hid) as (new & Hadds & Hcase).
  assert (Hrc : lookup rec "retry_count" = None)
    by (destruct Hrow as (_ & _ & _ & _ & H); exact H).
  destruct (process_record_try self force rec r) as [r1 res] eqn:Htry.
  cbn [fst snd] in Hadds, Hcase.
  assert (Hretry : forall e, res = Raise e ->
            exists c, call_id c = VNum n
                      /\ adds r1 (fst (process_record self force rec r)) [c]).
  { intros e ->.
    rewrite (process_record_handler self force rec r r1 e n Hid Hrc Htry). cbn [fst].
    exists (retry_call self (VNum n) e (db_commit_ok self (List.length (db_calls r1)))).
    split; [reflexivity|]. unfold retry_call.
    destruct (db_commit_ok self (List.length (db_calls r1))); count_calls. }
  destruct Hcase as [(c & -> & Hc & Hs & Hres)|(-> & Hres & _)].
  - destruct (call_committed c) eqn:Ec.
    + subst res. rewrite (process_record_no_error self force rec r r1 Htry). cbn [fst].
      exists [c]. split; [exact Hadds|]. split; [repeat constructor; exact Hc|].
      cbn [List.length]. lia.
    + destruct (Hretry db_error Hres) as (c2 & Hc2 & Hadds2).
      exists ([c] ++ [c2]). split; [exact (adds_trans _ _ _ _ _ Hadds Hadds2)|].
      split; [repeat constructor; assumption|]. cbn [List.length app]. lia.
  - destruct (Hretry no_such_method Hres) as (c2 & Hc2 & Hadds2).
    exists ([] ++ [c2]). split; [exact (adds_trans _ _ _ _ _ Hadds Hadds2)|].
    split; [repeat constructor; assumption|]. cbn [List.length app]. lia.
Qed.

Lemma process_batch_adds (self : Service) (force : value) (complaints : list dict) :
  Forall fetched_row complaints ->
  forall r,
    exists new,
      adds r (fst (process_batch self force complaints r)) new
      /\ Forall (fun c => In (call_id c) (row_ids complaints)) new
      /\ (List.length complaints <= List.length new <= 2 * List.length complaints)%nat.
Proof.
  induction 1 as [|rec rest Hrow Hrest IH]; intro r.
  - exists []. cbn [process_batch ret_e fst]. split; [apply adds_nothing|].
    split; [constructor | cbn; lia].
  - destruct Hrow as ((n & Hid) & Hmore).
    assert (Hrow : fetched_row rec) by (split; [exists n; exact Hid | exact Hmore]).
    destruct (process_record_outcome self force rec r n Hrow Hid) as (Hok & _).
    rewrite (process_batch_step self force rec rest r Hok).
    destruct (process_record_adds self force rec r n Hrow Hid) as (new1 & A1 & I1 & L1).
    destruct (IH (fst (process_record self force rec r))) as (new2 & A2 & I2 & L2).
    exists (new1 ++ new2). split; [exact (adds_trans _ _ _ _ _ A1 A2)|]. split.
    + apply Forall_app. split.
      * eapply Forall_impl; [|exact I1]. intros c Hc. cbn [row_ids map]. left.
        unfold get. rewrite Hid. symmetry. exact Hc.
      * eapply Forall_impl; [|exact I2]. intros c Hc. cbn [row_ids map]. right.
        exact Hc.
    + rewrite length_app. cbn [List.length]. lia.
Qed.

Lemma adds_from_start (r : Run) (new : list db_call) :
  adds run0 r new -> metrics_agree r /\ db_calls r = new.
Proof.
  unfold adds, metrics_agree.
  cbn [run0 db_calls archived notified metrics metrics0 processed_count flagged_count
       ai_used_count error_count library_only_count List.length app].
  intros (H1 & H2 & H3 & H4 & H5 & H6 & H7). rewrite H1.
  repeat split; lia.
Qed.

(** The run of the handler is the run of the loop over the fetched rows,
    the limit being capped at 200. *)
Lemma lambda_handler_run (self : Service) (event : dict) (b : Q) :
  num_of (get event "batch_size" (VNum 50)) = Some b ->
  exists limit l,
    num_of limit = Some l /\ (l <= 200)%Q /\ (l <= b)%Q
    /\ (Qltb 200 b = false -> limit = get event "batch_size" (VNum 50))
    /\ let rows := fetch_complaints_from_db self limit
                     (get event "status_filter" (VStr "pending")) in
       let force := get event "force_ai_analysis" (VBool false) in
       lambda_handler self event =
         (fst (process_batch self force rows run0),
          match snd (process_batch self force rows run0) with
          | Ok _ => 200%Z
          | Raise _ => 500%Z
          end).
Proof.
  intro Hb.
  exists (if Qltb 200 b then VNum 200 else get event "batch_size" (VNum 50)).
  exists (if Qltb 200 b then 200%Q else b).
  split; [destruct (Qltb 200 b); [reflexivity | exact Hb]|].
  split; [destruct (Qltb 200 b) eqn:E; [lra | apply Qltb_ge in E; exact E]|].
  split; [destruct (Qltb 200 b) eqn:E; [apply Qltb_lt in E; lra | lra]|].
  split; [intros ->; reflexivity|].
  unfold lambda_handler, bind_e, lift_e, py_gt, as_num.
  rewrite Hb. cbn [Py.bind].
  destruct (process_batch _ _ _ run0) as [r [u|e]]; reflexivity.
Qed.

Lemma lambda_handler_not_numeric (self : Service) (event : dict) :
  num_of (get event "batch_size" (VNum 50)) = None ->
  lambda_handler self event = (run0, 500%Z).
Proof.
  intro Hb. unfold lambda_handler, bind_e, lift_e, py_gt, as_num.
  rewrite Hb. reflexivity.
Qed.

(** X21.  The status code of the handler over rows as the SELECT
    returns them.  A batch size that is not a number gives 500 with
    nothing fetched or written.  Otherwise the rows are fetched with a
    limit of at most 200 and at most the batch size, the code is 200
    whatever happens to single records, and every fetched row is counted
    once, as processed or as an error. *)
Theorem handler_status_code (self : Service) (event : dict) :
  (forall limit status, Forall fetched_row (fetch_complaints_from_db self limit status)) ->
  match num_of (get event "batch_size" (VNum 50)) with
  | None => lambda_handler self event = (run0, 500%Z)
  | Some b =>
      exists limit l,
        num_of limit = Some l /\ (l <= 200)%Q /\ (l <= b)%Q
        /\ let rows := fetch_complaints_from_db self limit
                         (get event "status_filter" (VStr "pending")) in
           let run := fst (lambda_handler self event) in
           snd (lambda_handler self event) = 200%Z
           /\ (processed_count (metrics run) + error_count (metrics run)
               = List.length rows)%nat
  end.
Proof.
  intro Hrows.
  destruct (num_of (get event "batch_size" (VNum 50))) as [b|] eqn:Hb;
    [|apply lambda_handler_not_numeric; exact Hb].
  destruct (lambda_handler_run self event b Hb) as (limit & l & Hl & H200 & Hlb & _ & Hrun).
  exists limit, l. split; [exact Hl|]. split; [exact H200|]. split; [exact Hlb|].
  cbv zeta in Hrun |- *. rewrite Hrun. cbn [fst snd].
  destruct (process_batch_completes self (get event "force_ai_analysis" (VBool false))
              (fetch_complaints_from_db self limit
                 (get event "status_filter" (VStr "pending")))
              (Hrows _ _) run0) as (Hok & Hh).
  rewrite Hok. split; [reflexivity | exact Hh].
Qed.

Lemma handler_status_code_witness :
  snd (lambda_handler bitter_service []) = 200%Z.
Proof.
  destruct (handler_status_code bitter_service [] bitter_rows_fetched)
    as (limit & l & _ & _ & _ & H & _).
  exact H.
Defined.

(** X22.  The metrics of a run tally with its writes: what is counted
    as processed was committed as "flagged" or "approved", what is
    counted as flagged was committed as "flagged" and offered to the
    archive once (and notified at most once), every error is a committed
    FAILED_PROCESSING write or a RETRY attempt, and every analysis run is
    counted once as library-only or as AI-assisted. *)
Theorem metrics_agree_with_writes (self : Service) (event : dict) :
  (forall limit status, Forall fetched_row (fetch_complaints_from_db self limit status)) ->
  metrics_agree (fst (lambda_handler self event)).
Proof.
  intro Hrows.
  destruct (num_of (get event "batch_size" (VNum 50))) as [b|] eqn:Hb.
  - destruct (lambda_handler_run self event b Hb) as (limit & l & _ & _ & _ & _ & Hrun).
    cbv zeta in Hrun. rewrite Hrun. cbn [fst].
    destruct (process_batch_adds self (get event "force_ai_analysis" (VBool false))
                (fetch_complaints_from_db self limit
                   (get event "status_filter" (VStr "pending")))
                (Hrows _ _) run0) as (new & Hadds & _).
    exact (proj1 (adds_from_start _ _ Hadds)).
  - rewrite (lambda_handler_not_numeric self event Hb). cbn [fst].
    exact (proj1 (adds_from_start _ _ (adds_nothing run0))).
Qed.

Lemma metrics_agree_with_writes_witness :
  metrics_agree (fst (lambda_handler bitter_service [])).
Proof.
  exact (metrics_agree_with_writes bitter_service [] bitter_rows_fetched).
Defined.

(** X23.  Every write of a run is addressed to the key of a fetched
    row, and a run makes at least one and at most two writes per fetched
    row. *)
Theorem writes_go_to_fetched_rows (self : Service) (event : dict) (b : Q) :
  (forall limit status, Forall fetched_row (fetch_complaints_from_db self limit status)) ->
  num_of (get event "batch_size" (VNum 50)) = Some b ->
  exists limit,
    let rows := fetch_complaints_from_db self limit
                  (get event "status_filter" (VStr "pending")) in
    let calls := db_calls (fst (lambda_handler self event)) in
    Forall (fun c => In (call_id c) (row_ids rows)) calls
    /\ (List.length rows <= List.length calls <= 2 * List.length rows)%nat.
Proof.
  intros Hrows Hb.
  destruct (lambda_handler_run self event b Hb) as (limit & l & _ & _ & _ & _ & Hrun).
  exists limit. cbv zeta in Hrun |- *. rewrite Hrun. cbn [fst].
  destruct (process_batch_adds self (get event "force_ai_analysis" (VBool false))
              (fetch_complaints_from_db self limit
                 (get event "status_filter" (VStr "pending")))
              (Hrows _ _) run0) as (new & Hadds & Hids & Hlen).
  destruct (adds_from_start _ _ Hadds) as (_ & ->).
  split; assumption.
Qed.

Lemma writes_go_to_fetched_rows_witness :
  exists limit,
    (List.length (fetch_complaints_from_db bitter_service limit (VStr "pending"))
     <= List.length (db_calls (fst (lambda_handler bitter_service []))))%nat.
Proof.
  destruct (writes_go_to_fetched_rows bitter_service [] 50 bitter_rows_fetched eq_refl)
    as (limit & _ & H & _).
  exists limit. exact H.
Defined.

(** Standard mode on a usable record. *)
Lemma process_record_try_standard (self : Service) (force : value) (rec cd : dict)
      (r : Run) (n : Q) :
  fetched_row rec ->
  lookup rec "id" = Some (VNum n) ->
  truthy force = false ->
  process_complaint_from_db self rec = Some cd ->
  exists text uid fd r',
    lookup cd "complaint_text" = Some (VStr text)
    /\ lookup cd "user_id" = Some uid
    /\ let analysis := enhanced_analysis self text (VDict (get_user_context self uid)) in
       let ok := db_commit_ok self (List.length (db_calls r)) in
       get analysis "final_decision" VNone = VDict fd
       /\ process_record_try self force rec r = (r', if ok then Ok tt else Raise db_error)
       /\ adds r r' [DbCall (VNum n)
                       (if truthy (get fd "should_flag" (VBool false))
                        then "flagged" else "approved") analysis ok].
Proof.
  intros Hrow Hid Hf Hcd.
  assert (Hx : exists xml, lookup rec "complaint_xml" = Some xml)
    by (destruct Hrow as (_ & _ & Hx & _); exact Hx).
  destruct Hx as (xml & Hxml).
  pose proof (process_complaint_outcome self rec xml Hrow Hxml) as Hout.
  destruct (xml_to_json_converter self xml) as [j|]; [|congruence].
  destruct (String.length (Str.strip (_extract_complaint_text j)) <? 5)%nat;
    [congruence|].
  destruct Hout as (id & uid & ts & Hid2 & Huid & Hcd').
  assert (Ecd : cd = [ ("db_id", id); ("user_id", uid); ("timestamp", ts);
                       ("category", get rec "category" (VStr "general"));
                       ("priority", get rec "priority" (VStr "normal"));
                       ("complaint_text", VStr (_extract_complaint_text j));
                       ("original_json", VDict j);
                       ("db_record", VDict rec) ]) by congruence.
  exists (_extract_complaint_text j), uid.
  destruct (moderate_standard_adds self force rec cd r uid (VNum n)
              (_extract_complaint_text j) Hf
              ltac:(rewrite Ecd; reflexivity) ltac:(rewrite Ecd; reflexivity) Hid)
    as (fd & r' & Hfd & Hm & Hadds).
  exists fd, r'.
  split; [rewrite Ecd; reflexivity|]. split; [rewrite Ecd; reflexivity|].
  cbv zeta. split; [exact Hfd|]. split; [|exact Hadds].
  unfold process_record_try. rewrite Hcd.
  assert (Hne : negb (truthy (VDict cd)) = false) by (rewrite Ecd; reflexivity).
  rewrite Hne. exact Hm.
Qed.

(** X24.  In standard mode the status written for a usable record is
    "flagged" exactly when the library assessment of its text says
    should_flag, whatever Bedrock answers.  When the write commits it is
    the only one, the record's status is that status and flagged_count
    grows exactly for "flagged"; when it fails a RETRY write follows. *)
Theorem written_status_is_the_librarys (self : Service) (force : value)
    (rec cd : dict) (r : Run) (n : Q) :
  fetched_row rec ->
  lookup rec "id" = Some (VNum n) ->
  truthy force = false ->
  process_complaint_from_db self rec = Some cd ->
  exists text analysis rest,
    lookup cd "complaint_text" = Some (VStr text)
    /\ let flag := truthy (get (library_assessment_of self text) "should_flag"
                               (VBool false)) in
       let ok := db_commit_ok self (List.length (db_calls r)) in
       let out := fst (process_record self force rec r) in
       db_calls out
       = db_calls r
         ++ DbCall (VNum n) (if flag then "flagged" else "approved") analysis ok :: rest
       /\ (ok = true ->
           rest = []
           /\ status_after (db_calls out) (VNum n)
              = Some (if flag then "flagged" else "approved")
           /\ flagged_count (metrics out)
              = (flagged_count (metrics r) + (if flag then 1 else 0))%nat)
       /\ (ok = false -> exists c, rest = [c] /\ call_status c = "retry").
Proof.
  intros Hrow Hid Hf Hcd.
  destruct (process_record_try_standard self force rec cd r n Hrow Hid Hf Hcd)
    as (text & uid & fd & r' & Htext & Huid & Hfd & Htry & Hadds).
  destruct (final_should_flag_is_the_librarys self text (VDict (get_user_context self uid)))
    as (F & HF & Hsf).
  assert (HfdF : fd = F) by congruence. subst F.
  exists text, (enhanced_analysis self text (VDict (get_user_context self uid))).
  cbv zeta. rewrite <- Hsf.
  assert (Hrc : lookup rec "retry_count" = None)
    by (destruct Hrow as (_ & _ & _ & _ & H); exact H).
  destruct (db_commit_ok self (List.length (db_calls r))) eqn:Hok.
  - exists []. split; [exact Htext|].
    rewrite (process_record_no_error self force rec r r' Htry). cbn [fst].
    destruct Hadds as (Hc & _ & Hfl & _). split; [exact Hc|]. split.
    + intros _. split; [reflexivity|]. split.
      * rewrite Hc. apply status_after_committed; reflexivity.
      * rewrite Hfl, committed_with_one. cbn [call_committed call_status andb].
        destruct (truthy (get fd "should_flag" (VBool false))); reflexivity.
    + discriminate.
  - exists [retry_call self (VNum n) db_error
              (db_commit_ok self (List.length (db_calls r')))].
    split; [exact Htext|].
    rewrite (process_record_handler self force rec r r' db_error n Hid Hrc Htry).
    cbn [fst db_calls].
    destruct Hadds as (Hc & _). rewrite Hc, <- app_assoc. split; [reflexivity|].
    split; [discriminate|]. intros _. eexists. split; reflexivity.
Qed.

Lemma written_status_witness :
  exists analysis rest,
    db_calls (fst (process_record bitter_service (VBool false)
                     (Sample.row 7 "I hate this service") run0))
    = DbCall (VNum 7) "approved" analysis true :: rest.
Proof.
  destruct (written_status_is_the_librarys bitter_service (VBool false)
              (Sample.row 7 "I hate this service")
              (match process_complaint_from_db bitter_service
                       (Sample.row 7 "I hate this service") with
               | Some cd => cd
               | None => []
               end)
              run0 7 (sample_row_fetched 7 "I hate this service") eq_refl eq_refl)
    as (text & analysis & rest & Htext & H & _).
  - vm_compute. reflexivity.
  - exists analysis, rest. vm_compute in Htext. injection Htext as <-.
    exact H.
Defined.

(* ================================================================== *)
(** ** Forced mode over a batch *)
(* ================================================================== *)

Lemma quiet_refl (r : Run) : quiet r r.
Proof.
  repeat split. exists []. rewrite app_nil_r. split; [reflexivity | constructor].
Qed.

Lemma quiet_trans (r1 r2 r3 : Run) : quiet r1 r2 -> quiet r2 r3 -> quiet r1 r3.
Proof.
  intros (A1 & A2 & A3 & A4 & A5 & A6 & (n1 & A7 & A8))
         (B1 & B2 & B3 & B4 & B5 & B6 & (n2 & B7 & B8)).
  repeat split; try congruence.
  exists (n1 ++ n2). split; [rewrite B7, A7, app_assoc; reflexivity|].
  apply Forall_app. split; assumption.
Qed.

(** Forced mode, one record: an error is counted and nothing else
    happens but a FAILED_PROCESSING or RETRY write. *)
Lemma process_record_forced (self : Service) (force : value) (rec : dict)
      (r : Run) (n : Q) :
  fetched_row rec ->
  lookup rec "id" = Some (VNum n) ->
  truthy force = true ->
  quiet r (fst (process_record self force rec r))
  /\ error_count (metrics (fst (process_record self force rec r)))
     = S (error_count (metrics r)).
Proof.
  intros Hrow Hid Hf.
  assert (Hrc : lookup rec "retry_count" = None)
    by (destruct Hrow as (_ & _ & _ & _ & H); exact H).
  pose proof (process_record_try_attempt self force rec r n Hrow Hid) as Hatt.
  destruct (process_record_try self force rec r) as [r1 res] eqn:Htry.
  inversion Hatt as [payload Hnone ok Hr1 | cd Hsome Hf' Hr1
                     | cd analysis status r' Hsome Hf' ok Hcalls Hst Hh Hr1];
    subst; [| |congruence].
  - destruct ok eqn:Hok.
    + rewrite (process_record_no_error self force rec r _ Htry). cbn [fst metrics].
      split; [|reflexivity].
      repeat split. eexists. cbn [db_calls]. split; [reflexivity|].
      repeat constructor.
    + rewrite (process_record_handler self force rec r _ db_error n Hid Hrc Htry).
      cbn [fst metrics db_calls]. split; [|reflexivity].
      repeat split. eexists. cbn [db_calls]. rewrite <- app_assoc.
      split; [reflexivity|]. constructor; [left; reflexivity|].
      constructor; [right; reflexivity | constructor].
  - rewrite (process_record_handler self force rec r1 _ no_such_method n Hid Hrc Htry).
    cbn [fst metrics db_calls]. split; [|reflexivity].
    repeat split. eexists. split; [reflexivity|].
    constructor; [right; reflexivity | constructor].
Qed.

Lemma process_batch_forced (self : Service) (force : value) (complaints : list dict) :
  truthy force = true ->
  Forall fetched_row complaints ->
  forall r,
    quiet r (fst (process_batch self force complaints r))
    /\ error_count (metrics (fst (process_batch self force complaints r)))
       = (error_count (metrics r) + List.length complaints)%nat.
Proof.
  intro Hf. induction 1 as [|rec rest Hrow Hrest IH]; intro r.
  - cbn [process_batch ret_e fst List.length]. split; [apply quiet_refl | lia].
  - destruct Hrow as ((n & Hid) & Hmore).
    assert (Hrow : fetched_row rec) by (split; [exists n; exact Hid | exact Hmore]).
    destruct (process_record_outcome self force rec r n Hrow Hid) as (Hok & _).
    rewrite (process_batch_step self force rec rest r Hok).
    destruct (process_record_forced self force rec r n Hrow Hid Hf) as (Q1 & E1).
    destruct (IH (fst (process_record self force rec r))) as (Q2 & E2).
    split; [exact (quiet_trans _ _ _ Q1 Q2)|].
    rewrite E2, E1. cbn [List.length]. lia.
Qed.

(** X25.  With force_ai_analysis set, a run over rows as the SELECT
    returns them ends with status 200 and has processed, flagged,
    archived and notified nothing and counted no AI use: every fetched
    row is counted as an error and the only writes are FAILED_PROCESSING
    and RETRY ones. *)
Theorem forced_mode_processes_nothing (self : Service) (event : dict) (b : Q) :
  (forall limit status, Forall fetched_row (fetch_complaints_from_db self limit status)) ->
  num_of (get event "batch_size" (VNum 50)) = Some b ->
  truthy (get event "force_ai_analysis" (VBool false)) = true ->
  let run := fst (lambda_handler self event) in
  snd (lambda_handler self event) = 200%Z
  /\ processed_count (metrics run) = 0%nat
  /\ flagged_count (metrics run) = 0%nat
  /\ ai_used_count (metrics run) = 0%nat
  /\ archived run = []
  /\ notified run = []
  /\ Forall (fun c => call_status c = "failed_processing" \/ call_status c = "retry")
            (db_calls run)
  /\ exists limit,
       error_count (metrics run)
       = List.length (fetch_complaints_from_db self limit
                        (get event "status_filter" (VStr "pending"))).
Proof.
  intros Hrows Hb Hf run. subst run.
  destruct (lambda_handler_run self event b Hb) as (limit & l & _ & _ & _ & _ & Hrun).
  cbv zeta in Hrun. rewrite Hrun. cbn [fst snd].
  destruct (process_batch_completes self (get event "force_ai_analysis" (VBool false))
              (fetch_complaints_from_db self limit
                 (get event "status_filter" (VStr "pending")))
              (Hrows _ _) run0) as (Hok & _).
  destruct (process_batch_forced self (get event "force_ai_analysis" (VBool false))
              (fetch_complaints_from_db self limit
                 (get event "status_filter" (VStr "pending")))
              Hf (Hrows _ _) run0)
    as ((Q1 & Q2 & Q3 & _ & Q5 & Q6 & (new & Q7 & Q8)) & He).
  rewrite Hok. split; [reflexivity|].
  split; [exact Q1|]. split; [exact Q2|]. split; [exact Q3|].
  split; [exact Q5|]. split; [exact Q6|].
  split; [rewrite Q7; exact Q8|].
  exists limit. exact He.
Qed.

Lemma forced_mode_processes_nothing_witness :
  processed_count (metrics (fst (lambda_handler forced_service
                                   [("force_ai_analysis", VBool true)]))) = 0%nat.
Proof.
  refine (proj1 (proj2 (forced_mode_processes_nothing forced_service
                          [("force_ai_analysis", VBool true)] 50
                          forced_rows_fetched eq_refl eq_refl))).
Defined.
